(** * MarketPlay: the fixed-price listing registry and its atomic settlement

    A shallow embedding of [FixedPriceMarketplace] (src/modules/FixedPrice),
    [AtomicTransactionManager] (src/core/atomic) and the parts of
    [AssetManager] and [PaymentManager] they call, followed by the
    properties of the listing registry and of the settlement group.

    Conventions of the embedding.
    - A JavaScript [number] is an IEEE 754 double.  The registry is embedded
      on the integers a microAlgo amount, an asset id, a percentage or a
      timestamp are meant to be: such a number is an integer of [Z], and
      [Math.floor (a / 100)] is then [Z.div a 100].  The two places where the
      code does arithmetic or comparisons on numbers it has not checked to be
      such integers, the input guards of [listAsset] and the royalty term,
      are embedded a second time on doubles ([Doubles]).  On integers below
      2^53 the two embeddings agree: the guards compare alike
      ([leb_ofZ_zero], [ltb_100_ofZ]), and the royalty term is the same
      number when the product is below 2^53 ([floor_of_product_over_100]);
      they differ above, and on [NaN], which no integer stands for.
    - An optional field ([royaltyRecipient?: string]) is an [option]; the
      truthiness tests the code performs on such fields are written out
      ([truthyString], [truthyNumber]).
    - An [async] method is a function from the state it can touch to a
      completion ([Return] or [Throw]) and the state left behind; a thrown
      error leaves every mutation made so far in place, as in JavaScript.
      Calls are run one after the other: the interleaving of several
      in-flight calls is outside this model.
    - A [Listing] is a value.  The code hands out the stored object itself
      from its queries; a caller that would write to it is outside this
      model, in which only the three mutating methods change the map.
    - The Algorand client (algod, algokit, the clock) and what algosdk and
      the runtime do on the values handed to them are an interface,
      [LedgerClient], over an arbitrary [World]; every theorem holds for every
      implementation of it.  [signTxn] and the transaction builders of
      algosdk are data constructors; the builders are those of algosdk on the
      numbers it accepts, integers from 0 to 2^53 - 1 for a number and to
      2^64 - 1 for a bigint ([builderAccepts]); a statement that depends on a
      transaction having been built says that its numbers are such
      ([purchaseInRange], [swapInRange]).
      [console.log] output is not recorded, but the evaluation of its
      argument is, where it can throw. *)

From Stdlib Require Import ZArith PArith String Ascii List Lia Bool.
From Stdlib Require Import DecimalString DecimalZ DecimalPos.
From Stdlib Require Import Floats.
Import ListNotations.

Local Open Scope string_scope.
Local Open Scope Z_scope.

(** ** JavaScript values *)

(** What a [throw] carries: an [Error] object with its message, or any other
    value. *)
Inductive Thrown : Type :=
| JsError (message : string)
| NonError.

(** [error instanceof Error ? error.message : 'Unknown error'] *)
Definition errorMessage (e : Thrown) : string :=
  match e with
  | JsError m => m
  | NonError => "Unknown error"
  end.

Inductive Completion (A : Type) : Type :=
| Return (a : A)
| Throw (e : Thrown).

Arguments Return {A} a.
Arguments Throw {A} e.

(** [`${n}`] for an integer [n]. *)
Definition numberToString (n : Z) : string :=
  NilZero.string_of_int (Z.to_int n).

(** No character of [s] is the separator ['_'] of a listing id. *)
Fixpoint underscoreFree (s : string) : bool :=
  match s with
  | EmptyString => true
  | String c s' => negb (Ascii.eqb c "_") && underscoreFree s'
  end.

(** Truthiness of an optional string: [undefined] and [''] are falsy. *)
Definition truthyString (s : option string) : bool :=
  match s with
  | Some s => negb (String.eqb s "")
  | None => false
  end.

(** Truthiness of an optional number: [undefined] and [0] are falsy. *)
Definition truthyNumber (n : option Z) : bool :=
  match n with
  | Some n => negb (Z.eqb n 0)
  | None => false
  end.

(** ** Numbers as the engine has them: IEEE 754 doubles *)

(** The double nearest to an integer; the integer itself when it is below
    2^53 in absolute value. *)
Definition Number_ofZ (n : Z) : float :=
  SF2Prim (binary_normalize prec emax n 0 false).

(** [Number.MAX_SAFE_INTEGER] *)
Definition MAX_SAFE_INTEGER : Z := 2 ^ 53 - 1.

(** [Math.floor]: a double without fractional bits (and an infinity, a NaN)
    is its own floor; any other is cut at the binary point, towards minus
    infinity. *)
Definition Math_floor (x : float) : float :=
  match Prim2SF x with
  | S754_finite s m e =>
      if Z.leb 0 e then x
      else
        let n := Z.div (cond_Zopp s (Zpos m)) (Z.pow 2 (- e)) in
        if Z.eqb n 0 then (if s then PrimFloat.neg_zero else PrimFloat.zero)
        else Number_ofZ n
  | _ => x
  end.

(** Truthiness of an optional number: [undefined], [0], [-0] and [NaN] are
    falsy. *)
Definition truthyDouble (n : option float) : bool :=
  match n with
  | Some x => negb (PrimFloat.eqb x PrimFloat.zero || PrimFloat.is_nan x)
  | None => false
  end.

(** The double of a positive integer below 2^53, as mantissa and exponent:
    the integer shifted left until it has 53 bits. *)
Definition mant (a : positive) : positive :=
  Nat.iter (Z.to_nat (53 - Zpos (digits2_pos a))) xO a.

Definition expo (a : positive) : Z := Zpos (digits2_pos a) - 53.

(** The double of an integer below 2^53 in absolute value. *)
Definition SF_ofZ (z : Z) : spec_float :=
  match z with
  | Z0 => S754_zero false
  | Zpos a => S754_finite false (mant a) (expo a)
  | Zneg a => S754_finite true (mant a) (expo a)
  end.

(** The mantissa of the double [100], whose exponent is [-46]. *)
Definition m100 : positive := 7036874417766400.

(** The second half of [binary_round_aux]: the rounded mantissa is shifted
    once more if rounding has made it one bit too long. *)
Definition renormalize (s : bool) (m : Z) (e : Z) : spec_float :=
  let '(mrs, e') := shr_fexp prec emax m e loc_Exact in
  match shr_m mrs with
  | Z0 => S754_zero s
  | Zpos m' =>
      if Z.leb e' (emax - prec) then S754_finite s m' e' else S754_infinity s
  | Zneg _ => S754_nan
  end.

(** ** Effects: state that survives a throw *)

Module Eff.

Definition t (S A : Type) : Type := S -> Completion A * S.

Definition ret {S A} (a : A) : t S A := fun s => (Return a, s).

Definition throw {S A} (e : Thrown) : t S A := fun s => (Throw e, s).

Definition bind {S A B} (m : t S A) (k : A -> t S B) : t S B :=
  fun s =>
    match m s with
    | (Return a, s') => k a s'
    | (Throw e, s') => (Throw e, s')
    end.

(** [try { m } catch (error) { h error }] *)
Definition tryCatch {S A} (m : t S A) (h : Thrown -> t S A) : t S A :=
  fun s =>
    match m s with
    | (Return a, s') => (Return a, s')
    | (Throw e, s') => h e s'
    end.

Definition gets {S A} (f : S -> A) : t S A := fun s => (Return (f s), s).

Definition modify {S} (f : S -> S) : t S unit := fun s => (Return tt, f s).

(** [if (c) throw new Error(msg)] *)
Definition throwIf {S} (c : bool) (msg : string) : t S unit :=
  if c then throw (JsError msg) else ret tt.

(** A synchronous computation that may throw, run inside a method. *)
Definition ofCompletion {S A} (c : Completion A) : t S A := fun s => (c, s).

End Eff.

Declare Scope eff_scope.
Delimit Scope eff_scope with eff.
Notation "x <- m ;; k" := (Eff.bind m (fun x => k))
  (at level 61, m at next level, right associativity) : eff_scope.
Notation "m ;;; k" := (Eff.bind m (fun _ => k))
  (at level 61, right associativity) : eff_scope.
Local Open Scope eff_scope.

(** ** [Map<string, V>]: keys in insertion order *)

Definition JsMap (V : Type) : Type := list (string * V).

Fixpoint Map_get {V} (k : string) (m : JsMap V) : option V :=
  match m with
  | [] => None
  | (k', v) :: m' => if String.eqb k' k then Some v else Map_get k m'
  end.

(** [set] replaces the value of a key that is present, where it stands, and
    appends a key that is not. *)
Fixpoint Map_set {V} (k : string) (v : V) (m : JsMap V) : JsMap V :=
  match m with
  | [] => [(k, v)]
  | (k', v') :: m' =>
      if String.eqb k' k then (k, v) :: m' else (k', v') :: Map_set k v m'
  end.

Definition Map_values {V} (m : JsMap V) : list V := map snd m.

Definition Map_size {V} (m : JsMap V) : Z := Z.of_nat (length m).

(** [arr.push(x)] *)
Definition push {A} (arr : list A) (x : A) : list A := (arr ++ [x])%list.

(** ** Data of the ledger client *)

Record Account : Type := { addr : string; sk : string }.

Record AssetHolding : Type := { asset_id : Z; holding_amount : Z }.

(** The fields of algod's account information the code reads. *)
Record AccountInfo : Type :=
  { info_amount : Z; info_assets : option (list AssetHolding) }.

Record SuggestedParams : Type :=
  { fee : Z; firstRound : Z; lastRound : Z; genesisID : string }.

Inductive TxnBody : Type :=
| Payment (from to : string) (amount : Z) (note : option string)
| AssetTransfer (from to : string) (assetIndex : Z) (amount : Z).

Record Transaction : Type :=
  { body : TxnBody; params : SuggestedParams; group : option string }.

Record SignedTxn : Type := { txn : Transaction; signedWith : string }.

(** The builders of algosdk, on the arguments they accept: for a payment an
    amount that is an integer from 0 to 2^53 - 1; for an asset transfer an
    asset index in that range and an amount, a bigint, from 0 to 2^64 - 1.
    On other arguments the builder of algosdk throws. *)
Definition makePaymentTxnWithSuggestedParamsFromObject
    (from to : string) (amount : Z) (note : option string)
    (suggestedParams : SuggestedParams) : Transaction :=
  {| body := Payment from to amount note;
     params := suggestedParams;
     group := None |}.

Definition makeAssetTransferTxnWithSuggestedParamsFromObject
    (from to : string) (assetIndex : Z) (amount : Z)
    (suggestedParams : SuggestedParams) : Transaction :=
  {| body := AssetTransfer from to assetIndex amount;
     params := suggestedParams;
     group := None |}.

(** [Number.isSafeInteger(n) && n >= 0] *)
Definition safeInteger (n : Z) : Prop := 0 <= n <= MAX_SAFE_INTEGER.

(** The numbers of a transaction lie in the range its builder accepts. *)
Definition builderAccepts (t : Transaction) : Prop :=
  match body t with
  | Payment _ _ amount _ => safeInteger amount
  | AssetTransfer _ _ assetIndex amount =>
      safeInteger assetIndex /\ 0 <= amount <= 2 ^ 64 - 1
  end.

Definition signTxn (t : Transaction) (secretKey : string) : SignedTxn :=
  {| txn := t; signedWith := secretKey |}.


(** [algosdk.ALGORAND_MIN_TX_FEE]; [PaymentManager.getMinFee] documents it as
    "currently 1000 = 0.001 ALGO". *)
Definition ALGORAND_MIN_TX_FEE : Z := 1000.

(** [algosdk.ALGORAND_MAX_TX_GROUP_SIZE] *)
Definition ALGORAND_MAX_TX_GROUP_SIZE : nat := 16.

(** The external collaborators.  Of algosdk and the runtime: the address
    check, the group id of an array of transactions, the error
    [assignGroupID] throws for a group of more than 16 transactions, the
    error [microalgosToAlgos] throws for an amount that is not a safe
    integer, and [Buffer.from(txns).toString('base64')] on an array of
    transactions, which may throw.  Of the client: the clock and the network
    calls, each of which may throw and may change the world. *)
Class LedgerClient : Type :=
  { World : Type;
    isValidAddress : string -> bool;
    computeGroupID : list Transaction -> string;
    groupSizeError : nat -> Thrown;
    microalgosError : Thrown;
    Buffer_from_base64 : list Transaction -> Completion string;
    Date_now : World -> Z * World;
    accountInformation : string -> World -> Completion AccountInfo * World;
    getTransactionParams : World -> Completion SuggestedParams * World;
    assetOptIn : Account -> Z -> World -> Completion string * World;
    sendRawTransaction : list SignedTxn -> World -> Completion string * World;
    waitForConfirmation : string -> Z -> World -> Completion unit * World }.

(** [txn.group = gid], what [assignGroupID] does to each transaction. *)
Definition setGroup (gid : string) (t : Transaction) : Transaction :=
  {| body := body t; params := params t; group := Some gid |}.

(** [algosdk.assignGroupID]: it throws for more than 16 transactions;
    otherwise every transaction of the array receives the group id computed
    from the whole array, and the array of them is returned.  (No caller
    hands it an empty array.) *)
Definition assignGroupID `{LedgerClient} (txns : list Transaction)
  : Completion (list Transaction) :=
  if Nat.ltb ALGORAND_MAX_TX_GROUP_SIZE (length txns)
  then Throw (groupSizeError (length txns))
  else Return (map (setGroup (computeGroupID txns)) txns).

(** [algosdk.microalgosToAlgos]: it throws for an amount that is negative or
    not a safe integer, and divides any other by 1e6. *)
Definition microalgosToAlgos `{LedgerClient} (microAlgos : Z)
  : Completion float :=
  if Z.ltb microAlgos 0 || Z.ltb MAX_SAFE_INTEGER microAlgos
  then Throw microalgosError
  else Return (PrimFloat.div (Number_ofZ microAlgos) 1000000%float).

(** The objects handed to algokit's [client.send.*] methods. *)
Record PaymentRequest : Type :=
  { pay_sender : string;
    pay_receiver : string;
    pay_amount : float;
    pay_note : option string;
    pay_signer : Account }.

Record AssetTransferRequest : Type :=
  { xfer_sender : string;
    xfer_receiver : string;
    xfer_assetId : Z;
    xfer_amount : Z;
    xfer_note : option string;
    xfer_signer : Account }.

Record AssetCreateRequest : Type :=
  { create_sender : string;
    create_total : Z;
    create_decimals : Z;
    create_assetName : string;
    create_unitName : string;
    create_url : option string;
    create_manager : string;
    create_reserve : string;
    create_freeze : string;
    create_clawback : string;
    create_signer : Account }.

(** algokit's senders: each builds, signs, submits and confirms one
    transaction, and may throw.  [send_payment] and [send_assetTransfer]
    yield [result.transaction.txID()], [send_assetCreate] yields
    [result.confirmation.assetIndex]. *)
Class AlgoKitClient `{LedgerClient} : Type :=
  { send_payment : PaymentRequest -> World -> Completion string * World;
    send_assetTransfer :
      AssetTransferRequest -> World -> Completion string * World;
    send_assetCreate : AssetCreateRequest -> World -> Completion Z * World }.

(** [value || fallback] on an optional string. *)
Definition orElse (value : option string) (fallback : string) : string :=
  match value with
  | Some v => if String.eqb v "" then fallback else v
  | None => fallback
  end.

(** [note ? new TextEncoder().encode(note) : undefined] *)
Definition encodeNote (note : option string) : option string :=
  if truthyString note then note else None.

(** ** AssetManager (src/core/assets) *)

Module AssetManager.
Section WithClient.
Context `{LedgerClient}.

Inductive Holdings : Type :=
| OneHolding (h : option AssetHolding)
| AllHoldings (hs : list AssetHolding).

Definition findHolding (assetId : Z) (assets : list AssetHolding)
  : option AssetHolding :=
  find (fun a => Z.eqb (asset_id a) assetId) assets.

Definition getAssetHolding (address : string) (assetId : option Z)
  : Eff.t World Holdings :=
  Eff.tryCatch
    (accountInfo <- accountInformation address ;;
     let assets :=
       match info_assets accountInfo with Some l => l | None => [] end in
     match assetId with
     | Some id => Eff.ret (OneHolding (findHolding id assets))
     | None => Eff.ret (AllHoldings assets)
     end)
    (fun error =>
       Eff.throw
         (JsError ("Failed to get asset holdings: " ++ errorMessage error))).

Definition optIn (account : Account) (assetId : Z) : Eff.t World string :=
  Eff.tryCatch
    (txID <- assetOptIn account assetId ;;
     Eff.ret txID)
    (fun error =>
       Eff.throw (JsError ("Opt-in failed: " ++ errorMessage error))).

End WithClient.

Section WithSenders.
Context `{AlgoKitClient}.

Definition createToken
    (creator : Account) (name unitName : string) (total decimals : Z)
    (url manager reserve freeze clawback : option string)
  : Eff.t World Z :=
  Eff.tryCatch
    (Eff.throwIf (Z.ltb decimals 0 || Z.gtb decimals 19)
       "Decimals must be 0-19" ;;;
     Eff.throwIf (Z.leb total 0) "Total supply must be positive" ;;;
     assetIndex <-
       send_assetCreate
         {| create_sender := addr creator;
            create_total := total;
            create_decimals := decimals;
            create_assetName := name;
            create_unitName := unitName;
            create_url := url;
            create_manager := orElse manager (addr creator);
            create_reserve := orElse reserve (addr creator);
            create_freeze := orElse freeze (addr creator);
            create_clawback := orElse clawback (addr creator);
            create_signer := creator |} ;;
     let assetId := assetIndex in
     Eff.ret assetId)
    (fun error =>
       Eff.throw (JsError ("Token creation failed: " ++ errorMessage error))).

Definition transferAsset
    (from : Account) (to : string) (assetId amount : Z) (note : option string)
  : Eff.t World string :=
  Eff.tryCatch
    (Eff.throwIf (negb (isValidAddress to))
       ("Invalid recipient address: " ++ to) ;;;
     Eff.throwIf (Z.leb amount 0) "Transfer amount must be positive" ;;;
     toInfo <- accountInformation to ;;
     let hasOptedIn :=
       match info_assets toInfo with
       | Some assets => existsb (fun a => Z.eqb (asset_id a) assetId) assets
       | None => false
       end in
     Eff.throwIf (negb hasOptedIn)
       ("Recipient " ++ to ++ " has not opted into asset "
        ++ numberToString assetId) ;;;
     txID <-
       send_assetTransfer
         {| xfer_sender := addr from;
            xfer_receiver := to;
            xfer_assetId := assetId;
            xfer_amount := amount;
            xfer_note := encodeNote note;
            xfer_signer := from |} ;;
     Eff.ret txID)
    (fun error =>
       Eff.throw (JsError ("Asset transfer failed: " ++ errorMessage error))).

End WithSenders.
End AssetManager.

(** ** PaymentManager (src/core/payments) *)

Module PaymentManager.
Section WithClient.
Context `{LedgerClient}.

Definition getMinFee : Z := ALGORAND_MIN_TX_FEE.

Definition calculateTotalCost (amount : Z) : Z := amount + getMinFee.

Definition hasSufficientBalance
    (address : string) (amount : Z) (includeFee : bool)
  : Eff.t World bool :=
  Eff.tryCatch
    (accountInfo <- accountInformation address ;;
     let required :=
       if includeFee then calculateTotalCost amount else amount in
     Eff.ret (Z.geb (info_amount accountInfo) required))
    (fun error =>
       Eff.throw (JsError ("Balance check failed: " ++ errorMessage error))).

End WithClient.

Inductive EscrowCondition : Type := asset_received | time_lock.

Section WithSenders.
Context `{AlgoKitClient}.

Definition sendPayment
    (from : Account) (to : string) (amount : Z) (note : option string)
  : Eff.t World string :=
  Eff.tryCatch
    (Eff.throwIf (negb (isValidAddress to))
       ("Invalid recipient address: " ++ to) ;;;
     Eff.throwIf (Z.leb amount 0)
       ("Amount must be positive, got: " ++ numberToString amount) ;;;
     algos <- Eff.ofCompletion (microalgosToAlgos amount) ;;
     txID <-
       send_payment
         {| pay_sender := addr from;
            pay_receiver := to;
            pay_amount := algos;
            pay_note := encodeNote note;
            pay_signer := from |} ;;
     Eff.ret txID)
    (fun error =>
       Eff.throw (JsError ("Payment failed: " ++ errorMessage error))).

Definition sendMicroAlgos (from : Account) (to : string) (microAlgos : Z)
  : Eff.t World string :=
  sendPayment from to microAlgos None.

Definition createEscrowPayment
    (buyer : Account) (seller : string) (amount : Z)
    (condition : EscrowCondition)
  : Eff.t World string :=
  Eff.tryCatch
    (Eff.throwIf (negb (isValidAddress seller))
       ("Invalid seller address: " ++ seller) ;;;
     match condition with
     | asset_received =>
         t <- (fun w => match Date_now w with (t, w') => (Return t, w') end) ;;
         Eff.ret ("escrow_pending_" ++ numberToString t)
     | time_lock =>
         Eff.throw
           (JsError
              "Time-lock escrows not yet implemented. Use atomic transactions instead.")
     end)
    (fun error =>
       Eff.throw (JsError ("Escrow creation failed: " ++ errorMessage error))).

End WithSenders.
End PaymentManager.

(** ** AtomicTransactionManager (src/core/atomic) *)

Module AtomicTransactionManager.
Section WithClient.
Context `{LedgerClient}.

Record PurchaseParams : Type :=
  { buyer : Account;
    seller : Account;
    assetId : Z;
    price : Z;
    royaltyRecipient : option string;
    royaltyAmount : option Z }.

(** [royaltyRecipient && royaltyAmount && royaltyAmount > 0] *)
Definition royaltyLegRequested (p : PurchaseParams) : bool :=
  truthyString (royaltyRecipient p)
  && truthyNumber (royaltyAmount p)
  && match royaltyAmount p with Some a => Z.gtb a 0 | None => false end.

(** [transactions[i]!.signTxn(sk)]: reading past the end of the array yields
    [undefined], whose [signTxn] is a [TypeError]. *)
Definition signAt (transactions : list Transaction) (i : nat)
    (secretKey : string) : Completion SignedTxn :=
  match nth_error transactions i with
  | Some t => Return (signTxn t secretKey)
  | None =>
      Throw (JsError "Cannot read properties of undefined (reading 'signTxn')")
  end.

(** The three [transactions.push] steps of [marketplacePurchase]. *)
Definition purchaseTransactions (p : PurchaseParams)
    (suggestedParams : SuggestedParams) : Completion (list Transaction) :=
  let transactions : list Transaction := [] in
  let transactions :=
    push transactions
      (makePaymentTxnWithSuggestedParamsFromObject
         (addr (buyer p)) (addr (seller p)) (price p) None suggestedParams) in
  let transactions :=
    push transactions
      (makeAssetTransferTxnWithSuggestedParamsFromObject
         (addr (seller p)) (addr (buyer p)) (assetId p) 1 suggestedParams) in
  if royaltyLegRequested p then
    match royaltyRecipient p, royaltyAmount p with
    | Some recipient, Some amount =>
        if negb (isValidAddress recipient) then
          Throw (JsError ("Invalid royalty recipient: " ++ recipient))
        else
          Return
            (push transactions
               (makePaymentTxnWithSuggestedParamsFromObject
                  (addr (buyer p)) recipient amount (Some "Royalty payment")
                  suggestedParams))
    | _, _ => Return transactions
    end
  else Return transactions.

(** The signing steps of [marketplacePurchase], on the grouped array. *)
Definition purchaseSignatures (p : PurchaseParams)
    (transactions : list Transaction) : Completion (list SignedTxn) :=
  let signedTxns : list SignedTxn := [] in
  match signAt transactions 0 (sk (buyer p)) with
  | Throw e => Throw e
  | Return s0 =>
      let signedTxns := push signedTxns s0 in
      match signAt transactions 1 (sk (seller p)) with
      | Throw e => Throw e
      | Return s1 =>
          let signedTxns := push signedTxns s1 in
          if Nat.eqb (length transactions) 3 then
            match signAt transactions 2 (sk (buyer p)) with
            | Throw e => Throw e
            | Return s2 => Return (push signedTxns s2)
            end
          else Return signedTxns
      end
  end.

Definition marketplacePurchase (p : PurchaseParams) : Eff.t World string :=
  Eff.tryCatch
    (suggestedParams <- getTransactionParams ;;
     transactions <-
       Eff.ofCompletion (purchaseTransactions p suggestedParams) ;;
     transactions <- Eff.ofCompletion (assignGroupID transactions) ;;
     signedTxns <- Eff.ofCompletion (purchaseSignatures p transactions) ;;
     txId <- sendRawTransaction signedTxns ;;
     waitForConfirmation txId 4 ;;;
     Eff.ret txId)
    (fun error =>
       Eff.throw
         (JsError ("Marketplace purchase failed: " ++ errorMessage error))).

(** [transactions.map((txn, i) => txn.signTxn(signers[i]!.sk))] *)
Fixpoint signEach (transactions : list Transaction) (signers : list Account)
  : Completion (list SignedTxn) :=
  match transactions with
  | [] => Return []
  | t :: ts =>
      match signers with
      | [] =>
          Throw (JsError "Cannot read properties of undefined (reading 'sk')")
      | a :: signers' =>
          match signEach ts signers' with
          | Return rest => Return (signTxn t (sk a) :: rest)
          | Throw e => Throw e
          end
      end
  end.

Definition executeAtomicGroup
    (transactions : list Transaction) (signers : list Account)
  : Eff.t World string :=
  Eff.tryCatch
    (Eff.throwIf (Nat.eqb (length transactions) 0)
       "No transactions provided" ;;;
     Eff.throwIf (negb (Nat.eqb (length transactions) (length signers)))
       "Number of transactions must match number of signers" ;;;
     transactions <- Eff.ofCompletion (assignGroupID transactions) ;;
     signedTxns <- Eff.ofCompletion (signEach transactions signers) ;;
     txId <- sendRawTransaction signedTxns ;;
     waitForConfirmation txId 4 ;;;
     Eff.ret txId)
    (fun error =>
       Eff.throw
         (JsError ("Atomic group execution failed: " ++ errorMessage error))).

(** [assignGroupID] sets the group of the two transaction objects and
    returns the array of them, which the code calls [groupID]: after the
    call, [paymentTxn] and [assetTxn] are its two elements.  The second
    [console.log] evaluates [Buffer.from(groupID).toString('base64')] on that
    array, inside the [try] and after the confirmation. *)
Definition atomicSwap
    (buyer seller : Account) (assetId assetAmount paymentAmount : Z)
  : Eff.t World string :=
  Eff.tryCatch
    (Eff.throwIf (Z.leb paymentAmount 0) "Payment amount must be positive" ;;;
     Eff.throwIf (Z.leb assetAmount 0) "Asset amount must be positive" ;;;
     suggestedParams <- getTransactionParams ;;
     let paymentTxn :=
       makePaymentTxnWithSuggestedParamsFromObject
         (addr buyer) (addr seller) paymentAmount None suggestedParams in
     let assetTxn :=
       makeAssetTransferTxnWithSuggestedParamsFromObject
         (addr seller) (addr buyer) assetId assetAmount suggestedParams in
     groupID <- Eff.ofCompletion (assignGroupID [paymentTxn; assetTxn]) ;;
     let paymentTxn := nth 0 groupID paymentTxn in
     let assetTxn := nth 1 groupID assetTxn in
     let signedPaymentTxn := signTxn paymentTxn (sk buyer) in
     let signedAssetTxn := signTxn assetTxn (sk seller) in
     txId <- sendRawTransaction [signedPaymentTxn; signedAssetTxn] ;;
     waitForConfirmation txId 4 ;;;
     Eff.ofCompletion (Buffer_from_base64 groupID) ;;;
     Eff.ret txId)
    (fun error =>
       Eff.throw (JsError ("Atomic swap failed: " ++ errorMessage error))).

End WithClient.
End AtomicTransactionManager.

(** ** FixedPriceMarketplace (src/modules/FixedPrice) *)

Module FixedPriceMarketplace.

Inductive Status : Type := active | sold | cancelled.

Definition Status_eqb (a b : Status) : bool :=
  match a, b with
  | active, active | sold, sold | cancelled, cancelled => true
  | _, _ => false
  end.

Record Listing : Type :=
  { id : string;
    assetId : Z;
    seller : string;
    price : Z;
    royaltyRecipient : option string;
    royaltyPercentage : option Z;
    createdAt : Z;
    status : Status }.

(** [listing.status = s] *)
Definition setStatus (listing : Listing) (s : Status) : Listing :=
  {| id := id listing;
     assetId := assetId listing;
     seller := seller listing;
     price := price listing;
     royaltyRecipient := royaltyRecipient listing;
     royaltyPercentage := royaltyPercentage listing;
     createdAt := createdAt listing;
     status := s |}.

(** Lines 127-130 of [buyAsset]: [let royaltyAmount = 0], overwritten by
    [Math.floor((listing.price * listing.royaltyPercentage) / 100)] when
    [listing.royaltyRecipient && listing.royaltyPercentage]. *)
Definition royaltyAmountOf (listing : Listing) : Z :=
  if truthyString (royaltyRecipient listing)
     && truthyNumber (royaltyPercentage listing)
  then
    match royaltyPercentage listing with
    | Some pct => (price listing * pct) / 100
    | None => 0
    end
  else 0.

Section WithClient.
Context `{LedgerClient}.

(** The object a marketplace instance owns: its [listings] map, and the
    world its client talks to. *)
Record Market : Type := { listings : JsMap Listing; world : World }.

(** A call into the client or into one of the managers: it sees and changes
    the world only. *)
Definition liftW {A} (m : Eff.t World A) : Eff.t Market A :=
  fun st =>
    match m (world st) with
    | (r, w) => (r, {| listings := listings st; world := w |})
    end.

Definition now : Eff.t Market Z :=
  fun st =>
    match Date_now (world st) with
    | (t, w) => (Return t, {| listings := listings st; world := w |})
    end.

(** [!holding || holding.amount === 0] on what [getAssetHolding] returned. *)
Definition notHeld (holding : AssetManager.Holdings) : bool :=
  match holding with
  | AssetManager.OneHolding None => true
  | AssetManager.OneHolding (Some h) => Z.eqb (holding_amount h) 0
  | AssetManager.AllHoldings _ => false
  end.

Definition listAsset
    (seller : Account) (assetId : Z) (price : Z)
    (royaltyRecipient : option string) (royaltyPercentage : option Z)
  : Eff.t Market string :=
  Eff.throwIf (Z.leb price 0) "Price must be positive" ;;;
  Eff.throwIf
    (truthyNumber royaltyPercentage
     && match royaltyPercentage with
        | Some pct => Z.ltb pct 0 || Z.gtb pct 100
        | None => false
        end)
    "Royalty percentage must be 0-100" ;;;
  Eff.throwIf
    (truthyString royaltyRecipient
     && match royaltyRecipient with
        | Some r => negb (isValidAddress r)
        | None => false
        end)
    ("Invalid royalty recipient: "
     ++ match royaltyRecipient with Some r => r | None => "undefined" end) ;;;
  holding <-
    liftW (AssetManager.getAssetHolding (addr seller) (Some assetId)) ;;
  Eff.throwIf (notHeld holding)
    ("Seller does not own asset " ++ numberToString assetId) ;;;
  t1 <- now ;;
  let listingId :=
    "listing_" ++ numberToString assetId ++ "_" ++ numberToString t1 in
  t2 <- now ;;
  let listing :=
    {| id := listingId;
       assetId := assetId;
       seller := addr seller;
       price := price;
       royaltyRecipient := royaltyRecipient;
       royaltyPercentage := royaltyPercentage;
       createdAt := t2;
       status := active |} in
  Eff.modify
    (fun st =>
       {| listings := Map_set listingId listing (listings st);
          world := world st |}) ;;;
  Eff.ret listingId.

(** [info.assets?.some(a => a['asset-id'] === assetId)]; [undefined] when the
    account has no [assets] field, which the caller treats as [false]. *)
Definition hasOptedInto (info : AccountInfo) (assetId : Z) : bool :=
  match info_assets info with
  | Some assets => existsb (fun a => Z.eqb (asset_id a) assetId) assets
  | None => false
  end.

Definition buyAsset
    (buyer : Account) (listingId : string) (sellerAccount : Account)
  : Eff.t Market string :=
  found <- Eff.gets (fun st => Map_get listingId (listings st)) ;;
  match found with
  | None => Eff.throw (JsError ("Listing " ++ listingId ++ " not found"))
  | Some listing =>
      Eff.throwIf (negb (Status_eqb (status listing) active))
        ("Listing " ++ listingId ++ " is not active") ;;;
      Eff.throwIf (negb (String.eqb (addr sellerAccount) (seller listing)))
        "Seller account does not match listing" ;;;
      info <- liftW (accountInformation (addr buyer)) ;;
      let hasOptedIn := hasOptedInto info (assetId listing) in
      (if negb hasOptedIn
       then liftW (AssetManager.optIn buyer (assetId listing)) ;;; Eff.ret tt
       else Eff.ret tt) ;;;
      let royaltyAmount := royaltyAmountOf listing in
      let totalCost :=
        price listing + royaltyAmount + ALGORAND_MIN_TX_FEE * 2 in
      hasFunds <-
        liftW (PaymentManager.hasSufficientBalance
                 (addr buyer) totalCost false) ;;
      Eff.throwIf (negb hasFunds)
        ("Insufficient balance. Need " ++ numberToString totalCost
         ++ " microAlgos (including fees)") ;;;
      txId <-
        liftW (AtomicTransactionManager.marketplacePurchase
                 {| AtomicTransactionManager.buyer := buyer;
                    AtomicTransactionManager.seller := sellerAccount;
                    AtomicTransactionManager.assetId := assetId listing;
                    AtomicTransactionManager.price := price listing;
                    AtomicTransactionManager.royaltyRecipient :=
                      royaltyRecipient listing;
                    AtomicTransactionManager.royaltyAmount :=
                      Some royaltyAmount |}) ;;
      Eff.modify
        (fun st =>
           {| listings :=
                Map_set listingId (setStatus listing sold) (listings st);
              world := world st |}) ;;;
      Eff.ret txId
  end.

Definition cancelListing (seller_ : Account) (listingId : string)
  : Eff.t Market unit :=
  found <- Eff.gets (fun st => Map_get listingId (listings st)) ;;
  match found with
  | None => Eff.throw (JsError ("Listing " ++ listingId ++ " not found"))
  | Some listing =>
      Eff.throwIf (negb (String.eqb (seller listing) (addr seller_)))
        "Only seller can cancel listing" ;;;
      Eff.throwIf (negb (Status_eqb (status listing) active))
        "Listing is not active" ;;;
      Eff.modify
        (fun st =>
           {| listings :=
                Map_set listingId (setStatus listing cancelled) (listings st);
              world := world st |})
  end.

Definition getListing (listingId : string) : Eff.t Market (option Listing) :=
  Eff.gets (fun st => Map_get listingId (listings st)).

Definition getActiveListings : Eff.t Market (list Listing) :=
  Eff.gets
    (fun st =>
       filter (fun l => Status_eqb (status l) active)
              (Map_values (listings st))).

Definition getListingsBySeller (sellerAddress : string)
  : Eff.t Market (list Listing) :=
  Eff.gets
    (fun st =>
       filter (fun l => String.eqb (seller l) sellerAddress)
              (Map_values (listings st))).

Definition getListingsByAsset (assetId_ : Z) : Eff.t Market (list Listing) :=
  Eff.gets
    (fun st =>
       filter (fun l => Z.eqb (assetId l) assetId_)
              (Map_values (listings st))).

Definition calculateTotalCost (listingId : string) : Eff.t Market Z :=
  found <- Eff.gets (fun st => Map_get listingId (listings st)) ;;
  match found with
  | None => Eff.throw (JsError ("Listing " ++ listingId ++ " not found"))
  | Some listing =>
      let total := price listing in
      let total :=
        if truthyString (royaltyRecipient listing)
           && truthyNumber (royaltyPercentage listing)
        then
          total + match royaltyPercentage listing with
                  | Some pct => (price listing * pct) / 100
                  | None => 0
                  end
        else total in
      let total := total + ALGORAND_MIN_TX_FEE * 2 in
      Eff.ret total
  end.

End WithClient.
End FixedPriceMarketplace.

(** ** The numbers of [FixedPriceMarketplace], as doubles

    [listAsset] stores the [price] and the [royaltyPercentage] it is given
    after comparing them with [0] and [100], and the royalty term multiplies
    and divides them: here both are embedded on the doubles they are. *)

Module Doubles.

Record Listing : Type :=
  { id : string;
    assetId : Z;
    seller : string;
    price : float;
    royaltyRecipient : option string;
    royaltyPercentage : option float;
    createdAt : Z;
    status : FixedPriceMarketplace.Status }.

(** A listing of integers, as the listing of doubles the code holds. *)
Definition ofListing (listing : FixedPriceMarketplace.Listing) : Listing :=
  {| id := FixedPriceMarketplace.id listing;
     assetId := FixedPriceMarketplace.assetId listing;
     seller := FixedPriceMarketplace.seller listing;
     price := Number_ofZ (FixedPriceMarketplace.price listing);
     royaltyRecipient := FixedPriceMarketplace.royaltyRecipient listing;
     royaltyPercentage :=
       option_map Number_ofZ
         (FixedPriceMarketplace.royaltyPercentage listing);
     createdAt := FixedPriceMarketplace.createdAt listing;
     status := FixedPriceMarketplace.status listing |}.

(** Lines 127-130 of [buyAsset]: [let royaltyAmount = 0], overwritten by
    [Math.floor((listing.price * listing.royaltyPercentage) / 100)] when
    [listing.royaltyRecipient && listing.royaltyPercentage]. *)
Definition royaltyAmountOf (listing : Listing) : float :=
  if truthyString (royaltyRecipient listing)
     && truthyDouble (royaltyPercentage listing)
  then
    match royaltyPercentage listing with
    | Some pct =>
        Math_floor
          (PrimFloat.div (PrimFloat.mul (price listing) pct) 100%float)
    | None => PrimFloat.zero
    end
  else PrimFloat.zero.

Section WithClient.
Context `{LedgerClient}.

Record Market : Type := { listings : JsMap Listing; world : World }.

(** A marketplace of listings of integers, as the marketplace of doubles
    the code holds. *)
Definition ofMarket (st : FixedPriceMarketplace.Market) : Market :=
  {| listings :=
       map (fun kv => (fst kv, ofListing (snd kv)))
           (FixedPriceMarketplace.listings st);
     world := FixedPriceMarketplace.world st |}.

Definition liftW {A} (m : Eff.t World A) : Eff.t Market A :=
  fun st =>
    match m (world st) with
    | (r, w) => (r, {| listings := listings st; world := w |})
    end.

Definition now : Eff.t Market Z :=
  fun st =>
    match Date_now (world st) with
    | (t, w) => (Return t, {| listings := listings st; world := w |})
    end.

Definition listAsset
    (seller : Account) (assetId : Z) (price : float)
    (royaltyRecipient : option string) (royaltyPercentage : option float)
  : Eff.t Market string :=
  Eff.throwIf (PrimFloat.leb price PrimFloat.zero) "Price must be positive" ;;;
  Eff.throwIf
    (truthyDouble royaltyPercentage
     && match royaltyPercentage with
        | Some pct =>
            PrimFloat.ltb pct PrimFloat.zero || PrimFloat.ltb 100%float pct
        | None => false
        end)
    "Royalty percentage must be 0-100" ;;;
  Eff.throwIf
    (truthyString royaltyRecipient
     && match royaltyRecipient with
        | Some r => negb (isValidAddress r)
        | None => false
        end)
    ("Invalid royalty recipient: "
     ++ match royaltyRecipient with Some r => r | None => "undefined" end) ;;;
  holding <-
    liftW (AssetManager.getAssetHolding (addr seller) (Some assetId)) ;;
  Eff.throwIf (FixedPriceMarketplace.notHeld holding)
    ("Seller does not own asset " ++ numberToString assetId) ;;;
  t1 <- now ;;
  let listingId :=
    "listing_" ++ numberToString assetId ++ "_" ++ numberToString t1 in
  t2 <- now ;;
  let listing :=
    {| id := listingId;
       assetId := assetId;
       seller := addr seller;
       price := price;
       royaltyRecipient := royaltyRecipient;
       royaltyPercentage := royaltyPercentage;
       createdAt := t2;
       status := FixedPriceMarketplace.active |} in
  Eff.modify
    (fun st =>
       {| listings := Map_set listingId listing (listings st);
          world := world st |}) ;;;
  Eff.ret listingId.

End WithClient.
End Doubles.

(** * Vocabulary of the statements *)

Import FixedPriceMarketplace.

Section Vocabulary.
Context `{LedgerClient}.

(** The listing a successful [listAsset] stores, given the two clock
    readings. *)
Definition listed (seller : Account) (assetId price : Z)
    (royaltyRecipient : option string) (royaltyPercentage : option Z)
    (t1 t2 : Z) : Listing :=
  {| id := "listing_" ++ numberToString assetId ++ "_" ++ numberToString t1;
     assetId := assetId;
     seller := addr seller;
     price := price;
     royaltyRecipient := royaltyRecipient;
     royaltyPercentage := royaltyPercentage;
     createdAt := t2;
     status := active |}.

(** The argument [buyAsset] hands to [marketplacePurchase]. *)
Definition purchaseOf (buyer sellerAccount : Account) (listing : Listing)
  : AtomicTransactionManager.PurchaseParams :=
  {| AtomicTransactionManager.buyer := buyer;
     AtomicTransactionManager.seller := sellerAccount;
     AtomicTransactionManager.assetId := assetId listing;
     AtomicTransactionManager.price := price listing;
     AtomicTransactionManager.royaltyRecipient := royaltyRecipient listing;
     AtomicTransactionManager.royaltyAmount :=
       Some (royaltyAmountOf listing) |}.

(** [totalCost] of [buyAsset] (line 133). *)
Definition totalCostOf (listing : Listing) : Z :=
  price listing + royaltyAmountOf listing + ALGORAND_MIN_TX_FEE * 2.

(** [buyAsset] up to and including the opt-in (lines 103-124): the listing
    it will try to buy. *)
Definition buyAsset_preconditions
    (buyer : Account) (listingId : string) (sellerAccount : Account)
  : Eff.t Market Listing :=
  found <- Eff.gets (fun st => Map_get listingId (listings st)) ;;
  match found with
  | None => Eff.throw (JsError ("Listing " ++ listingId ++ " not found"))
  | Some listing =>
      Eff.throwIf (negb (Status_eqb (status listing) active))
        ("Listing " ++ listingId ++ " is not active") ;;;
      Eff.throwIf (negb (String.eqb (addr sellerAccount) (seller listing)))
        "Seller account does not match listing" ;;;
      info <- liftW (accountInformation (addr buyer)) ;;
      (if negb (hasOptedInto info (assetId listing))
       then liftW (AssetManager.optIn buyer (assetId listing)) ;;; Eff.ret tt
       else Eff.ret tt) ;;;
      Eff.ret listing
  end.

(** [buyAsset] up to and including the balance check (lines 103-137). *)
Definition buyAsset_checks
    (buyer : Account) (listingId : string) (sellerAccount : Account)
  : Eff.t Market Listing :=
  listing <- buyAsset_preconditions buyer listingId sellerAccount ;;
  hasFunds <-
    liftW (PaymentManager.hasSufficientBalance
             (addr buyer) (totalCostOf listing) false) ;;
  Eff.throwIf (negb hasFunds)
    ("Insufficient balance. Need " ++ numberToString (totalCostOf listing)
     ++ " microAlgos (including fees)") ;;;
  Eff.ret listing.



(** NotFound: thrown when the listing id is not a key of the map. *)
Definition NotFound (listingId : string) (e : Thrown) : Prop :=
  e = JsError ("Listing " ++ listingId ++ " not found").


(** InvalidArgument, at [listAsset]: thrown by one of its three input
    guards. *)
Definition InvalidArgument (e : Thrown) : Prop :=
  e = JsError "Price must be positive"
  \/ e = JsError "Royalty percentage must be 0-100"
  \/ exists r, e = JsError ("Invalid royalty recipient: " ++ r).

(** Every key of [before] is a key of [after] and conversely, and a listing
    differs between the two only by having gone from [active] to [s]. *)
Definition onlyActiveTo (s : Status) (before after : JsMap Listing) : Prop :=
  forall k,
    match Map_get k before, Map_get k after with
    | Some l, Some l' => l' = l \/ (status l = active /\ l' = setStatus l s)
    | None, None => True
    | _, _ => False
    end.

(** The states a marketplace instance goes through: created with an empty
    map, then any sequence of its three mutating methods, the world changing
    freely in between. *)
Inductive reachable : Market -> Prop :=
| reach_new w : reachable {| listings := []; world := w |}
| reach_world st w :
    reachable st -> reachable {| listings := listings st; world := w |}
| reach_listAsset st seller assetId price rr rp :
    reachable st -> reachable (snd (listAsset seller assetId price rr rp st))
| reach_buyAsset st buyer listingId sellerAccount :
    reachable st -> reachable (snd (buyAsset buyer listingId sellerAccount st))
| reach_cancelListing st seller listingId :
    reachable st -> reachable (snd (cancelListing seller listingId st)).

(** A later event in the life of a marketplace: a purchase, a cancellation,
    or the world changing under it. *)
Inductive Call : Type :=
| CallBuy (buyer : Account) (listingId : string) (sellerAccount : Account)
| CallCancel (seller : Account) (listingId : string)
| WorldMoves (w : World).

Definition runCall (c : Call) (st : Market) : Market :=
  match c with
  | CallBuy buyer listingId sellerAccount =>
      snd (buyAsset buyer listingId sellerAccount st)
  | CallCancel seller listingId => snd (cancelListing seller listingId st)
  | WorldMoves w => {| listings := listings st; world := w |}
  end.

Definition runCalls (cs : list Call) (st : Market) : Market :=
  fold_left (fun st c => runCall c st) cs st.


(** The group [marketplacePurchase] submits once the transaction parameters
    [sp] are known, when it gets that far. *)
Definition purchaseGroup (p : AtomicTransactionManager.PurchaseParams)
    (sp : SuggestedParams) : Completion (list SignedTxn) :=
  match AtomicTransactionManager.purchaseTransactions p sp with
  | Throw e => Throw e
  | Return transactions =>
      match assignGroupID transactions with
      | Throw e => Throw e
      | Return transactions =>
          AtomicTransactionManager.purchaseSignatures p transactions
      end
  end.

(** The three input guards of [listAsset] let the call through. *)
Definition inputsAccepted (price : Z) (royaltyRecipient : option string)
    (royaltyPercentage : option Z) : Prop :=
  0 < price
  /\ (forall pct, royaltyPercentage = Some pct -> 0 <= pct <= 100)
  /\ (forall r, royaltyRecipient = Some r -> r <> "" ->
              isValidAddress r = true).

(** The id [listAsset] builds for an asset and a clock reading. *)
Definition listingIdOf (assetId t : Z) : string :=
  "listing_" ++ numberToString assetId ++ "_" ++ numberToString t.

(** No key occurs twice in the map. *)
Definition keysUnique (m : JsMap Listing) : Prop := NoDup (map fst m).

(** What holds of a listing stored under key [k] by [listAsset]: the key is
    the listing's own id, built from its asset, and the guards of
    [listAsset] held of its price and royalty fields. *)
Definition wellListed (k : string) (l : Listing) : Prop :=
  id l = k
  /\ (exists t, k = listingIdOf (assetId l) t)
  /\ 0 < price l
  /\ (forall pct, royaltyPercentage l = Some pct -> 0 <= pct <= 100)
  /\ (forall r, royaltyRecipient l = Some r -> r <> "" ->
              isValidAddress r = true).

Definition allWellListed (m : JsMap Listing) : Prop :=
  forall k l, Map_get k m = Some l -> wellListed k l.

(** How many listings [getActiveListings] returns. *)
Definition activeCount (m : JsMap Listing) : nat :=
  length (filter (fun l => Status_eqb (status l) active) (Map_values m)).

(** The numbers [marketplacePurchase] hands to the builders are such as the
    builders accept: the price, the asset id, and the royalty amount, whose
    leg is built only when it is positive. *)
Definition purchaseInRange (p : AtomicTransactionManager.PurchaseParams)
  : Prop :=
  safeInteger (AtomicTransactionManager.price p)
  /\ safeInteger (AtomicTransactionManager.assetId p)
  /\ (forall a,
        AtomicTransactionManager.royaltyAmount p = Some a ->
        a <= MAX_SAFE_INTEGER).

(** The same for [atomicSwap], whose guards have checked the two amounts to
    be positive. *)
Definition swapInRange (assetId assetAmount paymentAmount : Z) : Prop :=
  safeInteger assetId
  /\ assetAmount <= 2 ^ 64 - 1
  /\ paymentAmount <= MAX_SAFE_INTEGER.

(** The two transactions [atomicSwap] builds once the transaction
    parameters [sp] are known, with their group set: the array it calls
    [groupID]. *)
Definition swapTransactions (buyer seller : Account)
    (assetId assetAmount paymentAmount : Z) (sp : SuggestedParams)
  : list Transaction :=
  let paymentTxn :=
    makePaymentTxnWithSuggestedParamsFromObject
      (addr buyer) (addr seller) paymentAmount None sp in
  let assetTxn :=
    makeAssetTransferTxnWithSuggestedParamsFromObject
      (addr seller) (addr buyer) assetId assetAmount sp in
  let groupID := computeGroupID [paymentTxn; assetTxn] in
  [setGroup groupID paymentTxn; setGroup groupID assetTxn].

(** The group [atomicSwap] submits: the first of these signed with the
    buyer's key, the second with the seller's. *)
Definition swapGroup (buyer seller : Account)
    (assetId assetAmount paymentAmount : Z) (sp : SuggestedParams)
  : list SignedTxn :=
  map (fun ts => signTxn (fst ts) (snd ts))
      (combine
         (swapTransactions buyer seller assetId assetAmount paymentAmount sp)
         [sk buyer; sk seller]).

(** The group [executeAtomicGroup] submits: the transactions with their
    group set, each signed with the key of the signer at the same
    position. *)
Definition signedByPosition (transactions : list Transaction)
    (signers : list Account) : list SignedTxn :=
  map (fun ta => signTxn (fst ta) (sk (snd ta)))
      (combine (map (setGroup (computeGroupID transactions)) transactions)
               signers).

(** What is left to do once a group is signed: submit it, wait for its
    confirmation, and re-throw any failure under [prefix]. *)
Definition submitAndWait (prefix : string) (signedTxns : list SignedTxn)
  : Eff.t World string :=
  fun w =>
    match sendRawTransaction signedTxns w with
    | (Throw e, w1) => (Throw (JsError (prefix ++ errorMessage e)), w1)
    | (Return txId, w1) =>
        match waitForConfirmation txId 4 w1 with
        | (Throw e, w2) => (Throw (JsError (prefix ++ errorMessage e)), w2)
        | (Return _, w2) => (Return txId, w2)
        end
    end.

End Vocabulary.

(** ** A small ledger to run the code on

    One implementation of [LedgerClient], used for the concrete runs below:
    accounts are a table, the clock advances by [tick] at every reading (a
    [tick] of [0] is two readings within the same millisecond), the network
    is reachable or not, the node accepts submitted groups or rejects them,
    and every accepted group is recorded. *)

Module Sim.

Record SimWorld : Type :=
  { clock : Z;
    tick : Z;
    online : bool;
    accepting : bool;
    accounts : list (string * AccountInfo);
    submitted : list (list SignedTxn) }.

Fixpoint lookupAccount (a : string) (l : list (string * AccountInfo))
  : option AccountInfo :=
  match l with
  | [] => None
  | (a', i) :: l' => if String.eqb a' a then Some i else lookupAccount a l'
  end.

Fixpoint optInAccount (a : string) (assetId : Z)
    (l : list (string * AccountInfo)) : list (string * AccountInfo) :=
  match l with
  | [] => []
  | (a', i) :: l' =>
      if String.eqb a' a then
        (a', {| info_amount := info_amount i;
                info_assets :=
                  Some (push
                          match info_assets i with
                          | Some hs => hs
                          | None => []
                          end
                          {| asset_id := assetId; holding_amount := 0 |}) |})
        :: l'
      else (a', i) :: optInAccount a assetId l'
  end.

Definition setClock (w : SimWorld) (c : Z) : SimWorld :=
  {| clock := c; tick := tick w; online := online w;
     accepting := accepting w; accounts := accounts w;
     submitted := submitted w |}.

Definition setAccounts (w : SimWorld) (l : list (string * AccountInfo))
  : SimWorld :=
  {| clock := clock w; tick := tick w; online := online w;
     accepting := accepting w; accounts := l; submitted := submitted w |}.

Definition record (w : SimWorld) (g : list SignedTxn) : SimWorld :=
  {| clock := clock w; tick := tick w; online := online w;
     accepting := accepting w; accounts := accounts w;
     submitted := push (submitted w) g |}.

Definition unreachable {A} (w : SimWorld) : Completion A * SimWorld :=
  (Throw (JsError "network unreachable"), w).

Definition rejected {A} (w : SimWorld) : Completion A * SimWorld :=
  (Throw (JsError "transaction rejected"), w).

(** An asset transfer carries its amount as a bigint. *)
Definition isAssetTransfer (t : Transaction) : bool :=
  match body t with
  | AssetTransfer _ _ _ _ => true
  | Payment _ _ _ _ => false
  end.

(** On the small ledger the library errors have the messages of algosdk
    2.x, and an array holding a transaction with a bigint amount cannot be
    turned into a [Buffer]: its elements are converted to numbers through
    [JSON.stringify]. *)
Definition client : LedgerClient :=
  {| World := SimWorld;
     isValidAddress := fun s => String.prefix "ADDR-" s;
     computeGroupID := fun txns =>
       "group-of-" ++ numberToString (Z.of_nat (length txns));
     groupSizeError := fun n =>
       JsError (numberToString (Z.of_nat n)
                ++ " transactions grouped together but max group size is 16");
     microalgosError :=
       JsError "Microalgos should be positive and less than 2^53 - 1.";
     Buffer_from_base64 := fun txns =>
       if existsb isAssetTransfer txns
       then Throw (JsError "Do not know how to serialize a BigInt")
       else Return "AAA=";
     Date_now := fun w => (clock w, setClock w (clock w + tick w));
     accountInformation := fun a w =>
       if online w then
         match lookupAccount a (accounts w) with
         | Some i => (Return i, w)
         | None => (Throw (JsError "account not found"), w)
         end
       else unreachable w;
     getTransactionParams := fun w =>
       if online w then
         (Return {| fee := ALGORAND_MIN_TX_FEE;
                    firstRound := clock w;
                    lastRound := clock w + 1000;
                    genesisID := "sim-v1" |}, w)
       else unreachable w;
     assetOptIn := fun a assetId w =>
       if online w then
         (Return "optin-txid",
          setAccounts w (optInAccount (addr a) assetId (accounts w)))
       else unreachable w;
     sendRawTransaction := fun g w =>
       if negb (online w) then unreachable w
       else if negb (accepting w) then rejected w
       else
         (Return ("txid-" ++ numberToString (Z.of_nat (length (submitted w)))),
          record w g);
     waitForConfirmation := fun _ _ w =>
       if online w then (Return tt, w) else unreachable w |}.

(** A sender of the small ledger: it answers [a] when the network is
    reachable. *)
Definition simSend {A} (a : A) (w : SimWorld) : Completion A * SimWorld :=
  if online w then (Return a, w) else unreachable w.

Definition kit : @AlgoKitClient client :=
  @Build_AlgoKitClient client
    (fun _ => simSend "payment-txid")
    (fun _ => simSend "transfer-txid")
    (fun _ => simSend 1001).

Definition alice : Account := {| addr := "ADDR-ALICE"; sk := "sk-alice" |}.
Definition bob : Account := {| addr := "ADDR-BOB"; sk := "sk-bob" |}.
Definition carol : Account := {| addr := "ADDR-CAROL"; sk := "sk-carol" |}.

(** Alice and Carol each hold a unit of asset 42; Bob has 10 Algos and has
    opted into nothing. *)
Definition ledger0 (tick_ : Z) (online_ accepting_ : bool) : SimWorld :=
  {| clock := 1700000000000;
     tick := tick_;
     online := online_;
     accepting := accepting_;
     accounts :=
       [ ("ADDR-ALICE",
          {| info_amount := 1000000;
             info_assets :=
               Some [ {| asset_id := 42; holding_amount := 1 |} ] |});
         ("ADDR-BOB", {| info_amount := 10000000; info_assets := None |});
         ("ADDR-CAROL",
          {| info_amount := 2000;
             info_assets :=
               Some [ {| asset_id := 42; holding_amount := 1 |} ] |}) ];
     submitted := [] |}.

Definition market0 (tick_ : Z) (online_ accepting_ : bool)
  : @FixedPriceMarketplace.Market client :=
  @FixedPriceMarketplace.Build_Market client []
    (ledger0 tick_ online_ accepting_).

(** The id [listAsset] gives to a listing of asset 42 created at the
    initial clock reading. *)
Definition listing42 : string := "listing_42_1700000000000".

(** Alice has listed asset 42 for 5 Algos, without royalty. *)
Definition listedPlain (tick_ : Z) (online_ accepting_ : bool)
  : @FixedPriceMarketplace.Market client :=
  snd (FixedPriceMarketplace.listAsset alice 42 5000000 None None
         (market0 tick_ online_ accepting_)).

(** Alice has listed asset 42 for 5 Algos, with a 5 percent royalty to
    Carol. *)
Definition listedRoyalty (tick_ : Z) (online_ accepting_ : bool)
  : @FixedPriceMarketplace.Market client :=
  snd (FixedPriceMarketplace.listAsset alice 42 5000000
         (Some "ADDR-CAROL") (Some 5) (market0 tick_ online_ accepting_)).



(** Alice and then Carol list a unit of asset 42 within one millisecond. *)
Definition listedTwiceSameMs : @FixedPriceMarketplace.Market client :=
  snd (FixedPriceMarketplace.listAsset carol 42 7000000 None None
         (listedPlain 0 true true)).

(** Bob has bought Alice's listing without royalty. *)
Definition soldPlain : @FixedPriceMarketplace.Market client :=
  snd (FixedPriceMarketplace.buyAsset bob listing42 alice
         (listedPlain 1 true true)).


(** Two unsigned transactions, as a caller of [executeAtomicGroup] would
    hand them over. *)
Definition params0 : SuggestedParams :=
  {| fee := 1000; firstRound := 1; lastRound := 1001;
     genesisID := "sim-v1" |}.

Definition payment0 : Transaction :=
  makePaymentTxnWithSuggestedParamsFromObject
    "ADDR-BOB" "ADDR-ALICE" 5000000 None params0.

Definition transfer0 : Transaction :=
  makeAssetTransferTxnWithSuggestedParamsFromObject
    "ADDR-ALICE" "ADDR-BOB" 42 1 params0.

(** The listing Alice creates in [listedPlain 1]. *)
Definition plainListing : FixedPriceMarketplace.Listing :=
  listed alice 42 5000000 None None 1700000000000 1700000000001.

(** The listing Alice creates in [listedRoyalty 1]. *)
Definition royaltyListing : FixedPriceMarketplace.Listing :=
  listed alice 42 5000000 (Some "ADDR-CAROL") (Some 5)
    1700000000000 1700000000001.

(** The marketplace on doubles, empty. *)
Definition doubles0 : @Doubles.Market client :=
  @Doubles.Build_Market client [] (ledger0 1 true true).

(** Alice has listed asset 42 at a price of [NaN]. *)
Definition listedNaN : @Doubles.Market client :=
  snd (Doubles.listAsset alice 42 PrimFloat.nan None None doubles0).

End Sim.

(** * Properties *)

(** ** Doubles: products and quotients of integers below 2^53

    What the IEEE 754 operations of the engine do on the doubles of
    integers, from the specification of the primitive floats: the product of
    two integers is exact when it is below 2^53, and the floor of its
    quotient by 100 is then the integer quotient. *)

Lemma pow2_split k : 0 < k -> 2 ^ k = 2 * 2 ^ (k - 1).
Proof. intros Hk. rewrite <- Z.pow_succ_r by lia. f_equal. lia. Qed.

(** [digits2_pos m] is the number of bits of [m]. *)
Lemma digits2_bounds (m : positive) :
  2 ^ (Zpos (digits2_pos m) - 1) <= Zpos m < 2 ^ Zpos (digits2_pos m).
Proof.
  induction m as [m IH|m IH|]; cbn [digits2_pos]; [| |simpl; lia].
  all: rewrite Pos2Z.inj_succ.
  all: rewrite (pow2_split (Z.succ (Zpos (digits2_pos m)))) by lia.
  all: replace (Z.succ (Zpos (digits2_pos m)) - 1)
         with (Zpos (digits2_pos m)) by lia.
  all: rewrite (pow2_split (Zpos (digits2_pos m))) in * by lia.
  all: lia.
Qed.

Lemma digits2_unique (m : positive) k :
  2 ^ (k - 1) <= Zpos m < 2 ^ k -> Zpos (digits2_pos m) = k.
Proof.
  intros [Hlo Hhi]. pose proof (digits2_bounds m) as [Dlo Dhi].
  set (d := Zpos (digits2_pos m)) in *.
  assert (0 < d) by (subst d; lia).
  assert (Hk : 0 < k).
  { destruct (Z_lt_le_dec 0 k) as [|Hk]; [assumption|]. exfalso.
    destruct (Z.eq_dec k 0) as [->|Hneg]; [simpl in Hhi; lia|].
    rewrite Z.pow_neg_r in Hhi by lia. lia. }
  destruct (Z.lt_trichotomy d k) as [Hlt|[Heq|Hgt]]; [|exact Heq|].
  - assert (2 ^ d <= 2 ^ (k - 1)) by (apply Z.pow_le_mono_r; lia). lia.
  - assert (2 ^ k <= 2 ^ (d - 1)) by (apply Z.pow_le_mono_r; lia). lia.
Qed.

Lemma iter_pos_nat {A} (f : A -> A) n x :
  iter_pos f n x = Nat.iter (Pos.to_nat n) f x.
Proof.
  revert x. induction n as [n IH|n IH|]; intros x; cbn [iter_pos].
  - rewrite !IH, Pos2Nat.inj_xI, <- Nat.iter_add, <- Nat.iter_succ_r.
    f_equal. lia.
  - rewrite !IH, Pos2Nat.inj_xO, <- Nat.iter_add. f_equal. lia.
  - reflexivity.
Qed.

Lemma Zpos_iter_xO k a : Zpos (Nat.iter k xO a) = Zpos a * 2 ^ Z.of_nat k.
Proof.
  induction k as [|k IH].
  - simpl. lia.
  - rewrite Nat2Z.inj_succ, Z.pow_succ_r by lia. cbn [Nat.iter nat_rect].
    rewrite Pos2Z.inj_xO. unfold Nat.iter in IH. rewrite IH. lia.
Qed.

(** Shifting out [k] zero bits leaves no trace in the rounding bits. *)
Lemma shr_exact k a :
  Nat.iter k shr_1
    {| shr_m := Zpos (Nat.iter k xO a); shr_r := false; shr_s := false |}
  = {| shr_m := Zpos a; shr_r := false; shr_s := false |}.
Proof.
  induction k as [|k IH]; [reflexivity|].
  rewrite Nat.iter_succ_r. cbn [Nat.iter nat_rect shr_1 orb]. exact IH.
Qed.

Lemma fexp_eq e : -1021 <= e -> fexp prec emax e = e - 53.
Proof. intros He. unfold fexp, emin, prec, emax. lia. Qed.

Lemma shr_nat mrs e (k : nat) :
  shr mrs e (Z.of_nat k) = (Nat.iter k shr_1 mrs, e + Z.of_nat k).
Proof.
  destruct k as [|k].
  - cbn [Z.of_nat shr Nat.iter nat_rect]. now rewrite Z.add_0_r.
  - cbn [Z.of_nat shr]. rewrite iter_pos_nat, SuccNat2Pos.id_succ.
    reflexivity.
Qed.

Lemma digits_iter_xO k a :
  Zpos (digits2_pos (Nat.iter k xO a)) = Zpos (digits2_pos a) + Z.of_nat k.
Proof.
  induction k as [|k IH]; [simpl; lia|].
  cbn [Nat.iter nat_rect digits2_pos]. unfold Nat.iter in IH.
  rewrite Pos2Z.inj_succ, IH. lia.
Qed.

(** Rounding a mantissa that carries [k] zero bits below a 53-bit number
    drops those bits and nothing else. *)
Lemma binary_round_aux_exact s (A : positive) (k : nat) E :
  Zpos (digits2_pos A) = 53 ->
  -1074 <= E + Z.of_nat k <= 971 ->
  binary_round_aux prec emax s (Zpos (Nat.iter k xO A)) E loc_Exact
  = S754_finite s A (E + Z.of_nat k).
Proof.
  intros HA HE. unfold binary_round_aux, shr_fexp.
  cbn [Zdigits2]. rewrite digits_iter_xO, HA.
  rewrite fexp_eq by lia.
  replace (53 + Z.of_nat k + E - 53 - E) with (Z.of_nat k) by lia.
  rewrite shr_nat. cbn [shr_record_of_loc]. rewrite shr_exact.
  cbn [shr_m loc_of_shr_record round_nearest_even Zdigits2].
  rewrite HA. rewrite fexp_eq by lia.
  replace (53 + (E + Z.of_nat k) - 53 - (E + Z.of_nat k)) with 0 by lia.
  cbn [shr shr_record_of_loc shr_m].
  replace (E + Z.of_nat k <=? emax - prec) with true; [reflexivity|].
  symmetry. apply Z.leb_le. unfold emax, prec. lia.
Qed.

Lemma digits_le_53 a : Zpos a < 2 ^ 53 -> Zpos (digits2_pos a) <= 53.
Proof.
  intros Ha. pose proof (digits2_bounds a) as [Hlo _].
  destruct (Z_le_gt_dec (Zpos (digits2_pos a)) 53) as [|Hgt]; [assumption|].
  assert (2 ^ 53 <= 2 ^ (Zpos (digits2_pos a) - 1))
    by (apply Z.pow_le_mono_r; lia).
  lia.
Qed.

Lemma mant_digits a : Zpos a < 2 ^ 53 -> Zpos (digits2_pos (mant a)) = 53.
Proof.
  intros Ha. pose proof (digits_le_53 a Ha). unfold mant.
  rewrite digits_iter_xO, Z2Nat.id by lia. lia.
Qed.

Lemma mant_value a :
  Zpos a < 2 ^ 53 ->
  Zpos (mant a) = Zpos a * 2 ^ (53 - Zpos (digits2_pos a)).
Proof.
  intros Ha. pose proof (digits_le_53 a Ha). unfold mant.
  rewrite Zpos_iter_xO, Z2Nat.id by lia. reflexivity.
Qed.

Lemma digits_mul_lower p q :
  Zpos (digits2_pos p) + Zpos (digits2_pos q) - 1
  <= Zpos (digits2_pos (p * q)).
Proof.
  pose proof (digits2_bounds p) as [Hp _].
  pose proof (digits2_bounds q) as [Hq _].
  pose proof (digits2_bounds (p * q)) as [_ Ha].
  set (dp := Zpos (digits2_pos p)) in *. set (dq := Zpos (digits2_pos q)) in *.
  set (da := Zpos (digits2_pos (p * q))) in *.
  assert (0 < dp) by (subst dp; lia). assert (0 < dq) by (subst dq; lia).
  assert (0 < da) by (subst da; lia).
  rewrite Pos2Z.inj_mul in Ha.
  assert (2 ^ (dp - 1) * 2 ^ (dq - 1) <= Zpos p * Zpos q)
    by (apply Z.mul_le_mono_nonneg; try lia; apply Z.pow_nonneg; lia).
  rewrite <- Z.pow_add_r in * by lia.
  destruct (Z_le_gt_dec (dp + dq - 1) da) as [|Hgt]; [assumption|].
  assert (2 ^ da <= 2 ^ (dp - 1 + (dq - 1))) by (apply Z.pow_le_mono_r; lia).
  lia.
Qed.

(** The product of two integers is exact when it is below 2^53. *)
Lemma SFmul_integers p q :
  Zpos (p * q) < 2 ^ 53 ->
  SFmul prec emax
    (S754_finite false (mant p) (expo p))
    (S754_finite false (mant q) (expo q))
  = S754_finite false (mant (p * q)) (expo (p * q)).
Proof.
  intros Ha.
  assert (Hp : Zpos p < 2 ^ 53) by (rewrite Pos2Z.inj_mul in Ha; nia).
  assert (Hq : Zpos q < 2 ^ 53) by (rewrite Pos2Z.inj_mul in Ha; nia).
  pose proof (digits_le_53 p Hp) as Hdp.
  pose proof (digits_le_53 q Hq) as Hdq.
  pose proof (digits_le_53 (p * q) Ha) as Hda.
  pose proof (digits_mul_lower p q) as Hlow.
  set (dp := Zpos (digits2_pos p)) in *. set (dq := Zpos (digits2_pos q)) in *.
  set (da := Zpos (digits2_pos (p * q))) in *.
  assert (0 < dp) by (subst dp; lia). assert (0 < dq) by (subst dq; lia).
  cbn [SFmul xorb].
  set (k := Z.to_nat (53 - dp - dq + da)).
  assert (Hk : Z.of_nat k = 53 - dp - dq + da)
    by (subst k; rewrite Z2Nat.id; lia).
  assert (Hprod : (mant p * mant q)%positive = Nat.iter k xO (mant (p * q))).
  { apply Pos2Z.inj.
    rewrite Zpos_iter_xO, Pos2Z.inj_mul, !mant_value by assumption.
    fold dp dq da. rewrite Hk, Pos2Z.inj_mul.
    replace (Zpos p * Zpos q * 2 ^ (53 - da) * 2 ^ (53 - dp - dq + da))
      with (Zpos p * Zpos q * (2 ^ (53 - da) * 2 ^ (53 - dp - dq + da)))
      by ring.
    rewrite <- Z.pow_add_r by lia.
    replace (Zpos p * 2 ^ (53 - dp) * (Zpos q * 2 ^ (53 - dq)))
      with (Zpos p * Zpos q * (2 ^ (53 - dp) * 2 ^ (53 - dq))) by ring.
    rewrite <- Z.pow_add_r by lia. do 2 f_equal. lia. }
  rewrite Hprod.
  rewrite binary_round_aux_exact.
  - f_equal. unfold expo. fold dp dq da. lia.
  - now apply mant_digits.
  - unfold expo. fold dp dq. lia.
Qed.

Lemma loc_of_shr_record_of_loc m l :
  loc_of_shr_record (shr_record_of_loc m l) = l.
Proof. destruct l as [|[| |]]; reflexivity. Qed.

Lemma shr_m_of_loc m l : shr_m (shr_record_of_loc m l) = m.
Proof. destruct l as [|[| |]]; reflexivity. Qed.

Lemma round_nearest_even_cases m l :
  round_nearest_even m l = m \/ round_nearest_even m l = m + 1.
Proof.
  destruct l as [|[| |]]; cbn [round_nearest_even]; auto.
  destruct (Z.even m); auto.
Qed.

Lemma binary_round_aux_eq s mx ex lx :
  binary_round_aux prec emax s mx ex lx
  = let '(mrs, e) := shr_fexp prec emax mx ex lx in
    renormalize s (round_nearest_even (shr_m mrs) (loc_of_shr_record mrs)) e.
Proof. reflexivity. Qed.

Lemma renormalize_canonical s (m : positive) e :
  Zpos (digits2_pos m) = 53 ->
  -1074 <= e <= 971 ->
  renormalize s (Zpos m) e = S754_finite s m e.
Proof.
  intros Hm He. unfold renormalize, shr_fexp. cbn [Zdigits2]. rewrite Hm.
  rewrite fexp_eq by lia. replace (53 + e - 53 - e) with 0 by lia.
  cbn [shr shr_record_of_loc shr_m].
  replace (e <=? emax - prec) with true; [reflexivity|].
  symmetry. apply Z.leb_le. unfold emax, prec. lia.
Qed.

Lemma renormalize_top s (p : positive) e :
  Zpos (digits2_pos p) = 53 ->
  -1074 <= e <= 970 ->
  renormalize s (Zpos p~0) e = S754_finite s p (e + 1).
Proof.
  intros Hp He. unfold renormalize, shr_fexp. cbn [Zdigits2 digits2_pos].
  rewrite Pos2Z.inj_succ, Hp.
  rewrite fexp_eq by lia. replace (Z.succ 53 + e - 53 - e) with 1 by lia.
  cbn [shr iter_pos shr_record_of_loc shr_1 orb shr_m].
  replace (e + 1 <=? emax - prec) with true; [reflexivity|].
  symmetry. apply Z.leb_le. unfold emax, prec. lia.
Qed.

Lemma digits_53 (m : positive) :
  4503599627370496 <= Zpos m < 9007199254740992 ->
  Zpos (digits2_pos m) = 53.
Proof. intros Hm. apply digits2_unique. exact Hm. Qed.

Lemma digits_53_bounds (m : positive) :
  Zpos (digits2_pos m) = 53 ->
  4503599627370496 <= Zpos m < 9007199254740992.
Proof.
  intros Hm. pose proof (digits2_bounds m) as Hb. rewrite Hm in Hb. exact Hb.
Qed.

(** Rounding a quotient of 53 bits: the mantissa is kept or goes up by one;
    when that reaches 2^53 it is halved and the exponent goes up. *)
Lemma binary_round_aux_53 s (q : positive) e l :
  Zpos (digits2_pos q) = 53 ->
  -1074 <= e <= 970 ->
  exists m e',
    binary_round_aux prec emax s (Zpos q) e l = S754_finite s m e'
    /\ ((Zpos m = Zpos q /\ e' = e)
        \/ (Zpos m = Zpos q + 1 /\ e' = e)
        \/ (2 * Zpos m = Zpos q + 1 /\ e' = e + 1)).
Proof.
  intros Hq He. pose proof (digits_53_bounds q Hq) as Hb.
  rewrite binary_round_aux_eq. unfold shr_fexp. cbn [Zdigits2]. rewrite Hq.
  rewrite fexp_eq by lia.
  replace (53 + e - 53 - e) with 0 by lia. cbn [shr].
  rewrite loc_of_shr_record_of_loc, shr_m_of_loc.
  destruct (round_nearest_even_cases (Zpos q) l) as [-> | ->].
  - exists q, e. split; [|left; split; reflexivity].
    apply renormalize_canonical; [exact Hq|lia].
  - change (Zpos q + 1) with (Zpos (q + 1)).
    destruct (Z.eq_dec (Zpos (q + 1)) 9007199254740992) as [Htop|Hnot].
    + (* the mantissa has reached 2^53 *)
      assert (Hsucc : Zpos (q + 1) = Zpos q + 1) by lia.
      destruct (q + 1)%positive as [p|p|]; try lia.
      exists p, (e + 1). split; [|right; right; split; lia].
      apply renormalize_top; [|lia]. apply digits_53. lia.
    + exists (q + 1)%positive, e. split; [|right; left; split; lia].
      apply renormalize_canonical; [|lia]. apply digits_53. lia.
Qed.

(** Rounding a quotient of 54 bits: its last bit is dropped, and the
    mantissa goes up by one only if that bit was set. *)
Lemma binary_round_aux_54 s (q : positive) e l :
  9007199254740992 <= Zpos q < 18014398509481982 ->
  -1074 <= e <= 969 ->
  exists m,
    binary_round_aux prec emax s (Zpos q) e l = S754_finite s m (e + 1)
    /\ (Zpos q = 2 * Zpos m
        \/ Zpos q = 2 * Zpos m + 1
        \/ Zpos q + 1 = 2 * Zpos m).
Proof.
  intros Hb He.
  assert (Hq : Zpos (digits2_pos q) = 54)
    by (apply digits2_unique; simpl; lia).
  rewrite binary_round_aux_eq. unfold shr_fexp. cbn [Zdigits2]. rewrite Hq.
  rewrite fexp_eq by lia.
  replace (54 + e - 53 - e) with 1 by lia. cbn [shr iter_pos].
  destruct q as [p|p|]; [| |lia].
  - (* odd quotient *)
    assert (Hp : Zpos (digits2_pos p) = 53) by (apply digits_53; lia).
    assert (Hp1 : Zpos (digits2_pos (p + 1)) = 53) by (apply digits_53; lia).
    destruct l as [|[| |]]; cbn [shr_record_of_loc shr_1 orb shr_m
                                  loc_of_shr_record round_nearest_even].
    + destruct (Z.even (Zpos p)).
      * exists p. split; [apply renormalize_canonical; [exact Hp|lia]|lia].
      * exists (p + 1)%positive.
        split; [apply renormalize_canonical; [exact Hp1|lia]|lia].
    + exists (p + 1)%positive.
      split; [apply renormalize_canonical; [exact Hp1|lia]|lia].
    + exists (p + 1)%positive.
      split; [apply renormalize_canonical; [exact Hp1|lia]|lia].
    + exists (p + 1)%positive.
      split; [apply renormalize_canonical; [exact Hp1|lia]|lia].
  - (* even quotient *)
    assert (Hp : Zpos (digits2_pos p) = 53) by (apply digits_53; lia).
    destruct l as [|[| |]]; cbn [shr_record_of_loc shr_1 orb shr_m
                                  loc_of_shr_record round_nearest_even];
      exists p; (split; [apply renormalize_canonical; [exact Hp|lia]|lia]).
Qed.

Lemma Prim2SF_100 : Prim2SF 100%float = S754_finite false m100 (-46).
Proof. reflexivity. Qed.

Lemma SFdiv_core_100 (A : positive) ea :
  Zpos (digits2_pos A) = 53 ->
  -52 <= ea <= 0 ->
  SFdiv_core_binary prec emax (Zpos A) ea (Zpos m100) (-46)
  = (Zpos A * 2 ^ 53 / Zpos m100, ea - 7,
     new_location (Zpos m100) (Zpos A * 2 ^ 53 mod Zpos m100)).
Proof.
  intros HA He. unfold SFdiv_core_binary. cbn [Zdigits2]. rewrite HA.
  change (Zpos (digits2_pos m100)) with 53.
  rewrite fexp_eq by lia.
  replace (Z.min (53 + ea - (53 + -46) - 53) (ea - -46)) with (ea - 7) by lia.
  replace (ea - -46 - (ea - 7)) with 53 by lia.
  rewrite Z.shiftl_mul_pow2 by lia.
  unfold Z.div, Z.modulo.
  destruct (Z.div_eucl (Zpos A * 2 ^ 53) (Zpos m100)) as [q r]. reflexivity.
Qed.

(** The quotient by 100 on [T]-ths and the integer quotient. *)
Lemma quotient_floor a T :
  0 <= a -> 128 <= T ->
  (a * T / 100) / T = a / 100 /\ (a * T / 100 + 1) / T = a / 100.
Proof.
  intros Ha HT.
  pose proof (Z.div_mod a 100 ltac:(lia)) as Ea.
  pose proof (Z.mod_pos_bound a 100 ltac:(lia)) as Ba.
  set (Q0 := a / 100) in *. set (R0 := a mod 100) in *.
  pose proof (Z.div_mod (a * T) 100 ltac:(lia)) as Eq.
  pose proof (Z.mod_pos_bound (a * T) 100 ltac:(lia)) as Bq.
  set (q := a * T / 100) in *. set (r := (a * T) mod 100) in *.
  assert (Hlo : Q0 * T <= q) by nia.
  assert (Hhi : q + 1 < (Q0 + 1) * T) by nia.
  split; symmetry.
  - apply Z.div_unique with (r := q - Q0 * T); [left|]; lia.
  - apply Z.div_unique with (r := q + 1 - Q0 * T); [left|]; lia.
Qed.

Lemma div_bounds x T Q :
  0 < T -> x / T = Q -> Q * T <= x < (Q + 1) * T.
Proof.
  intros HT <-. pose proof (Z.div_mod x T ltac:(lia)).
  pose proof (Z.mod_pos_bound x T HT). lia.
Qed.

Lemma div_from_bounds x T Q :
  0 < T -> Q * T <= x < (Q + 1) * T -> x / T = Q.
Proof.
  intros HT Hb. symmetry.
  apply Z.div_unique with (r := x - Q * T); [left|]; lia.
Qed.

(** Dividing the double of an integer below 2^53 by 100 gives a double whose
    integer part is the integer quotient. *)
Lemma SFdiv_integer_100 (a : positive) :
  Zpos a < 2 ^ 53 ->
  exists m e,
    SFdiv prec emax (S754_finite false (mant a) (expo a))
      (S754_finite false m100 (-46))
    = S754_finite false m e
    /\ e < 0
    /\ Zpos m / 2 ^ (- e) = Zpos a / 100.
Proof.
  intros Ha.
  pose proof (digits_le_53 a Ha) as Hd.
  pose proof (mant_digits a Ha) as HA.
  pose proof (mant_value a Ha) as HV.
  pose proof (digits_53_bounds _ HA) as HB.
  assert (0 < Zpos (digits2_pos a)) by lia.
  set (d := Zpos (digits2_pos a)) in *.
  cbn [SFdiv xorb].
  rewrite SFdiv_core_100 by (exact HA || (unfold expo; fold d; lia)).
  set (T := 2 ^ (60 - d)).
  assert (HT : 128 <= T).
  { subst T. change 128 with (2 ^ 7). apply Z.pow_le_mono_r; lia. }
  assert (HT2 : T = 2 * 2 ^ (59 - d)).
  { subst T. rewrite (pow2_split (60 - d)) by lia. do 2 f_equal. lia. }
  assert (Hq : Zpos (mant a) * 2 ^ 53 / Zpos m100 = Zpos a * T / 100).
  { rewrite HV. change (Zpos m100) with (100 * 2 ^ 46).
    replace (Zpos a * 2 ^ (53 - d) * 2 ^ 53)
      with (Zpos a * T * 2 ^ 46).
    - apply Z.div_mul_cancel_r; lia.
    - subst T. rewrite <- !Z.mul_assoc, <- !Z.pow_add_r by lia.
      do 2 f_equal. lia. }
  rewrite Hq.
  destruct (quotient_floor (Zpos a) T ltac:(lia) HT) as [K0 K1].
  set (l := new_location _ _). clearbody l.
  set (q := Zpos a * T / 100) in *.
  assert (Hqlo : 4503599627370496 <= q).
  { subst q. apply Z.div_le_lower_bound; [lia|].
    assert (Zpos a * T = Zpos (mant a) * 128).
    { rewrite HV. subst T. change 128 with (2 ^ 7).
      rewrite <- !Z.mul_assoc, <- !Z.pow_add_r by lia. do 2 f_equal. lia. }
    lia. }
  assert (Hqhi : q < 18014398509481982).
  { subst q. apply Z.div_lt_upper_bound; [lia|].
    assert (Zpos a * T = Zpos (mant a) * 128).
    { rewrite HV. subst T. change 128 with (2 ^ 7).
      rewrite <- !Z.mul_assoc, <- !Z.pow_add_r by lia. do 2 f_equal. lia. }
    lia. }
  clearbody q. destruct q as [|q|q]; try lia.
  assert (Hpow : 2 ^ (- (expo a - 7)) = T)
    by (subst T; unfold expo; fold d; f_equal; lia).
  assert (Hpow1 : 2 ^ (- (expo a - 7 + 1)) = 2 ^ (59 - d))
    by (unfold expo; fold d; f_equal; lia).
  assert (Hpos : 0 < 2 ^ (59 - d)) by (apply Z.pow_pos_nonneg; lia).
  assert (He : -59 <= expo a - 7 <= -7) by (unfold expo; fold d; lia).
  pose proof (div_bounds (Zpos q) T _ ltac:(lia) K0) as [B0 _].
  pose proof (div_bounds (Zpos q + 1) T _ ltac:(lia) K1) as [_ B1].
  set (Q := Zpos a / 100) in *. clearbody Q.
  set (T' := 2 ^ (59 - d)) in *. clearbody T'. subst T.
  destruct (Z_lt_le_dec (Zpos q) 9007199254740992) as [Hlt|Hge].
  - destruct (binary_round_aux_53 false q (expo a - 7) l
                ltac:(apply digits_53; lia) ltac:(lia))
      as (m & e' & Hr & [[Hm ->]|[[Hm ->]|[Hm ->]]]).
    + exists m, (expo a - 7). split; [exact Hr|]. split; [lia|].
      rewrite Hpow. apply div_from_bounds; lia.
    + exists m, (expo a - 7). split; [exact Hr|]. split; [lia|].
      rewrite Hpow. apply div_from_bounds; lia.
    + exists m, (expo a - 7 + 1). split; [exact Hr|]. split; [lia|].
      rewrite Hpow1. apply div_from_bounds; lia.
  - destruct (binary_round_aux_54 false q (expo a - 7) l
                ltac:(lia) ltac:(lia))
      as (m & Hr & Hm).
    exists m, (expo a - 7 + 1). split; [exact Hr|]. split; [lia|].
    rewrite Hpow1. apply div_from_bounds; lia.
Qed.

(** ** Doubles: the comparisons of [listAsset] on integers *)

Lemma binary_round_integer s a :
  Zpos a < 2 ^ 53 ->
  binary_round prec emax s a 0 = S754_finite s (mant a) (expo a).
Proof.
  intros Ha. pose proof (digits_le_53 a Ha) as Hd.
  pose proof (mant_digits a Ha) as Hm.
  unfold binary_round.
  rewrite Z.add_0_r, fexp_eq by lia.
  assert (Halign :
    shl_align a 0 (Zpos (digits2_pos a) - 53) = (mant a, expo a)).
  { unfold shl_align, mant, expo. rewrite Z.sub_0_r.
    destruct (Zpos (digits2_pos a) - 53) as [|d|d] eqn:E; [| lia |].
    - replace (53 - Zpos (digits2_pos a)) with 0 by lia. simpl.
      reflexivity.
    - replace (53 - Zpos (digits2_pos a)) with (Zpos d) by lia.
      rewrite Pos2Nat.inj_iter. cbn [Z.to_nat]. reflexivity. }
  rewrite Halign.
  pose proof (binary_round_aux_exact s (mant a) 0 (expo a) Hm) as Hr.
  cbn [Nat.iter nat_rect Z.of_nat] in Hr. rewrite Z.add_0_r in Hr.
  apply Hr. unfold expo. pose proof (Pos2Z.is_pos (digits2_pos a)). lia.
Qed.

Lemma valid_integer s (a : positive) :
  Zpos a < 2 ^ 53 ->
  valid_binary (S754_finite s (mant a) (expo a)) = true.
Proof.
  intros Ha. pose proof (digits_le_53 a Ha).
  assert (0 < Zpos (digits2_pos a)) by lia.
  unfold valid_binary. cbn [SpecFloat.valid_binary].
  unfold bounded, canonical_mantissa.
  rewrite (mant_digits a Ha), fexp_eq by (unfold expo; lia).
  apply andb_true_intro. split.
  - apply Z.eqb_eq. lia.
  - apply Z.leb_le. unfold expo, emax, prec. lia.
Qed.

(** [Number_ofZ] on the integers below 2^53 in absolute value. *)
Lemma Prim2SF_ofZ z :
  Z.abs z < 2 ^ 53 -> Prim2SF (Number_ofZ z) = SF_ofZ z.
Proof.
  intros Hz. unfold Number_ofZ.
  destruct z as [|a|a]; cbn [binary_normalize SF_ofZ].
  - reflexivity.
  - rewrite binary_round_integer by exact Hz.
    apply Prim2SF_SF2Prim. now apply valid_integer.
  - rewrite binary_round_integer by exact Hz.
    apply Prim2SF_SF2Prim. now apply valid_integer.
Qed.

Lemma leb_ofZ_zero z :
  Z.abs z < 2 ^ 53 ->
  PrimFloat.leb (Number_ofZ z) PrimFloat.zero = Z.leb z 0.
Proof.
  intros Hz. rewrite leb_spec, Prim2SF_ofZ by exact Hz.
  destruct z; reflexivity.
Qed.

Lemma ltb_ofZ_zero z :
  Z.abs z < 2 ^ 53 ->
  PrimFloat.ltb (Number_ofZ z) PrimFloat.zero = Z.ltb z 0.
Proof.
  intros Hz. rewrite ltb_spec, Prim2SF_ofZ by exact Hz.
  destruct z; reflexivity.
Qed.

Lemma eqb_ofZ_zero z :
  Z.abs z < 2 ^ 53 ->
  PrimFloat.eqb (Number_ofZ z) PrimFloat.zero = Z.eqb z 0.
Proof.
  intros Hz. rewrite FloatAxioms.eqb_spec, Prim2SF_ofZ by exact Hz.
  destruct z; reflexivity.
Qed.

Lemma is_nan_ofZ z :
  Z.abs z < 2 ^ 53 -> PrimFloat.is_nan (Number_ofZ z) = false.
Proof.
  intros Hz. unfold PrimFloat.is_nan.
  rewrite FloatAxioms.eqb_spec, Prim2SF_ofZ by exact Hz.
  destruct z as [|a|a]; [reflexivity| |]; unfold SFeqb;
    cbn [SF_ofZ SFcompare];
    rewrite Z.compare_refl, Pos.compare_cont_refl; reflexivity.
Qed.

Lemma truthyDouble_ofZ z :
  Z.abs z < 2 ^ 53 ->
  truthyDouble (Some (Number_ofZ z)) = truthyNumber (Some z).
Proof.
  intros Hz. unfold truthyDouble, truthyNumber.
  rewrite eqb_ofZ_zero, is_nan_ofZ by exact Hz. now rewrite orb_false_r.
Qed.

Lemma ltb_100_ofZ z :
  Z.abs z < 2 ^ 53 ->
  PrimFloat.ltb 100%float (Number_ofZ z) = Z.ltb 100 z.
Proof.
  intros Hz. rewrite ltb_spec, Prim2SF_100, Prim2SF_ofZ by exact Hz.
  destruct z as [|a|a]; [reflexivity| |reflexivity].
  unfold SFltb. cbn [SF_ofZ SFcompare].
  pose proof (digits2_bounds a) as [Hlo Hhi].
  pose proof (digits_le_53 a Hz) as Hd.
  pose proof (mant_value a Hz) as Hv.
  unfold expo.
  set (d := Zpos (digits2_pos a)) in *.
  assert (0 < d) by (subst d; lia).
  destruct (Z.compare_spec (-46) (d - 53)) as [Heq|Hlt|Hgt].
  - (* seven bits, as 100 has: the mantissas decide *)
    assert (d = 7) as Hd7 by lia. rewrite Hd7 in *.
    change (Pos.compare_cont Eq m100 (mant a))
      with (Pos.compare m100 (mant a)).
    rewrite Pos2Z.inj_compare, Hv.
    change (2 ^ (53 - 7)) with 70368744177664.
    change (Zpos m100) with 7036874417766400.
    destruct (Z.compare_spec 7036874417766400 (Zpos a * 70368744177664));
      symmetry; [apply Z.ltb_ge|apply Z.ltb_lt|apply Z.ltb_ge]; lia.
  - (* more than seven bits: at least 128 *)
    assert (2 ^ 7 <= 2 ^ (d - 1)) by (apply Z.pow_le_mono_r; lia).
    change (2 ^ 7) with 128 in *.
    symmetry. apply Z.ltb_lt. lia.
  - (* fewer than seven bits: below 64 *)
    assert (2 ^ d <= 2 ^ 6) by (apply Z.pow_le_mono_r; lia).
    change (2 ^ 6) with 64 in *.
    symmetry. apply Z.ltb_ge. lia.
Qed.

(** ** Doubles: the royalty term on integers *)

Theorem floor_of_product_over_100 (p q : Z) :
  0 < p -> 0 < q -> p * q < 2 ^ 53 ->
  Math_floor
    (PrimFloat.div (PrimFloat.mul (Number_ofZ p) (Number_ofZ q)) 100%float)
  = Number_ofZ (p * q / 100).
Proof.
  intros Hp Hq Hpq.
  destruct p as [|p|p]; try lia. destruct q as [|q|q]; try lia.
  change (Zpos p * Zpos q) with (Zpos (p * q)) in *.
  assert (Zpos p < 2 ^ 53) by (rewrite Pos2Z.inj_mul in Hpq; nia).
  assert (Zpos q < 2 ^ 53) by (rewrite Pos2Z.inj_mul in Hpq; nia).
  unfold Math_floor.
  rewrite div_spec, mul_spec, !Prim2SF_ofZ, Prim2SF_100 by assumption.
  cbn [SF_ofZ]. unfold SF64div, SF64mul.
  rewrite SFmul_integers by exact Hpq.
  destruct (SFdiv_integer_100 (p * q) Hpq) as (m & e & -> & He & Hm).
  destruct (Z.leb_spec 0 e); [lia|].
  cbn [cond_Zopp]. cbv zeta. rewrite Hm.
  destruct (Z.eqb_spec (Zpos (p * q) / 100) 0) as [->|_]; reflexivity.
Qed.

(** The royalty term on doubles and on integers: they agree on a positive
    price and a percentage that is not negative whose product is below
    2^53. *)
Lemma royaltyAmountOf_in_doubles (l : Listing) :
  0 < price l ->
  (forall pct,
      royaltyPercentage l = Some pct -> 0 <= pct /\ price l * pct < 2 ^ 53) ->
  Doubles.royaltyAmountOf (Doubles.ofListing l)
  = Number_ofZ (royaltyAmountOf l).
Proof.
  intros Hprice Hrange.
  unfold Doubles.royaltyAmountOf, royaltyAmountOf, Doubles.ofListing.
  cbn [Doubles.royaltyRecipient Doubles.royaltyPercentage Doubles.price].
  destruct (truthyString (royaltyRecipient l)); cbn [andb]; [|reflexivity].
  destruct (royaltyPercentage l) as [pct|]; cbn [option_map truthyNumber];
    [|reflexivity].
  destruct (Hrange pct eq_refl) as [Hnn Hlt].
  destruct (Z.eqb_spec pct 0) as [->|Hnz]; cbn [negb]; [reflexivity|].
  rewrite (floor_of_product_over_100 (price l) pct) by lia.
  rewrite truthyDouble_ofZ by nia. cbn [truthyNumber].
  destruct (Z.eqb_spec pct 0); [contradiction|reflexivity].
Qed.

(** ** The map *)

Lemma Map_get_set_same {V} (k : string) (v : V) (m : JsMap V) :
  Map_get k (Map_set k v m) = Some v.
Proof.
  induction m as [|[k' v'] m IH]; simpl.
  - now rewrite String.eqb_refl.
  - destruct (String.eqb k' k) eqn:E; simpl.
    + now rewrite String.eqb_refl.
    + now rewrite E.
Qed.

Lemma Map_get_set_other {V} (k k' : string) (v : V) (m : JsMap V) :
  k' <> k -> Map_get k' (Map_set k v m) = Map_get k' m.
Proof.
  intros Hne. induction m as [|[k0 v0] m IH]; simpl.
  - destruct (String.eqb_spec k k'); congruence.
  - destruct (String.eqb_spec k0 k) as [->|Hk0]; simpl.
    + destruct (String.eqb_spec k k'); congruence.
    + destruct (String.eqb_spec k0 k'); congruence.
Qed.

Lemma Map_set_size {V} (k : string) (v : V) (m : JsMap V) :
  Map_size (Map_set k v m)
  = match Map_get k m with
    | Some _ => Map_size m
    | None => Map_size m + 1
    end.
Proof.
  unfold Map_size. induction m as [|[k0 v0] m IH]; simpl length.
  - reflexivity.
  - simpl Map_get. destruct (String.eqb k0 k); simpl length.
    + reflexivity.
    + destruct (Map_get k m); lia.
Qed.

Lemma Status_eqb_eq (a b : Status) : Status_eqb a b = true <-> a = b.
Proof. destruct a, b; simpl; split; congruence. Qed.

(** ** Listing ids *)

Lemma uint_underscoreFree d :
  underscoreFree (NilEmpty.string_of_uint d) = true.
Proof. induction d; simpl; auto. Qed.

Lemma numberToString_underscoreFree z :
  underscoreFree (numberToString z) = true.
Proof.
  unfold numberToString, NilZero.string_of_int, NilZero.string_of_uint.
  destruct (Z.to_int z) as [d|d]; destruct d; simpl;
    auto using uint_underscoreFree.
Qed.

Lemma numberToString_inj z z' :
  numberToString z = numberToString z' -> z = z'.
Proof.
  unfold numberToString. intros Heq.
  apply (f_equal NilZero.int_of_string) in Heq.
  assert (Hnn : forall n,
             Z.to_int n <> Decimal.Pos Decimal.Nil
             /\ Z.to_int n <> Decimal.Neg Decimal.Nil).
  { intros [|q|q]; simpl; split; try discriminate; intros Hq;
      injection Hq as Hq; apply (Unsigned.to_uint_nonnil q Hq). }
  rewrite !NilZero.isi in Heq by apply Hnn.
  injection Heq as Heq. now apply to_int_inj.
Qed.

Lemma split_at_underscore a a' t t' :
  underscoreFree a = true ->
  underscoreFree a' = true ->
  a ++ String "_" t = a' ++ String "_" t' ->
  a = a' /\ t = t'.
Proof.
  revert a'. induction a as [|c a IH]; intros [|c' a']; simpl;
    intros Ha Ha' Heq.
  - injection Heq as <-. auto.
  - injection Heq as <- _. discriminate Ha'.
  - injection Heq as -> _. discriminate Ha.
  - injection Heq as <- Heq.
    apply andb_true_iff in Ha as (_ & Ha), Ha' as (_ & Ha').
    destruct (IH a' Ha Ha' Heq) as (<- & <-). auto.
Qed.

(** Two listing ids are equal only for the same asset and the same clock
    reading. *)
Lemma listingId_inj a t a' t' :
  "listing_" ++ numberToString a ++ "_" ++ numberToString t
  = "listing_" ++ numberToString a' ++ "_" ++ numberToString t' ->
  a = a' /\ t = t'.
Proof.
  intros Heq. simpl in Heq. injection Heq as Heq.
  apply split_at_underscore in Heq;
    try apply numberToString_underscoreFree.
  destruct Heq as (Ha & Ht). split; now apply numberToString_inj.
Qed.

(** ** How each method runs *)

Ltac eff_unfold :=
  unfold Eff.bind, Eff.tryCatch, Eff.throwIf, Eff.ret, Eff.throw, Eff.gets,
    Eff.modify, Eff.ofCompletion, liftW, now in *.

(** Case analysis on the next test or call that decides the run. *)
Ltac eff_case :=
  match goal with
  | |- context [if ?b then _ else _] =>
      let E := fresh "E" in destruct b eqn:E
  | |- context [match ?f ?w with (_, _) => _ end] =>
      let r := fresh "r" in
      let w' := fresh "w" in
      let E := fresh "E" in
      destruct (f w) as [r w'] eqn:E;
      match type of r with
      | Completion _ => destruct r
      | _ => idtac
      end
  end; cbv beta iota; cbn [listings world] in *.

Section Runs.
Context `{LedgerClient}.

Lemma listAsset_run seller assetId price rr rp (st : Market) :
  match listAsset seller assetId price rr rp st with
  | (Throw _, st') => listings st' = listings st
  | (Return k, st') =>
      exists t1 t2 w1 w2,
        Date_now w1 = (t1, w2)
        /\ k = "listing_" ++ numberToString assetId ++ "_" ++ numberToString t1
        /\ 0 < price
        /\ listings st'
           = Map_set k (listed seller assetId price rr rp t1 t2) (listings st)
  end.
Proof.
  unfold listAsset, AssetManager.getAssetHolding. eff_unfold.
  destruct (Z.leb_spec price 0); cbv beta iota; [reflexivity|].
  repeat (eff_case; try reflexivity).
  cbn [listings world] in *.
  eexists _, _, _, _. repeat split; eauto.
Qed.

(** What the checks of [buyAsset] establish, and that they leave the map
    alone. *)
Lemma buyAsset_preconditions_run buyer k sellerAccount (st : Market) :
  match buyAsset_preconditions buyer k sellerAccount st with
  | (Throw _, st') => listings st' = listings st
  | (Return l, st') =>
      listings st' = listings st
      /\ Map_get k (listings st) = Some l
      /\ status l = active
      /\ addr sellerAccount = seller l
  end.
Proof.
  unfold buyAsset_preconditions. eff_unfold.
  destruct (Map_get k (listings st)) as [l|] eqn:Hget; [|reflexivity].
  destruct (Status_eqb (status l) active) eqn:Hs; cbn [negb];
    [|reflexivity].
  destruct (String.eqb_spec (addr sellerAccount) (seller l)); cbn [negb];
    [|reflexivity].
  apply Status_eqb_eq in Hs.
  repeat (eff_case; try reflexivity); auto.
Qed.

Lemma buyAsset_checks_run buyer k sellerAccount (st : Market) :
  match buyAsset_checks buyer k sellerAccount st with
  | (Throw _, st') => listings st' = listings st
  | (Return l, st') =>
      listings st' = listings st
      /\ Map_get k (listings st) = Some l
      /\ status l = active
      /\ addr sellerAccount = seller l
  end.
Proof.
  unfold buyAsset_checks.
  pose proof (buyAsset_preconditions_run buyer k sellerAccount st) as Hpre.
  unfold Eff.bind at 1.
  destruct (buyAsset_preconditions buyer k sellerAccount st) as [[l|e] st1];
    [|exact Hpre].
  destruct Hpre as (Hl & Hrest). eff_unfold.
  repeat (eff_case; try assumption); auto.
Qed.

(** [buyAsset] is its checks, then the settlement, then the status update. *)
Lemma buyAsset_split buyer k sellerAccount (st : Market) :
  buyAsset buyer k sellerAccount st
  = (listing <- buyAsset_checks buyer k sellerAccount ;;
     txId <-
       liftW (AtomicTransactionManager.marketplacePurchase
                (purchaseOf buyer sellerAccount listing)) ;;
     Eff.modify
       (fun st =>
          {| listings := Map_set k (setStatus listing sold) (listings st);
             world := world st |}) ;;;
     Eff.ret txId) st.
Proof.
  unfold buyAsset, buyAsset_checks, buyAsset_preconditions, purchaseOf,
    totalCostOf.
  eff_unfold.
  destruct (Map_get k (listings st)) as [l|]; [|reflexivity].
  repeat (eff_case; try reflexivity).
Qed.

(** The listings map after [buyAsset], whatever it returned. *)
Lemma buyAsset_listings buyer k sellerAccount (st : Market) :
  listings (snd (buyAsset buyer k sellerAccount st)) = listings st
  \/ exists l,
       Map_get k (listings st) = Some l
       /\ status l = active
       /\ listings (snd (buyAsset buyer k sellerAccount st))
          = Map_set k (setStatus l sold) (listings st).
Proof.
  pose proof (buyAsset_checks_run buyer k sellerAccount st) as Hchk.
  rewrite buyAsset_split. unfold Eff.bind, Eff.modify, Eff.ret, liftW.
  destruct (buyAsset_checks buyer k sellerAccount st) as [[l|e] st1].
  - destruct Hchk as (Hl & Hget & Hact & _).
    destruct (AtomicTransactionManager.marketplacePurchase _ (world st1))
      as [[txId|e] w2]; cbn [listings world snd].
    + right. exists l. rewrite Hl. auto.
    + now left.
  - now left.
Qed.

Lemma cancelListing_eq seller_ k (st : Market) :
  cancelListing seller_ k st
  = match Map_get k (listings st) with
    | None => (Throw (JsError ("Listing " ++ k ++ " not found")), st)
    | Some l =>
        if negb (String.eqb (seller l) (addr seller_)) then
          (Throw (JsError "Only seller can cancel listing"), st)
        else if negb (Status_eqb (status l) active) then
          (Throw (JsError "Listing is not active"), st)
        else
          (Return tt,
           {| listings := Map_set k (setStatus l cancelled) (listings st);
              world := world st |})
    end.
Proof.
  unfold cancelListing. eff_unfold.
  destruct (Map_get k (listings st)) as [l|]; [|reflexivity].
  repeat (eff_case; try reflexivity).
Qed.

Lemma onlyActiveTo_refl s (m : JsMap Listing) : onlyActiveTo s m m.
Proof. intros k. destruct (Map_get k m); auto. Qed.

Lemma onlyActiveTo_set s k l (m : JsMap Listing) :
  Map_get k m = Some l -> status l = active ->
  onlyActiveTo s m (Map_set k (setStatus l s) m).
Proof.
  intros Hget Hact k'. destruct (string_dec k' k) as [->|Hne].
  - rewrite Map_get_set_same, Hget. auto.
  - rewrite Map_get_set_other by assumption.
    destruct (Map_get k' m); auto.
Qed.


(** A successful [listAsset] adds an entry unless its id was a key already,
    in which case it replaces that entry. *)
Lemma listAsset_size seller0 assetId0 price0 rr rp (st : Market) k st' :
  listAsset seller0 assetId0 price0 rr rp st = (Return k, st') ->
  Map_size (listings st')
  = match Map_get k (listings st) with
    | Some _ => Map_size (listings st)
    | None => Map_size (listings st) + 1
    end.
Proof.
  intros Hrun.
  pose proof (listAsset_run seller0 assetId0 price0 rr rp st) as Hspec.
  rewrite Hrun in Hspec.
  destruct Hspec as (t1 & t2 & w1 & w2 & _ & _ & _ & ->).
  apply Map_set_size.
Qed.

Lemma onlyActiveTo_keeps_terminal s k l (m m' : JsMap Listing) :
  onlyActiveTo s m m' ->
  Map_get k m = Some l ->
  status l <> active ->
  Map_get k m' = Some l.
Proof.
  intros Honly Hget Hterm. specialize (Honly k). rewrite Hget in Honly.
  destruct (Map_get k m') as [l'|]; [|contradiction].
  destruct Honly as [->|(Hact & _)]; [reflexivity|contradiction].
Qed.

Lemma runCall_onlyActive (c : Call) (st : Market) :
  exists s, onlyActiveTo s (listings st) (listings (runCall c st)).
Proof.
  destruct c as [buyer k sellerAccount|seller0 k|w]; cbn [runCall].
  - exists sold.
    destruct (buyAsset_listings buyer k sellerAccount st)
      as [->|(l & Hget & Hact & ->)].
    + apply onlyActiveTo_refl.
    + now apply onlyActiveTo_set.
  - exists cancelled. rewrite cancelListing_eq.
    destruct (Map_get k (listings st)) as [l|] eqn:Hget;
      [|apply onlyActiveTo_refl].
    destruct (String.eqb (seller l) (addr seller0)); cbn [negb];
      [|apply onlyActiveTo_refl].
    destruct (Status_eqb (status l) active) eqn:Hs; cbn [negb];
      [|apply onlyActiveTo_refl].
    apply Status_eqb_eq in Hs. now apply onlyActiveTo_set.
  - exists sold. apply onlyActiveTo_refl.
Qed.

Lemma runCalls_keeps_terminal (cs : list Call) (st : Market) k l :
  Map_get k (listings st) = Some l ->
  status l <> active ->
  Map_get k (listings (runCalls cs st)) = Some l.
Proof.
  revert st. induction cs as [|c cs IH]; intros st Hget Hterm.
  - exact Hget.
  - cbn [runCalls fold_left]. apply IH; [|exact Hterm].
    destruct (runCall_onlyActive c st) as (s & Honly).
    exact (onlyActiveTo_keeps_terminal s k l _ _ Honly Hget Hterm).
Qed.

(** A [buyAsset] that returns has settled the purchase of the stored
    listing. *)
Lemma buyAsset_returns_settled buyer k sellerAccount (st : Market) txId st' :
  buyAsset buyer k sellerAccount st = (Return txId, st') ->
  exists l st1 w2,
    Map_get k (listings st) = Some l
    /\ AtomicTransactionManager.marketplacePurchase
         (purchaseOf buyer sellerAccount l) (world st1)
       = (Return txId, w2).
Proof.
  pose proof (buyAsset_checks_run buyer k sellerAccount st) as Hchk.
  rewrite buyAsset_split. unfold Eff.bind, Eff.modify, Eff.ret, liftW.
  destruct (buyAsset_checks buyer k sellerAccount st) as [[l|e] st1];
    [|discriminate].
  destruct Hchk as (_ & Hget & _).
  destruct (AtomicTransactionManager.marketplacePurchase _ (world st1))
    as [[tx|e] w2] eqn:Hs; [|discriminate].
  intros Hret. injection Hret as <- _. exists l, st1, w2. auto.
Qed.

(** [marketplacePurchase], call by call. *)
Lemma marketplacePurchase_eq (p : AtomicTransactionManager.PurchaseParams) w :
  AtomicTransactionManager.marketplacePurchase p w
  = let failed (e : Thrown) :=
      JsError ("Marketplace purchase failed: " ++ errorMessage e) in
    match getTransactionParams w with
    | (Throw e, w1) => (Throw (failed e), w1)
    | (Return sp, w1) =>
        match purchaseGroup p sp with
        | Throw e => (Throw (failed e), w1)
        | Return signedTxns =>
            match sendRawTransaction signedTxns w1 with
            | (Throw e, w2) => (Throw (failed e), w2)
            | (Return txId, w2) =>
                match waitForConfirmation txId 4 w2 with
                | (Throw e, w3) => (Throw (failed e), w3)
                | (Return _, w3) => (Return txId, w3)
                end
            end
        end
    end.
Proof.
  unfold AtomicTransactionManager.marketplacePurchase, purchaseGroup.
  eff_unfold. cbv zeta.
  destruct (getTransactionParams w) as [[sp|e] w1]; [|reflexivity].
  destruct (AtomicTransactionManager.purchaseTransactions p sp)
    as [transactions|e]; [|reflexivity].
  destruct (assignGroupID transactions) as [grouped|e]; [|reflexivity].
  destruct (AtomicTransactionManager.purchaseSignatures p grouped)
    as [signedTxns|e]; [|reflexivity].
  destruct (sendRawTransaction signedTxns w1) as [[txId|e] w2];
    [|reflexivity].
  destruct (waitForConfirmation txId 4 w2) as [[u|e] w3]; reflexivity.
Qed.

End Runs.

(** ** The registry and the settlement *)

Section Registry.
Context `{LedgerClient}.

(** C1. [buyAsset] sets the status of the listing to [sold] only after
    [atomic.marketplacePurchase] has returned: a call that returns has run
    the checks and the settlement to their end and then stored the listing
    as [sold]; a call in which a check throws, or in which the settlement
    throws, throws that same error and leaves the listings map as it was. *)
Theorem buyAsset_sold_only_after_settlement
    buyer k sellerAccount (st : Market) :
  (match buyAsset buyer k sellerAccount st with
   | (Throw _, st') => listings st' = listings st
   | (Return txId, st') =>
       exists l st1 w2,
         buyAsset_checks buyer k sellerAccount st = (Return l, st1)
         /\ AtomicTransactionManager.marketplacePurchase
              (purchaseOf buyer sellerAccount l) (world st1)
            = (Return txId, w2)
         /\ Map_get k (listings st) = Some l
         /\ status l = active
         /\ st' = {| listings := Map_set k (setStatus l sold) (listings st);
                     world := w2 |}
   end)
  /\ (forall e st1,
        buyAsset_checks buyer k sellerAccount st = (Throw e, st1) ->
        buyAsset buyer k sellerAccount st = (Throw e, st1)
        /\ listings st1 = listings st)
  /\ (forall l st1 e w2,
        buyAsset_checks buyer k sellerAccount st = (Return l, st1) ->
        AtomicTransactionManager.marketplacePurchase
          (purchaseOf buyer sellerAccount l) (world st1)
        = (Throw e, w2) ->
        buyAsset buyer k sellerAccount st
        = (Throw e, {| listings := listings st; world := w2 |})).
Proof.
  pose proof (buyAsset_checks_run buyer k sellerAccount st) as Hchk.
  rewrite buyAsset_split. unfold Eff.bind, Eff.modify, Eff.ret, liftW.
  destruct (buyAsset_checks buyer k sellerAccount st) as [[l|e] st1].
  - destruct Hchk as (Hl & Hget & Hact & _).
    split; [|split].
    + destruct (AtomicTransactionManager.marketplacePurchase _ (world st1))
        as [[txId|e] w2] eqn:Hs; cbn [listings world].
      * exists l, st1, w2. rewrite Hl. auto.
      * exact Hl.
    + intros e st2 Hthrow. discriminate Hthrow.
    + intros l' st2 e w2 Hret Hs. injection Hret as <- <-.
      rewrite Hs. cbn [listings world]. now rewrite Hl.
  - split; [exact Hchk|split].
    + intros e' st2 Hthrow. injection Hthrow as <- <-. auto.
    + intros l st2 e' w2 Hret. discriminate Hret.
Qed.



(** C9, at the failing input.  The guard of [listAsset] is [price <= 0],
    and it does throw "Price must be positive", leaving the marketplace as
    it was, for every double that is at most zero.  But [NaN <= 0] is
    false: whoever holds the asset can list it at a price of [NaN]; the call
    returns an id and the listing is stored with the price [NaN], which is
    not above zero.  On the small ledger Alice, who holds asset 42, does
    so. *)
Theorem listAsset_stores_NaN_price :
  (forall seller assetId price rr rp (st : Doubles.Market),
      PrimFloat.leb price PrimFloat.zero = true ->
      Doubles.listAsset seller assetId price rr rp st
      = (Throw (JsError "Price must be positive"), st))
  /\ PrimFloat.leb PrimFloat.nan PrimFloat.zero = false
  /\ PrimFloat.ltb PrimFloat.zero PrimFloat.nan = false
  /\ (forall seller assetId (st : Doubles.Market) info w1 h,
        accountInformation (addr seller) (Doubles.world st)
        = (Return info, w1) ->
        AssetManager.findHolding assetId
          match info_assets info with Some hs => hs | None => [] end
        = Some h ->
        holding_amount h <> 0 ->
        exists k st',
          Doubles.listAsset seller assetId PrimFloat.nan None None st
          = (Return k, st')
          /\ option_map Doubles.price (Map_get k (Doubles.listings st'))
             = Some PrimFloat.nan)
  /\ fst (Doubles.listAsset Sim.alice 42 PrimFloat.nan None None
            Sim.doubles0)
     = Return "listing_42_1700000000000"
  /\ option_map Doubles.price
       (Map_get "listing_42_1700000000000" (Doubles.listings Sim.listedNaN))
     = Some PrimFloat.nan.
Proof.
  split; [|split; [reflexivity|split; [reflexivity|split]]].
  - intros seller assetId price rr rp st Hprice.
    unfold Doubles.listAsset, Eff.bind, Eff.throwIf, Eff.throw.
    rewrite Hprice. reflexivity.
  - intros seller assetId st info w1 h Hinfo Hfind Hamount.
    unfold Doubles.listAsset, AssetManager.getAssetHolding, Doubles.liftW,
      Doubles.now.
    eff_unfold.
    replace (PrimFloat.leb PrimFloat.nan PrimFloat.zero) with false
      by reflexivity.
    cbn [truthyDouble truthyString andb]. cbv beta iota.
    rewrite Hinfo. cbv beta iota. rewrite Hfind.
    cbn [FixedPriceMarketplace.notHeld].
    destruct (Z.eqb_spec (holding_amount h) 0); [contradiction|].
    cbv beta iota. cbn [Doubles.listings Doubles.world].
    destruct (Date_now w1) as [t1 w2].
    cbv beta iota. cbn [Doubles.listings Doubles.world].
    destruct (Date_now w2) as [t2 w3].
    cbv beta iota. cbn [Doubles.listings Doubles.world].
    eexists _, _. split; [reflexivity|].
    cbn [Doubles.listings]. rewrite Map_get_set_same. reflexivity.
  - split; vm_compute; reflexivity.
Qed.


(** C6, as the code has it.  The five queries never change the marketplace.
    [getListing], [getActiveListings], [getListingsBySeller] and
    [getListingsByAsset] return a value on every input.
    [calculateTotalCost] returns a value exactly for the ids that are
    stored, and throws the not-found error (NotFound) for every other
    id. *)
Theorem queries_are_read_only (st : Market) :
  (forall k, getListing k st = (Return (Map_get k (listings st)), st))
  /\ (exists ls, getActiveListings st = (Return ls, st))
  /\ (forall a, exists ls, getListingsBySeller a st = (Return ls, st))
  /\ (forall a, exists ls, getListingsByAsset a st = (Return ls, st))
  /\ (forall k l,
        Map_get k (listings st) = Some l ->
        exists total, calculateTotalCost k st = (Return total, st))
  /\ (forall k,
        Map_get k (listings st) = None ->
        exists e, calculateTotalCost k st = (Throw e, st) /\ NotFound k e).
Proof.
  repeat split.
  - eexists. reflexivity.
  - intros a. eexists. reflexivity.
  - intros a. eexists. reflexivity.
  - intros k l Hget. unfold calculateTotalCost. eff_unfold. rewrite Hget.
    eexists. reflexivity.
  - intros k Hget. unfold calculateTotalCost. eff_unfold. rewrite Hget.
    eexists. split; reflexivity.
Qed.

(** C8, as the code has it.  [buyAsset] computes the royalty in doubles, as
    [Math.floor((price * percentage) / 100)] when the listing has a
    non-empty recipient and a percentage other than zero, and as [0]
    otherwise.  For a listing whose price and percentage are integers, the
    price positive, the percentage not negative and their product below
    2^53, the double the code computes is the integer the registry on
    integers computes; that integer is the floor of price * percentage /
    100 when the recipient is not empty, that is the [r] with 100 r <=
    price * percentage < 100 r + 100, and 0 when it is; for a price of
    5,000,000 and a percentage of 5 it is 250,000; and it is what a
    purchase that returns has handed to the settlement. *)
Theorem royalty_is_floor_within_safe_range (l : Listing) :
  0 < price l ->
  (forall pct,
      royaltyPercentage l = Some pct -> 0 <= pct /\ price l * pct < 2 ^ 53) ->
  Doubles.royaltyAmountOf (Doubles.ofListing l)
  = Number_ofZ (royaltyAmountOf l)
  /\ royaltyAmountOf l
     = (if truthyString (royaltyRecipient l)
        then match royaltyPercentage l with
             | Some pct => (price l * pct) / 100
             | None => 0
             end
        else 0)
  /\ (forall pct,
        truthyString (royaltyRecipient l) = true ->
        royaltyPercentage l = Some pct ->
        100 * royaltyAmountOf l <= price l * pct
                                < 100 * royaltyAmountOf l + 100)
  /\ (truthyString (royaltyRecipient l) = true ->
      price l = 5000000 ->
      royaltyPercentage l = Some 5 ->
      royaltyAmountOf l = 250000)
  /\ (forall buyer k sellerAccount (st : Market) txId st',
        Map_get k (listings st) = Some l ->
        buyAsset buyer k sellerAccount st = (Return txId, st') ->
        exists w1 w2,
          AtomicTransactionManager.marketplacePurchase
            {| AtomicTransactionManager.buyer := buyer;
               AtomicTransactionManager.seller := sellerAccount;
               AtomicTransactionManager.assetId := assetId l;
               AtomicTransactionManager.price := price l;
               AtomicTransactionManager.royaltyRecipient := royaltyRecipient l;
               AtomicTransactionManager.royaltyAmount :=
                 Some (royaltyAmountOf l) |} w1
          = (Return txId, w2)).
Proof.
  intros Hprice Hrange.
  assert (Hroy :
    royaltyAmountOf l
    = (if truthyString (royaltyRecipient l)
       then match royaltyPercentage l with
            | Some pct => (price l * pct) / 100
            | None => 0
            end
       else 0)).
  { unfold royaltyAmountOf.
    destruct (truthyString (royaltyRecipient l)); [|reflexivity].
    destruct (royaltyPercentage l) as [pct|]; [|reflexivity].
    cbn [truthyNumber andb].
    destruct (Z.eqb_spec pct 0) as [Hz|_]; cbn [negb]; [|reflexivity].
    rewrite Hz, Z.mul_0_r. reflexivity. }
  split; [now apply royaltyAmountOf_in_doubles|].
  split; [exact Hroy|]. split; [|split].
  - intros pct Hr Hpct. rewrite Hroy, Hr, Hpct.
    pose proof (Z.div_mod (price l * pct) 100 ltac:(lia)) as Hdm.
    pose proof (Z.mod_pos_bound (price l * pct) 100 ltac:(lia)) as Hb.
    lia.
  - intros Hr Hp Hpct. rewrite Hroy, Hr, Hpct, Hp. reflexivity.
  - intros buyer k sellerAccount st txId st' Hget Hbuy.
    destruct (buyAsset_returns_settled _ _ _ _ _ _ Hbuy)
      as (l' & st1 & w2 & Hget' & Hs).
    assert (l' = l) as -> by congruence.
    exists (world st1), w2. exact Hs.
Qed.

(** C10. [executeAtomicGroup] on an empty array of transactions throws,
    whatever the signers (an empty array of signers included), the error
    "No transactions provided" under the prefix [try/catch] adds, and has
    called nothing of the client: the world is as it was. *)
Theorem executeAtomicGroup_rejects_empty (signers : list Account) (w : World) :
  AtomicTransactionManager.executeAtomicGroup [] signers w
  = (Throw (JsError
              "Atomic group execution failed: No transactions provided"),
     w).
Proof. reflexivity. Qed.


End Registry.

(** C1, on the small ledger: Bob passes every check, the node rejects the
    group, and [buyAsset] throws the settlement's own error with the listing
    still [active]. *)
Lemma buyAsset_sold_only_after_settlement_witness :
  @buyAsset Sim.client Sim.bob Sim.listing42 Sim.alice
    (Sim.listedPlain 1 true false)
  = (Throw (JsError "Marketplace purchase failed: transaction rejected"),
     {| listings := listings (Sim.listedPlain 1 true false);
        world :=
          snd (@AtomicTransactionManager.marketplacePurchase Sim.client
                 (purchaseOf Sim.bob Sim.alice
                    (listed Sim.alice 42 5000000 None None
                       1700000000000 1700000000001))
                 (world
                    (snd (@buyAsset_checks Sim.client Sim.bob Sim.listing42
                            Sim.alice (Sim.listedPlain 1 true false))))) |}).
Proof.
  apply (proj2 (proj2
           (@buyAsset_sold_only_after_settlement Sim.client
              Sim.bob Sim.listing42 Sim.alice (Sim.listedPlain 1 true false)))
           (listed Sim.alice 42 5000000 None None 1700000000000 1700000000001)
           (snd (@buyAsset_checks Sim.client Sim.bob Sim.listing42
                   Sim.alice (Sim.listedPlain 1 true false)))).
  - vm_compute. reflexivity.
  - vm_compute. reflexivity.
Defined.





(** C9, on the small ledger: a price of minus zero is turned down. *)
Lemma listAsset_stores_NaN_price_witness :
  Doubles.listAsset Sim.alice 42 PrimFloat.neg_zero None None Sim.doubles0
  = (Throw (JsError "Price must be positive"), Sim.doubles0).
Proof.
  apply (proj1 listAsset_stores_NaN_price). reflexivity.
Defined.



(** C6, on the small ledger: the cost of Alice's listing, and the error for
    an id that was never listed. *)
Lemma queries_are_read_only_witness :
  (exists total,
      @calculateTotalCost Sim.client Sim.listing42
        (Sim.listedPlain 1 true true)
      = (Return total, Sim.listedPlain 1 true true))
  /\ (exists e,
        @calculateTotalCost Sim.client "listing_7_0"
          (Sim.listedPlain 1 true true)
        = (Throw e, Sim.listedPlain 1 true true)
        /\ NotFound "listing_7_0" e).
Proof.
  pose proof (@queries_are_read_only Sim.client (Sim.listedPlain 1 true true))
    as (_ & _ & _ & _ & Hknown & Hunknown).
  split.
  - apply (Hknown Sim.listing42
             (listed Sim.alice 42 5000000 None None
                1700000000000 1700000000001)).
    vm_compute. reflexivity.
  - apply Hunknown. vm_compute. reflexivity.
Defined.

(** C6 as stated fails: [calculateTotalCost] throws on an unknown id. *)
Lemma calculateTotalCost_throws_on_unknown_id :
  ~ (forall (st : @Market Sim.client) k,
        exists total, fst (calculateTotalCost k st) = Return total).
Proof.
  intros Hclaim.
  destruct (Hclaim (Sim.market0 1 true true) "listing_7_0") as (total & Hrun).
  vm_compute in Hrun. discriminate Hrun.
Qed.

(** C8, on the small ledger: the listing of the example, 5,000,000
    microAlgos with a royalty of 5 percent, in doubles and in integers. *)
Lemma royalty_is_floor_within_safe_range_witness :
  Doubles.royaltyAmountOf (Doubles.ofListing Sim.royaltyListing)
  = Number_ofZ (royaltyAmountOf Sim.royaltyListing)
  /\ royaltyAmountOf Sim.royaltyListing = 250000.
Proof.
  assert (Hprice : 0 < price Sim.royaltyListing) by (simpl; lia).
  assert (Hrange :
    forall pct,
      royaltyPercentage Sim.royaltyListing = Some pct ->
      0 <= pct /\ price Sim.royaltyListing * pct < 2 ^ 53).
  { intros pct Hpct. simpl in Hpct. injection Hpct as <-.
    split; [lia|reflexivity]. }
  pose proof (@royalty_is_floor_within_safe_range Sim.client
                Sim.royaltyListing Hprice Hrange)
    as (Hdouble & _ & _ & Hexample & _).
  split; [exact Hdouble|].
  apply Hexample; reflexivity.
Defined.

(** C8 as stated fails: the royalty is computed in doubles.  For a price of
    1,000,000,000,000,001 microAlgos at 99 percent the product is above
    2^53 and is rounded, and the royalty charged is 990,000,000,000,001,
    one more than the floor of price * percentage / 100.  And a listing
    stored with an empty recipient has both royalty fields and is charged
    no royalty. *)
Lemma royalty_in_doubles_is_not_the_exact_floor :
  ~ (forall price pct,
        0 < price -> 0 < pct <= 100 ->
        Doubles.royaltyAmountOf
          (Doubles.ofListing
             (listed Sim.alice 42 price (Some "ADDR-CAROL") (Some pct)
                1700000000000 1700000000001))
        = Number_ofZ ((price * pct) / 100))
  /\ Doubles.royaltyAmountOf
       (Doubles.ofListing
          (listed Sim.alice 42 1000000000000001 (Some "ADDR-CAROL") (Some 99)
             1700000000000 1700000000001))
     = Number_ofZ 990000000000001
  /\ (1000000000000001 * 99) / 100 = 990000000000000
  /\ royaltyAmountOf
       (listed Sim.alice 42 5000000 (Some "") (Some 5)
          1700000000000 1700000000001)
     = 0.
Proof.
  split; [|repeat split; vm_compute; reflexivity].
  intros Hclaim.
  specialize (Hclaim 1000000000000001 99 ltac:(lia) ltac:(lia)).
  apply (f_equal Prim2SF) in Hclaim. vm_compute in Hclaim.
  discriminate Hclaim.
Qed.


(** C4, at the failing input: Alice and Carol each list a unit of asset 42
    while the clock reads the same millisecond.  Both calls return the same
    id, the map holds one listing after the second call as after the first,
    and Alice's listing is gone, overwritten by Carol's. *)
Lemma listAsset_same_millisecond_same_id :
  fst (@listAsset Sim.client Sim.alice 42 5000000 None None
         (Sim.market0 0 true true))
  = Return "listing_42_1700000000000"
  /\ fst (@listAsset Sim.client Sim.carol 42 7000000 None None
            (Sim.listedPlain 0 true true))
     = Return "listing_42_1700000000000"
  /\ Map_size (listings (Sim.listedPlain 0 true true)) = 1
  /\ Map_size (listings Sim.listedTwiceSameMs) = 1
  /\ Map_get "listing_42_1700000000000" (listings (Sim.listedPlain 0 true true))
     = Some (listed Sim.alice 42 5000000 None None
               1700000000000 1700000000000)
  /\ Map_get "listing_42_1700000000000" (listings Sim.listedTwiceSameMs)
     = Some (listed Sim.carol 42 7000000 None None
               1700000000000 1700000000000).
Proof. repeat split; vm_compute; reflexivity. Qed.

(** ** The scenarios of the specification, run on the small ledger *)

(** Listing asset 42 at 5,000,000 without royalty, then a purchase by a
    funded buyer with the matching seller: the listing becomes [sold], a
    transaction id comes back, and a second purchase is turned down. *)
Example scenario_sale :
  fst (@buyAsset Sim.client Sim.bob Sim.listing42 Sim.alice
         (Sim.listedPlain 1 true true))
  = Return "txid-0"
  /\ option_map status (Map_get Sim.listing42 (listings Sim.soldPlain))
     = Some sold
  /\ @buyAsset Sim.client Sim.bob Sim.listing42 Sim.alice Sim.soldPlain
     = (Throw (JsError "Listing listing_42_1700000000000 is not active"),
        Sim.soldPlain)
  /\ @getActiveListings Sim.client Sim.soldPlain = (Return [], Sim.soldPlain).
Proof. repeat split; vm_compute; reflexivity. Qed.

(** A royalty percentage of 110 is turned down and nothing is stored. *)
Example scenario_percentage_out_of_range :
  @listAsset Sim.client Sim.alice 42 5000000 (Some "ADDR-CAROL") (Some 110)
    (Sim.market0 1 true true)
  = (Throw (JsError "Royalty percentage must be 0-100"),
     Sim.market0 1 true true).
Proof. vm_compute. reflexivity. Qed.

(** Cancelling a listing one does not own is turned down and changes
    nothing; buying an id that was never listed is turned down. *)
Example scenario_not_owner_not_found :
  @cancelListing Sim.client Sim.bob Sim.listing42
    (Sim.listedPlain 1 true true)
  = (Throw (JsError "Only seller can cancel listing"),
     Sim.listedPlain 1 true true)
  /\ @buyAsset Sim.client Sim.bob "listing_7_0" Sim.alice
       (Sim.listedPlain 1 true true)
     = (Throw (JsError "Listing listing_7_0 not found"),
        Sim.listedPlain 1 true true).
Proof. split; vm_compute; reflexivity. Qed.

(** * Further properties of the code *)

(** ** Atomic groups (src/core/atomic) *)

Section AtomicGroups.
Context `{LedgerClient}.

Lemma nth_error_combine {A B} (l1 : list A) (l2 : list B) i a b :
  nth_error l1 i = Some a ->
  nth_error l2 i = Some b ->
  nth_error (combine l1 l2) i = Some (a, b).
Proof.
  revert l1 l2. induction i as [|i IH]; intros [|x l1] [|y l2]; simpl;
    try discriminate.
  - now intros [= ->] [= ->].
  - apply IH.
Qed.

Lemma signEach_combine (transactions : list Transaction) signers :
  length transactions = length signers ->
  AtomicTransactionManager.signEach transactions signers
  = Return (map (fun ta => signTxn (fst ta) (sk (snd ta)))
                (combine transactions signers)).
Proof.
  revert signers. induction transactions as [|t ts IH]; intros [|a signers];
    simpl; try discriminate; [reflexivity|].
  intros [= Hlen]. now rewrite (IH signers Hlen).
Qed.

(** [executeAtomicGroup], test by test. *)
Lemma executeAtomicGroup_eq transactions signers w :
  AtomicTransactionManager.executeAtomicGroup transactions signers w
  = let failed (e : Thrown) :=
      JsError ("Atomic group execution failed: " ++ errorMessage e) in
    if Nat.eqb (length transactions) 0 then
      (Throw (failed (JsError "No transactions provided")), w)
    else if negb (Nat.eqb (length transactions) (length signers)) then
      (Throw
         (failed
            (JsError "Number of transactions must match number of signers")),
       w)
    else if Nat.ltb ALGORAND_MAX_TX_GROUP_SIZE (length transactions) then
      (Throw (failed (groupSizeError (length transactions))), w)
    else
      submitAndWait "Atomic group execution failed: "
        (signedByPosition transactions signers) w.
Proof.
  unfold AtomicTransactionManager.executeAtomicGroup, submitAndWait,
    signedByPosition, assignGroupID.
  eff_unfold. cbv zeta.
  destruct (Nat.eqb (length transactions) 0); [reflexivity|].
  destruct (Nat.eqb (length transactions) (length signers)) eqn:Hlen;
    [|reflexivity].
  apply Nat.eqb_eq in Hlen. cbn [negb].
  destruct (Nat.ltb ALGORAND_MAX_TX_GROUP_SIZE (length transactions));
    [reflexivity|].
  rewrite signEach_combine by (rewrite length_map; exact Hlen).
  destruct (sendRawTransaction _ w) as [[txId|e] w1]; [|reflexivity].
  destruct (waitForConfirmation txId 4 w1) as [[u|e] w2]; reflexivity.
Qed.

(** X1. [executeAtomicGroup] on a non-empty array with a different number of
    signers throws the count error under its prefix, and has called nothing
    of the client. *)
Theorem executeAtomicGroup_rejects_count_mismatch
    (transactions : list Transaction) (signers : list Account) (w : World) :
  transactions <> [] ->
  length transactions <> length signers ->
  AtomicTransactionManager.executeAtomicGroup transactions signers w
  = (Throw
       (JsError
          ("Atomic group execution failed: "
           ++ "Number of transactions must match number of signers")),
     w).
Proof.
  intros Hne Hlen. unfold AtomicTransactionManager.executeAtomicGroup.
  eff_unfold. destruct transactions as [|t ts]; [contradiction|].
  destruct (Nat.eqb (length (t :: ts)) (length signers)) eqn:E.
  - apply Nat.eqb_eq in E. contradiction.
  - reflexivity.
Qed.

(** X2. With as many signers as transactions (and at least one),
    [executeAtomicGroup] never fails at signing.  For at most 16
    transactions it submits them in their order, each carrying the group id
    of the whole array and signed with the key of the signer at the same
    position, then waits for the confirmation; only the client's failures,
    re-thrown under the prefix, can make it throw.  For more than 16,
    [assignGroupID] throws: nothing is signed or submitted, and the caller
    receives that error under the prefix with the world untouched. *)
Theorem executeAtomicGroup_signs_by_position
    (transactions : list Transaction) (signers : list Account) (w : World) :
  transactions <> [] ->
  length transactions = length signers ->
  ((length transactions <= ALGORAND_MAX_TX_GROUP_SIZE)%nat ->
   AtomicTransactionManager.executeAtomicGroup transactions signers w
   = submitAndWait "Atomic group execution failed: "
       (signedByPosition transactions signers) w)
  /\ ((ALGORAND_MAX_TX_GROUP_SIZE < length transactions)%nat ->
      AtomicTransactionManager.executeAtomicGroup transactions signers w
      = (Throw
           (JsError
              ("Atomic group execution failed: "
               ++ errorMessage (groupSizeError (length transactions)))),
         w))
  /\ length (signedByPosition transactions signers) = length transactions
  /\ (forall i t a,
        nth_error transactions i = Some t ->
        nth_error signers i = Some a ->
        nth_error (signedByPosition transactions signers) i
        = Some (signTxn (setGroup (computeGroupID transactions) t) (sk a))).
Proof.
  intros Hne Hlen.
  assert (Hguards :
    Nat.eqb (length transactions) 0 = false
    /\ negb (Nat.eqb (length transactions) (length signers)) = false).
  { split.
    - destruct transactions; [contradiction|reflexivity].
    - rewrite Hlen, Nat.eqb_refl. reflexivity. }
  destruct Hguards as (Hg1 & Hg2).
  split; [|split; [|split]].
  - intros Hsmall. rewrite executeAtomicGroup_eq. cbv zeta.
    rewrite Hg1, Hg2.
    destruct (Nat.ltb_spec ALGORAND_MAX_TX_GROUP_SIZE (length transactions));
      [lia|reflexivity].
  - intros Hlarge. rewrite executeAtomicGroup_eq. cbv zeta.
    rewrite Hg1, Hg2.
    destruct (Nat.ltb_spec ALGORAND_MAX_TX_GROUP_SIZE (length transactions));
      [reflexivity|lia].
  - unfold signedByPosition.
    rewrite length_map, length_combine, length_map, <- Hlen.
    apply Nat.min_id.
  - intros i t a Ht Ha. unfold signedByPosition.
    rewrite nth_error_map.
    rewrite (nth_error_combine _ _ i
               (setGroup (computeGroupID transactions) t) a);
      [reflexivity| |exact Ha].
    rewrite nth_error_map, Ht. reflexivity.
Qed.

(** [atomicSwap] with positive amounts, call by call. *)
Lemma atomicSwap_eq buyer seller assetId assetAmount paymentAmount w :
  0 < paymentAmount ->
  0 < assetAmount ->
  AtomicTransactionManager.atomicSwap
    buyer seller assetId assetAmount paymentAmount w
  = let failed (e : Thrown) :=
      JsError ("Atomic swap failed: " ++ errorMessage e) in
    match getTransactionParams w with
    | (Throw e, w1) => (Throw (failed e), w1)
    | (Return sp, w1) =>
        match
          submitAndWait "Atomic swap failed: "
            (swapGroup buyer seller assetId assetAmount paymentAmount sp) w1
        with
        | (Throw e, w2) => (Throw e, w2)
        | (Return txId, w2) =>
            match
              Buffer_from_base64
                (swapTransactions
                   buyer seller assetId assetAmount paymentAmount sp)
            with
            | Throw e => (Throw (failed e), w2)
            | Return _ => (Return txId, w2)
            end
        end
    end.
Proof.
  intros Hpay Hasset.
  unfold AtomicTransactionManager.atomicSwap, submitAndWait, swapGroup,
    swapTransactions, assignGroupID.
  eff_unfold. cbv zeta.
  destruct (Z.leb_spec paymentAmount 0); [lia|].
  destruct (Z.leb_spec assetAmount 0); [lia|].
  destruct (getTransactionParams w) as [[sp|e] w1]; [|reflexivity].
  cbn [length Nat.ltb Nat.leb ALGORAND_MAX_TX_GROUP_SIZE map nth combine
       fst snd].
  destruct (sendRawTransaction _ w1) as [[txId|e] w2]; [|reflexivity].
  destruct (waitForConfirmation txId 4 w2) as [[u|e] w3]; [|reflexivity].
  destruct (Buffer_from_base64 _) as [s|e]; reflexivity.
Qed.

Lemma purchaseGroup_without_royalty
    (p : AtomicTransactionManager.PurchaseParams) sp :
  AtomicTransactionManager.royaltyLegRequested p = false ->
  purchaseGroup p sp
  = Return (swapGroup (AtomicTransactionManager.buyer p)
              (AtomicTransactionManager.seller p)
              (AtomicTransactionManager.assetId p) 1
              (AtomicTransactionManager.price p) sp).
Proof.
  intros Hno.
  unfold purchaseGroup, AtomicTransactionManager.purchaseTransactions.
  rewrite Hno. reflexivity.
Qed.

(** The two guards of [atomicSwap]. *)
Lemma atomicSwap_guards
    buyer seller assetId assetAmount paymentAmount (w : World) :
  paymentAmount <= 0 \/ assetAmount <= 0 ->
  AtomicTransactionManager.atomicSwap
    buyer seller assetId assetAmount paymentAmount w
  = (Throw
       (JsError
          ("Atomic swap failed: "
           ++ if Z.leb paymentAmount 0
              then "Payment amount must be positive"
              else "Asset amount must be positive")),
     w).
Proof.
  intros Hbad. unfold AtomicTransactionManager.atomicSwap. eff_unfold.
  destruct (Z.leb_spec paymentAmount 0); [reflexivity|].
  destruct (Z.leb_spec assetAmount 0); [reflexivity|lia].
Qed.

(** X3. [atomicSwap] with a payment amount or an asset amount that is not
    positive throws under its prefix, the payment amount being checked
    first, and has called nothing of the client. *)
Theorem atomicSwap_rejects_nonpositive_amounts
    buyer seller assetId assetAmount paymentAmount (w : World) :
  paymentAmount <= 0 \/ assetAmount <= 0 ->
  AtomicTransactionManager.atomicSwap
    buyer seller assetId assetAmount paymentAmount w
  = (Throw
       (JsError
          ("Atomic swap failed: "
           ++ if Z.leb paymentAmount 0
              then "Payment amount must be positive"
              else "Asset amount must be positive")),
     w).
Proof.
  intros Hbad. unfold AtomicTransactionManager.atomicSwap. eff_unfold.
  destruct (Z.leb_spec paymentAmount 0); [reflexivity|].
  destruct (Z.leb_spec assetAmount 0); [reflexivity|lia].
Qed.

(** X4. With positive amounts and numbers in the range the builders accept,
    [atomicSwap] reads the transaction parameters and submits one group of
    two transactions: the payment from buyer to seller signed with the
    buyer's key, then the transfer of the asset amount from seller to buyer
    signed with the seller's key, both under one group id.  Once the group
    is confirmed it converts the array of the two transactions to a
    [Buffer] for its log line: if that conversion throws, the call throws
    under its prefix although the swap is settled; otherwise it returns the
    transaction id.  Nothing else than the client and that conversion can
    make it throw. *)
Theorem atomicSwap_submits_payment_then_transfer
    buyer seller assetId assetAmount paymentAmount (w : World) :
  0 < paymentAmount ->
  0 < assetAmount ->
  swapInRange assetId assetAmount paymentAmount ->
  AtomicTransactionManager.atomicSwap
    buyer seller assetId assetAmount paymentAmount w
  = match getTransactionParams w with
    | (Throw e, w1) =>
        (Throw (JsError ("Atomic swap failed: " ++ errorMessage e)), w1)
    | (Return sp, w1) =>
        match
          submitAndWait "Atomic swap failed: "
            (swapGroup buyer seller assetId assetAmount paymentAmount sp) w1
        with
        | (Throw e, w2) => (Throw e, w2)
        | (Return txId, w2) =>
            match
              Buffer_from_base64
                (swapTransactions
                   buyer seller assetId assetAmount paymentAmount sp)
            with
            | Throw e =>
                (Throw (JsError ("Atomic swap failed: " ++ errorMessage e)),
                 w2)
            | Return _ => (Return txId, w2)
            end
        end
    end
  /\ (forall sp,
        map (fun s => (body (txn s), signedWith s))
            (swapGroup buyer seller assetId assetAmount paymentAmount sp)
        = [ (Payment (addr buyer) (addr seller) paymentAmount None, sk buyer);
            (AssetTransfer (addr seller) (addr buyer) assetId assetAmount,
             sk seller) ]
        /\ map txn
             (swapGroup buyer seller assetId assetAmount paymentAmount sp)
           = swapTransactions
               buyer seller assetId assetAmount paymentAmount sp
        /\ Forall builderAccepts
             (swapTransactions
                buyer seller assetId assetAmount paymentAmount sp)
        /\ exists gid,
             map group
                 (swapTransactions
                    buyer seller assetId assetAmount paymentAmount sp)
             = [Some gid; Some gid]).
Proof.
  intros Hpay Hasset (Hid & Hamount & Hpayment).
  split; [apply atomicSwap_eq; lia|].
  intros sp. split; [reflexivity|]. split; [reflexivity|]. split.
  - unfold swapTransactions. cbv zeta.
    apply Forall_cons; [|apply Forall_cons; [|apply Forall_nil]];
      unfold builderAccepts, safeInteger, setGroup,
        makePaymentTxnWithSuggestedParamsFromObject,
        makeAssetTransferTxnWithSuggestedParamsFromObject in *;
      cbn [body]; lia.
  - eexists. reflexivity.
Qed.

(** X5. A marketplace purchase without royalty leg, at a positive price and
    with numbers the builders accept, settles as the atomic swap of one unit
    of the asset for the price does: on every world the two calls leave the
    same world behind; when the purchase throws, the swap throws the same
    cause under its own prefix; and when the purchase returns a transaction
    id, the swap has settled under that id too, and returns it unless the
    conversion for its log line throws. *)
Theorem marketplacePurchase_without_royalty_is_swap
    (p : AtomicTransactionManager.PurchaseParams) (w : World) :
  AtomicTransactionManager.royaltyLegRequested p = false ->
  0 < AtomicTransactionManager.price p ->
  purchaseInRange p ->
  let swap :=
    AtomicTransactionManager.atomicSwap
      (AtomicTransactionManager.buyer p) (AtomicTransactionManager.seller p)
      (AtomicTransactionManager.assetId p) 1
      (AtomicTransactionManager.price p) w in
  let purchase := AtomicTransactionManager.marketplacePurchase p w in
  snd swap = snd purchase
  /\ match fst purchase with
     | Return tx =>
         exists sp w1,
           getTransactionParams w = (Return sp, w1)
           /\ fst swap
              = match
                  Buffer_from_base64
                    (swapTransactions
                       (AtomicTransactionManager.buyer p)
                       (AtomicTransactionManager.seller p)
                       (AtomicTransactionManager.assetId p) 1
                       (AtomicTransactionManager.price p) sp)
                with
                | Return _ => Return tx
                | Throw e =>
                    Throw (JsError ("Atomic swap failed: " ++ errorMessage e))
                end
     | Throw e =>
         exists cause,
           e = JsError ("Marketplace purchase failed: " ++ errorMessage cause)
           /\ fst swap
              = Throw (JsError ("Atomic swap failed: " ++ errorMessage cause))
     end.
Proof.
  intros Hno Hprice _. cbv zeta.
  rewrite atomicSwap_eq by lia. rewrite marketplacePurchase_eq. cbv zeta.
  destruct (getTransactionParams w) as [[sp|e] w1]; cbn [fst snd].
  - rewrite (purchaseGroup_without_royalty p sp Hno). unfold submitAndWait.
    destruct (sendRawTransaction _ w1) as [[txId|e] w2]; cbn [fst snd].
    + destruct (waitForConfirmation txId 4 w2) as [[u|e] w3]; cbn [fst snd].
      * destruct (Buffer_from_base64 _) as [s|e] eqn:Hbuf; cbn [fst snd];
          (split; [reflexivity|]); exists sp, w1;
          (split; [reflexivity|]); rewrite Hbuf; reflexivity.
      * split; [reflexivity|]. exists e. split; reflexivity.
    + split; [reflexivity|]. exists e. split; reflexivity.
  - split; [reflexivity|]. exists e. split; reflexivity.
Qed.

(** X6. Whatever goes wrong inside [marketplacePurchase],
    [executeAtomicGroup] or [atomicSwap], the caller receives an [Error]
    whose message is the method's prefix followed by the message of the
    cause, and the cause is what the failing step threw: one of the
    method's own guards, the recipient check, [assignGroupID] on more than
    16 transactions, the client at the transaction parameters, at the
    submission or at the wait for the confirmation, or, in [atomicSwap],
    the conversion of the group for the log line.  (The numbers handed to
    the builders being such as the builders accept.) *)
Theorem settlement_errors_carry_prefix :
  (forall p w e w',
      purchaseInRange p ->
      AtomicTransactionManager.marketplacePurchase p w = (Throw e, w') ->
      exists cause,
        e = JsError ("Marketplace purchase failed: " ++ errorMessage cause)
        /\ (getTransactionParams w = (Throw cause, w')
            \/ exists sp w1,
                 getTransactionParams w = (Return sp, w1)
                 /\ ((purchaseGroup p sp = Throw cause /\ w' = w1)
                     \/ exists signedTxns,
                          purchaseGroup p sp = Return signedTxns
                          /\ (sendRawTransaction signedTxns w1
                              = (Throw cause, w')
                              \/ exists txId w2,
                                   sendRawTransaction signedTxns w1
                                   = (Return txId, w2)
                                   /\ waitForConfirmation txId 4 w2
                                      = (Throw cause, w')))))
  /\ (forall transactions signers w e w',
        AtomicTransactionManager.executeAtomicGroup transactions signers w
        = (Throw e, w') ->
        exists cause,
          e = JsError ("Atomic group execution failed: "
                       ++ errorMessage cause)
          /\ ((transactions = []
               /\ cause = JsError "No transactions provided" /\ w' = w)
              \/ (length transactions <> length signers
                  /\ cause
                     = JsError
                         "Number of transactions must match number of signers"
                  /\ w' = w)
              \/ ((ALGORAND_MAX_TX_GROUP_SIZE < length transactions)%nat
                  /\ cause = groupSizeError (length transactions)
                  /\ w' = w)
              \/ sendRawTransaction (signedByPosition transactions signers) w
                 = (Throw cause, w')
              \/ exists txId w1,
                   sendRawTransaction (signedByPosition transactions signers) w
                   = (Return txId, w1)
                   /\ waitForConfirmation txId 4 w1 = (Throw cause, w')))
  /\ (forall buyer seller assetId assetAmount paymentAmount w e w',
        swapInRange assetId assetAmount paymentAmount ->
        AtomicTransactionManager.atomicSwap
          buyer seller assetId assetAmount paymentAmount w
        = (Throw e, w') ->
        exists cause,
          e = JsError ("Atomic swap failed: " ++ errorMessage cause)
          /\ ((paymentAmount <= 0
               /\ cause = JsError "Payment amount must be positive"
               /\ w' = w)
              \/ (assetAmount <= 0
                  /\ cause = JsError "Asset amount must be positive"
                  /\ w' = w)
              \/ getTransactionParams w = (Throw cause, w')
              \/ exists sp w1,
                   getTransactionParams w = (Return sp, w1)
                   /\ let signedTxns :=
                        swapGroup
                          buyer seller assetId assetAmount paymentAmount sp in
                      (sendRawTransaction signedTxns w1 = (Throw cause, w')
                       \/ exists txId w2,
                            sendRawTransaction signedTxns w1
                            = (Return txId, w2)
                            /\ (waitForConfirmation txId 4 w2
                                = (Throw cause, w')
                                \/ (waitForConfirmation txId 4 w2
                                    = (Return tt, w')
                                    /\ Buffer_from_base64
                                         (swapTransactions
                                            buyer seller assetId assetAmount
                                            paymentAmount sp)
                                       = Throw cause))))).
Proof.
  split; [|split].
  - intros p w e w' _. rewrite marketplacePurchase_eq. cbv zeta.
    destruct (getTransactionParams w) as [[sp|e0] w1].
    + destruct (purchaseGroup p sp) as [signedTxns|e0] eqn:Hgroup.
      * destruct (sendRawTransaction signedTxns w1) as [[txId|e0] w2]
          eqn:Hsend.
        -- destruct (waitForConfirmation txId 4 w2) as [[u|e0] w3] eqn:Hwait;
             [discriminate|].
           intros [= <- <-]. exists e0. split; [reflexivity|].
           right. exists sp, w1. split; [reflexivity|]. right.
           exists signedTxns. split; [exact Hgroup|]. right.
           exists txId, w2. split; [exact Hsend|exact Hwait].
        -- intros [= <- <-]. exists e0. split; [reflexivity|].
           right. exists sp, w1. split; [reflexivity|]. right.
           exists signedTxns. split; [exact Hgroup|]. left. exact Hsend.
      * intros [= <- <-]. exists e0. split; [reflexivity|].
        right. exists sp, w1. split; [reflexivity|]. left.
        split; [exact Hgroup|reflexivity].
    + intros [= <- <-]. exists e0. split; [reflexivity|]. left. reflexivity.
  - intros transactions signers w e w'. rewrite executeAtomicGroup_eq.
    cbv zeta.
    destruct (Nat.eqb (length transactions) 0) eqn:Hempty.
    { intros [= <- <-]. exists (JsError "No transactions provided").
      split; [reflexivity|]. left.
      apply Nat.eqb_eq in Hempty. apply length_zero_iff_nil in Hempty.
      auto. }
    destruct (Nat.eqb (length transactions) (length signers)) eqn:Hlen;
      cbn [negb].
    2:{ intros [= <- <-].
        exists (JsError "Number of transactions must match number of signers").
        split; [reflexivity|]. right. left.
        apply Nat.eqb_neq in Hlen. auto. }
    destruct (Nat.ltb_spec ALGORAND_MAX_TX_GROUP_SIZE (length transactions))
      as [Hlarge|Hsmall].
    { intros [= <- <-]. exists (groupSizeError (length transactions)).
      split; [reflexivity|]. right. right. left. auto. }
    unfold submitAndWait.
    destruct (sendRawTransaction _ w) as [[txId|e0] w1] eqn:Hsend.
    + destruct (waitForConfirmation txId 4 w1) as [[u|e0] w2] eqn:Hwait;
        [discriminate|].
      intros [= <- <-]. exists e0. split; [reflexivity|].
      right. right. right. right. exists txId, w1. auto.
    + intros [= <- <-]. exists e0. split; [reflexivity|].
      right. right. right. left. reflexivity.
  - intros buyer seller assetId assetAmount paymentAmount w e w' _.
    destruct (Z_le_gt_dec paymentAmount 0) as [Hpay|Hpay].
    { rewrite atomicSwap_guards by (left; exact Hpay).
      destruct (Z.leb_spec paymentAmount 0); [|lia].
      intros [= <- <-]. exists (JsError "Payment amount must be positive").
      split; [reflexivity|]. left. auto. }
    destruct (Z_le_gt_dec assetAmount 0) as [Hasset|Hasset].
    { rewrite atomicSwap_guards by (right; exact Hasset).
      destruct (Z.leb_spec paymentAmount 0); [lia|].
      intros [= <- <-]. exists (JsError "Asset amount must be positive").
      split; [reflexivity|]. right. left. auto. }
    rewrite atomicSwap_eq by lia. cbv zeta.
    destruct (getTransactionParams w) as [[sp|e0] w1].
    2:{ intros [= <- <-]. exists e0. split; [reflexivity|].
        right. right. left. reflexivity. }
    unfold submitAndWait.
    destruct (sendRawTransaction _ w1) as [[txId|e0] w2] eqn:Hsend.
    + destruct (waitForConfirmation txId 4 w2) as [[[]|e0] w3] eqn:Hwait.
      * destruct (Buffer_from_base64 _) as [s|e0] eqn:Hbuf; [discriminate|].
        intros [= <- <-]. exists e0. split; [reflexivity|].
        right. right. right. exists sp, w1. split; [reflexivity|].
        cbv zeta. right. exists txId, w2. split; [exact Hsend|]. right.
        split; [exact Hwait|exact Hbuf].
      * intros [= <- <-]. exists e0. split; [reflexivity|].
        right. right. right. exists sp, w1. split; [reflexivity|].
        cbv zeta. right. exists txId, w2. split; [exact Hsend|]. left.
        exact Hwait.
    + intros [= <- <-]. exists e0. split; [reflexivity|].
      right. right. right. exists sp, w1. split; [reflexivity|].
      cbv zeta. left. exact Hsend.
Qed.

End AtomicGroups.

(** ** The listing registry (src/modules/FixedPrice) *)

Section RegistryRuns.
Context `{LedgerClient}.

Lemma inputsAccepted_guards price0 rr rp :
  inputsAccepted price0 rr rp ->
  Z.leb price0 0 = false
  /\ truthyNumber rp
     && match rp with
        | Some pct => Z.ltb pct 0 || Z.gtb pct 100
        | None => false
        end = false
  /\ truthyString rr
     && match rr with
        | Some r => negb (isValidAddress r)
        | None => false
        end = false.
Proof.
  intros (Hprice & Hpct & Hrec). split; [apply Z.leb_gt; lia|]. split.
  - destruct rp as [pct|]; [|reflexivity].
    specialize (Hpct pct eq_refl). apply andb_false_iff. right.
    apply orb_false_iff. split; [apply Z.ltb_ge; lia|].
    rewrite Z.gtb_ltb. apply Z.ltb_ge. lia.
  - destruct rr as [r|]; [|reflexivity]. cbn [truthyString].
    destruct (String.eqb_spec r ""); [reflexivity|].
    rewrite (Hrec r eq_refl) by assumption. reflexivity.
Qed.

Lemma guards_inputsAccepted price0 rr rp :
  Z.leb price0 0 = false ->
  truthyNumber rp
  && match rp with
     | Some pct => Z.ltb pct 0 || Z.gtb pct 100
     | None => false
     end = false ->
  truthyString rr
  && match rr with
     | Some r => negb (isValidAddress r)
     | None => false
     end = false ->
  inputsAccepted price0 rr rp.
Proof.
  intros Hprice Hg1 Hg2. split; [apply Z.leb_gt in Hprice; lia|]. split.
  - intros pct ->. cbn [truthyNumber] in Hg1.
    destruct (Z.eq_dec pct 0) as [Hz|Hz]; [lia|].
    apply Z.eqb_neq in Hz. rewrite Hz in Hg1. cbn [negb andb] in Hg1.
    apply orb_false_iff in Hg1 as (Hlo & Hhi).
    apply Z.ltb_ge in Hlo. rewrite Z.gtb_ltb in Hhi.
    apply Z.ltb_ge in Hhi. lia.
  - intros r -> Hne. cbn [truthyString] in Hg2.
    apply String.eqb_neq in Hne. rewrite Hne in Hg2.
    cbn [negb andb] in Hg2. now apply negb_false_iff in Hg2.
Qed.

(** Everything a returning [listAsset] has done. *)
Lemma listAsset_returns seller0 assetId0 price0 rr rp (st : Market) k st' :
  listAsset seller0 assetId0 price0 rr rp st = (Return k, st') ->
  exists info w1 h t1 w2 t2 w3,
    inputsAccepted price0 rr rp
    /\ accountInformation (addr seller0) (world st) = (Return info, w1)
    /\ AssetManager.findHolding assetId0
         match info_assets info with Some hs => hs | None => [] end
       = Some h
    /\ holding_amount h <> 0
    /\ Date_now w1 = (t1, w2)
    /\ Date_now w2 = (t2, w3)
    /\ k = listingIdOf assetId0 t1
    /\ st' = {| listings :=
                  Map_set k (listed seller0 assetId0 price0 rr rp t1 t2)
                    (listings st);
                world := w3 |}.
Proof.
  unfold listAsset, AssetManager.getAssetHolding. eff_unfold.
  destruct (Z.leb price0 0) eqn:Hg0; [discriminate|]. cbv beta iota.
  destruct (truthyNumber rp
            && match rp with
               | Some pct => Z.ltb pct 0 || Z.gtb pct 100
               | None => false
               end) eqn:Hg1; [discriminate|].
  destruct (truthyString rr
            && match rr with
               | Some r => negb (isValidAddress r)
               | None => false
               end) eqn:Hg2; [discriminate|].
  cbv beta iota.
  destruct (accountInformation (addr seller0) (world st))
    as [[info|e] w1] eqn:Hinfo; [|discriminate].
  cbv beta iota. cbn [notHeld].
  destruct (AssetManager.findHolding assetId0 _) as [h|] eqn:Hfind;
    [|discriminate].
  destruct (Z.eqb_spec (holding_amount h) 0) as [|Hamount]; [discriminate|].
  cbv beta iota. cbn [listings world].
  destruct (Date_now w1) as [t1 w2] eqn:Ht1. cbn [listings world].
  destruct (Date_now w2) as [t2 w3] eqn:Ht2. cbn [listings world].
  intros [= <- <-].
  exists info, w1, h, t1, w2, t2, w3.
  repeat split; auto using guards_inputsAccepted.
  all: now apply (guards_inputsAccepted price0 rr rp).
Qed.

Lemma Map_get_In {V} k (v : V) (m : JsMap V) :
  Map_get k m = Some v -> In (k, v) m.
Proof.
  induction m as [|[k0 v0] m IH]; simpl; [discriminate|].
  destruct (String.eqb_spec k0 k) as [->|_].
  - intros [= ->]. now left.
  - intros Hget. right. now apply IH.
Qed.

Lemma Map_get_None_keys {V} k (m : JsMap V) :
  Map_get k m = None <-> ~ In k (map fst m).
Proof.
  induction m as [|[k0 v0] m IH]; simpl.
  - split; auto.
  - destruct (String.eqb_spec k0 k) as [->|Hne].
    + split; [discriminate|]. intros Hn. exfalso. apply Hn. now left.
    + rewrite IH. split.
      * intros Hn [Heq|Hin]; auto.
      * intros Hn Hin. apply Hn. now right.
Qed.

Lemma In_Map_get {V} k (v : V) (m : JsMap V) :
  NoDup (map fst m) -> In (k, v) m -> Map_get k m = Some v.
Proof.
  induction m as [|[k0 v0] m IH]; simpl; [contradiction|].
  intros Hnd [Heq|Hin].
  - injection Heq as -> ->. now rewrite String.eqb_refl.
  - inversion Hnd as [|? ? Hnotin Hnd']; subst.
    destruct (String.eqb_spec k0 k) as [->|_]; [|now apply IH].
    exfalso. apply Hnotin. apply (in_map fst) in Hin. exact Hin.
Qed.

Lemma Map_set_keys {V} k (v : V) (m : JsMap V) :
  map fst (Map_set k v m)
  = match Map_get k m with
    | Some _ => map fst m
    | None => (map fst m ++ [k])%list
    end.
Proof.
  induction m as [|[k0 v0] m IH]; simpl; [reflexivity|].
  destruct (String.eqb_spec k0 k) as [->|Hne]; simpl; [reflexivity|].
  rewrite IH. destruct (Map_get k m); reflexivity.
Qed.

Lemma keysUnique_set k l (m : JsMap Listing) :
  keysUnique m -> keysUnique (Map_set k l m).
Proof.
  unfold keysUnique. intros Hnd. rewrite Map_set_keys.
  destruct (Map_get k m) eqn:Hget; [exact Hnd|].
  apply Map_get_None_keys in Hget.
  apply NoDup_app; [exact Hnd|repeat constructor; auto|].
  intros x Hx [<-|[]]. contradiction.
Qed.

Lemma allWellListed_set k l (m : JsMap Listing) :
  allWellListed m -> wellListed k l -> allWellListed (Map_set k l m).
Proof.
  intros Hm Hl k' l' Hget. destruct (string_dec k' k) as [->|Hne].
  - rewrite Map_get_set_same in Hget. now injection Hget as <-.
  - rewrite Map_get_set_other in Hget by assumption. eauto.
Qed.

Lemma wellListed_setStatus k l s :
  wellListed k l -> wellListed k (setStatus l s).
Proof. intros Hl. exact Hl. Qed.

Lemma reachable_wellFormed (st : Market) :
  reachable st -> keysUnique (listings st) /\ allWellListed (listings st).
Proof.
  induction 1 as [w|st w _ IH|st seller0 assetId0 price0 rr rp _ IH
                  |st buyer k sellerAccount _ IH|st seller0 k _ IH].
  - split; [constructor|]. intros k l Hget. discriminate Hget.
  - exact IH.
  - destruct IH as (Hu & Hw).
    destruct (listAsset seller0 assetId0 price0 rr rp st) as [[k|e] st']
      eqn:Hrun; cbn [snd].
    + destruct (listAsset_returns _ _ _ _ _ _ _ _ Hrun)
        as (info & w1 & h & t1 & w2 & t2 & w3
            & (Hprice & Hpct & Hrec) & _ & _ & _ & _ & _ & -> & ->).
      cbn [listings]. split; [now apply keysUnique_set|].
      apply allWellListed_set; [exact Hw|].
      unfold wellListed, listed.
      cbn [id assetId price royaltyRecipient royaltyPercentage].
      split; [reflexivity|]. split; [now exists t1|].
      split; [exact Hprice|]. split; assumption.
    + pose proof (listAsset_run seller0 assetId0 price0 rr rp st) as Hspec.
      rewrite Hrun in Hspec. rewrite Hspec. now split.
  - destruct IH as (Hu & Hw).
    destruct (buyAsset_listings buyer k sellerAccount st)
      as [->|(l & Hget & _ & ->)]; [now split|].
    split; [now apply keysUnique_set|].
    apply allWellListed_set; [exact Hw|].
    apply wellListed_setStatus. now apply Hw.
  - destruct IH as (Hu & Hw). rewrite cancelListing_eq.
    destruct (Map_get k (listings st)) as [l|] eqn:Hget; [|now split].
    destruct (negb (String.eqb (seller l) (addr seller0))); [now split|].
    destruct (negb (Status_eqb (status l) active)); [now split|].
    cbn [snd listings]. split; [now apply keysUnique_set|].
    apply allWellListed_set; [exact Hw|].
    apply wellListed_setStatus. now apply Hw.
Qed.

End RegistryRuns.

Section Listing.
Context `{LedgerClient}.

(** X7. [listAsset] turns down a royalty percentage outside 0..100 and a
    non-empty royalty recipient that is not a valid address before it asks
    the client anything: the call throws and the marketplace and the world
    are exactly as they were. *)
Theorem listAsset_rejects_bad_royalty_fields
    seller assetId price rr rp (st : Market) :
  0 < price ->
  (forall pct,
      rp = Some pct ->
      pct < 0 \/ 100 < pct ->
      listAsset seller assetId price rr rp st
      = (Throw (JsError "Royalty percentage must be 0-100"), st))
  /\ (forall r,
        rr = Some r ->
        r <> "" ->
        isValidAddress r = false ->
        (forall pct, rp = Some pct -> 0 <= pct <= 100) ->
        listAsset seller assetId price rr rp st
        = (Throw (JsError ("Invalid royalty recipient: " ++ r)), st)).
Proof.
  intros Hprice. split.
  - intros pct -> Hout. unfold listAsset. eff_unfold.
    destruct (Z.leb_spec price 0); [lia|]. cbn [truthyNumber].
    assert (Hnz : Z.eqb pct 0 = false) by (apply Z.eqb_neq; lia).
    assert (Hrange : Z.ltb pct 0 || Z.gtb pct 100 = true).
    { apply orb_true_iff. rewrite Z.gtb_ltb.
      destruct Hout; [left|right]; apply Z.ltb_lt; lia. }
    rewrite Hnz, Hrange. reflexivity.
  - intros r -> Hne Hinvalid Hpct.
    assert (Hg1 :
      truthyNumber rp
      && match rp with
         | Some pct => Z.ltb pct 0 || Z.gtb pct 100
         | None => false
         end = false).
    { apply (inputsAccepted_guards price None rp).
      split; [exact Hprice|]. split; [exact Hpct|]. discriminate. }
    unfold listAsset. eff_unfold.
    destruct (Z.leb_spec price 0); [lia|]. rewrite Hg1.
    cbn [truthyString]. apply String.eqb_neq in Hne.
    rewrite Hne, Hinvalid. reflexivity.
Qed.

(** X8. [listAsset] lists an asset only for a seller whose account holds
    it: a call that returns has read, for the seller's address, a holding
    of the asset with a non-zero amount; with accepted inputs, an account
    without such a holding makes the call throw "Seller does not own asset
    N", and a failing account query makes it throw under the prefix of
    [getAssetHolding]; in both cases the listings are as they were. *)
Theorem listAsset_requires_holding seller assetId price rr rp (st : Market) :
  (forall k st',
      listAsset seller assetId price rr rp st = (Return k, st') ->
      exists info w1 h,
        accountInformation (addr seller) (world st) = (Return info, w1)
        /\ In h match info_assets info with Some hs => hs | None => [] end
        /\ asset_id h = assetId
        /\ holding_amount h <> 0)
  /\ (forall info w1,
        inputsAccepted price rr rp ->
        accountInformation (addr seller) (world st) = (Return info, w1) ->
        (forall h,
            In h match info_assets info with Some hs => hs | None => [] end ->
            asset_id h = assetId ->
            holding_amount h = 0) ->
        listAsset seller assetId price rr rp st
        = (Throw (JsError ("Seller does not own asset "
                           ++ numberToString assetId)),
           {| listings := listings st; world := w1 |}))
  /\ (forall e w1,
        inputsAccepted price rr rp ->
        accountInformation (addr seller) (world st) = (Throw e, w1) ->
        listAsset seller assetId price rr rp st
        = (Throw (JsError ("Failed to get asset holdings: "
                           ++ errorMessage e)),
           {| listings := listings st; world := w1 |})).
Proof.
  split; [|split].
  - intros k st' Hrun.
    destruct (listAsset_returns _ _ _ _ _ _ _ _ Hrun)
      as (info & w1 & h & t1 & w2 & t2 & w3
          & _ & Hinfo & Hfind & Hamount & _).
    exists info, w1, h. split; [exact Hinfo|].
    unfold AssetManager.findHolding in Hfind.
    apply find_some in Hfind as (Hin & Hid).
    apply Z.eqb_eq in Hid. auto.
  - intros info w1 Hok Hinfo Hnone.
    destruct (inputsAccepted_guards _ _ _ Hok) as (Hg0 & Hg1 & Hg2).
    unfold listAsset, AssetManager.getAssetHolding. eff_unfold.
    rewrite Hg0, Hg1, Hg2. cbv beta iota. rewrite Hinfo. cbv beta iota.
    cbn [notHeld].
    destruct (AssetManager.findHolding assetId _) as [h|] eqn:Hfind;
      [|reflexivity].
    unfold AssetManager.findHolding in Hfind.
    apply find_some in Hfind as (Hin & Hid). apply Z.eqb_eq in Hid.
    rewrite (Hnone h Hin Hid). reflexivity.
  - intros e w1 Hok Hinfo.
    destruct (inputsAccepted_guards _ _ _ Hok) as (Hg0 & Hg1 & Hg2).
    unfold listAsset, AssetManager.getAssetHolding. eff_unfold.
    rewrite Hg0, Hg1, Hg2. cbv beta iota. rewrite Hinfo. reflexivity.
Qed.

Lemma In_values_set {V} k (v : V) (m : JsMap V) :
  In v (Map_values (Map_set k v m)).
Proof.
  unfold Map_values. apply (in_map snd _ (k, v)).
  apply Map_get_In. apply Map_get_set_same.
Qed.

(** X9. After a [listAsset] that returned an id, [getListing] on that id
    gives a listing with that id, the asset, the seller's address and the
    price of the call, and status [active]; and that listing is among the
    results of [getActiveListings], of [getListingsBySeller] for the
    seller's address and of [getListingsByAsset] for the asset. *)
Theorem listAsset_then_queries
    seller0 assetId0 price0 rr rp (st : Market) k st' :
  listAsset seller0 assetId0 price0 rr rp st = (Return k, st') ->
  exists l,
    getListing k st' = (Return (Some l), st')
    /\ id l = k
    /\ assetId l = assetId0
    /\ seller l = addr seller0
    /\ price l = price0
    /\ status l = active
    /\ (exists ls, getActiveListings st' = (Return ls, st') /\ In l ls)
    /\ (exists ls,
          getListingsBySeller (addr seller0) st' = (Return ls, st')
          /\ In l ls)
    /\ (exists ls,
          getListingsByAsset assetId0 st' = (Return ls, st') /\ In l ls).
Proof.
  intros Hrun.
  destruct (listAsset_returns _ _ _ _ _ _ _ _ Hrun)
    as (info & w1 & h & t1 & w2 & t2 & w3 & _ & _ & _ & _ & _ & _ & Hk & ->).
  exists (listed seller0 assetId0 price0 rr rp t1 t2).
  unfold getListing, getActiveListings, getListingsBySeller,
    getListingsByAsset, Eff.gets.
  cbn [listings]. rewrite Map_get_set_same.
  split; [reflexivity|]. split; [now rewrite Hk|].
  split; [reflexivity|]. split; [reflexivity|]. split; [reflexivity|].
  split; [reflexivity|].
  split; [|split]; eexists; (split; [reflexivity|]);
    apply filter_In; (split; [apply In_values_set|]); cbn.
  - reflexivity.
  - apply String.eqb_refl.
  - apply Z.eqb_refl.
Qed.

(** X10. The id [listAsset] returns is "listing_", the asset id, "_" and
    the clock reading, and two such ids are equal only for the same asset
    and the same reading.  A returning call leaves the listing stored under
    every other id as it was, and the map grows by one entry exactly when
    the returned id was not a key before. *)
Theorem listAsset_id_and_other_listings
    seller0 assetId0 price0 rr rp (st : Market) k st' :
  listAsset seller0 assetId0 price0 rr rp st = (Return k, st') ->
  (exists t w1 w2,
      Date_now w1 = (t, w2)
      /\ k = listingIdOf assetId0 t
      /\ forall a' t', listingIdOf a' t' = k <-> a' = assetId0 /\ t' = t)
  /\ (forall k', k' <> k ->
                 Map_get k' (listings st') = Map_get k' (listings st))
  /\ Map_size (listings st')
     = match Map_get k (listings st) with
       | Some _ => Map_size (listings st)
       | None => Map_size (listings st) + 1
       end.
Proof.
  intros Hrun.
  destruct (listAsset_returns _ _ _ _ _ _ _ _ Hrun)
    as (info & w1 & h & t1 & w2 & t2 & w3 & _ & _ & _ & _ & Ht1 & _
        & Hk & ->).
  split; [|split].
  - exists t1, w1, w2. split; [exact Ht1|]. split; [exact Hk|].
    intros a' t'. rewrite Hk. split.
    + apply listingId_inj.
    + now intros (-> & ->).
  - intros k' Hne. cbn [listings]. now apply Map_get_set_other.
  - cbn [listings]. apply Map_set_size.
Qed.

End Listing.

Section Trading.
Context `{LedgerClient}.

Lemma buyAsset_not_active buyer k sellerAccount (st : Market) l :
  Map_get k (listings st) = Some l ->
  status l <> active ->
  buyAsset buyer k sellerAccount st
  = (Throw (JsError ("Listing " ++ k ++ " is not active")), st).
Proof.
  intros Hget Hterm.
  assert (Hs : Status_eqb (status l) active = false).
  { destruct (Status_eqb (status l) active) eqn:E; [|reflexivity].
    apply Status_eqb_eq in E. contradiction. }
  unfold buyAsset. eff_unfold. rewrite Hget, Hs. reflexivity.
Qed.

Lemma buyAsset_returns_sold buyer k sellerAccount (st : Market) txId st' :
  buyAsset buyer k sellerAccount st = (Return txId, st') ->
  exists l,
    Map_get k (listings st) = Some l
    /\ status l = active
    /\ listings st' = Map_set k (setStatus l sold) (listings st).
Proof.
  pose proof (buyAsset_checks_run buyer k sellerAccount st) as Hchk.
  rewrite buyAsset_split. unfold Eff.bind, Eff.modify, Eff.ret, liftW.
  destruct (buyAsset_checks buyer k sellerAccount st) as [[l|e] st1];
    [|discriminate].
  destruct Hchk as (Hl & Hget & Hact & _).
  destruct (AtomicTransactionManager.marketplacePurchase _ (world st1))
    as [[tx|e] w2]; [|discriminate].
  cbn [listings world]. intros [= _ <-]. exists l. cbn [listings].
  rewrite Hl. auto.
Qed.

(** X11. [buyAsset] on an id that is not stored throws the not-found
    error, and on an active listing with a seller account whose address is
    not the listing's seller it throws "Seller account does not match
    listing"; in both cases nothing of the client has been called and
    nothing has changed. *)
Theorem buyAsset_fails_before_any_client_call
    buyer k sellerAccount (st : Market) :
  (Map_get k (listings st) = None ->
   buyAsset buyer k sellerAccount st
   = (Throw (JsError ("Listing " ++ k ++ " not found")), st))
  /\ (forall l,
        Map_get k (listings st) = Some l ->
        status l = active ->
        addr sellerAccount <> seller l ->
        buyAsset buyer k sellerAccount st
        = (Throw (JsError "Seller account does not match listing"), st)).
Proof.
  split.
  - intros Hget. unfold buyAsset. eff_unfold. now rewrite Hget.
  - intros l Hget Hact Hne. unfold buyAsset. eff_unfold.
    rewrite Hget, Hact. cbn [Status_eqb negb].
    apply String.eqb_neq in Hne. rewrite Hne. reflexivity.
Qed.

(** X12. On an active listing and with the matching seller, [buyAsset]
    reads the buyer's account and opts the buyer in exactly when the
    account does not list the asset: an account that lists it (even with
    amount 0) goes on to the balance check with no opt-in; otherwise one
    opt-in is sent, and if it fails the purchase stops with "Opt-in
    failed: " and the cause.  A failure of the account query itself is
    thrown as it is, unwrapped.  The listings are untouched throughout. *)
Theorem buyAsset_opts_in_when_needed
    buyer k sellerAccount (st : Market) l :
  Map_get k (listings st) = Some l ->
  status l = active ->
  addr sellerAccount = seller l ->
  (forall info w1,
      accountInformation (addr buyer) (world st) = (Return info, w1) ->
      In (assetId l)
         (map asset_id
              match info_assets info with Some hs => hs | None => [] end) ->
      buyAsset_preconditions buyer k sellerAccount st
      = (Return l, {| listings := listings st; world := w1 |}))
  /\ (forall info w1 tx w2,
        accountInformation (addr buyer) (world st) = (Return info, w1) ->
        ~ In (assetId l)
            (map asset_id
                 match info_assets info with Some hs => hs | None => [] end) ->
        assetOptIn buyer (assetId l) w1 = (Return tx, w2) ->
        buyAsset_preconditions buyer k sellerAccount st
        = (Return l, {| listings := listings st; world := w2 |}))
  /\ (forall info w1 e w2,
        accountInformation (addr buyer) (world st) = (Return info, w1) ->
        ~ In (assetId l)
            (map asset_id
                 match info_assets info with Some hs => hs | None => [] end) ->
        assetOptIn buyer (assetId l) w1 = (Throw e, w2) ->
        buyAsset buyer k sellerAccount st
        = (Throw (JsError ("Opt-in failed: " ++ errorMessage e)),
           {| listings := listings st; world := w2 |}))
  /\ (forall e w1,
        accountInformation (addr buyer) (world st) = (Throw e, w1) ->
        buyAsset buyer k sellerAccount st
        = (Throw e, {| listings := listings st; world := w1 |})).
Proof.
  intros Hget Hact Hseller.
  assert (Hopt : forall info,
    hasOptedInto info (assetId l) = true
    <-> In (assetId l)
           (map asset_id
                match info_assets info with Some hs => hs | None => [] end)).
  { intros info. unfold hasOptedInto.
    destruct (info_assets info) as [hs|]; [|split; [discriminate|intros []]].
    rewrite existsb_exists, in_map_iff. split.
    - intros (h & Hin & Hid). apply Z.eqb_eq in Hid. eauto.
    - intros (h & Hid & Hin). exists h. split; [exact Hin|].
      now apply Z.eqb_eq. }
  apply String.eqb_eq in Hseller.
  split; [|split; [|split]].
  - intros info w1 Hinfo Hin. apply Hopt in Hin.
    unfold buyAsset_preconditions. eff_unfold.
    rewrite Hget, Hact, Hseller. cbn [Status_eqb negb]. cbv beta iota.
    rewrite Hinfo. cbv beta iota. rewrite Hin. reflexivity.
  - intros info w1 tx w2 Hinfo Hnot Hoptin.
    assert (Hno : hasOptedInto info (assetId l) = false).
    { destruct (hasOptedInto info (assetId l)) eqn:E; [|reflexivity].
      apply Hopt in E. contradiction. }
    unfold buyAsset_preconditions, AssetManager.optIn. eff_unfold.
    rewrite Hget, Hact, Hseller. cbn [Status_eqb negb]. cbv beta iota.
    rewrite Hinfo. cbv beta iota. rewrite Hno. cbn [negb listings world].
    rewrite Hoptin. reflexivity.
  - intros info w1 e w2 Hinfo Hnot Hoptin.
    assert (Hno : hasOptedInto info (assetId l) = false).
    { destruct (hasOptedInto info (assetId l)) eqn:E; [|reflexivity].
      apply Hopt in E. contradiction. }
    unfold buyAsset, AssetManager.optIn. eff_unfold.
    rewrite Hget, Hact, Hseller. cbn [Status_eqb negb]. cbv beta iota.
    rewrite Hinfo. cbv beta iota. rewrite Hno. cbn [negb listings world].
    rewrite Hoptin. reflexivity.
  - intros e w1 Hinfo. unfold buyAsset. eff_unfold.
    rewrite Hget, Hact, Hseller. cbn [Status_eqb negb]. cbv beta iota.
    rewrite Hinfo. reflexivity.
Qed.

(** X13. A listing is sold at most once: after a [buyAsset] on an id has
    returned, and likewise after a [cancelListing] on it has returned,
    every [buyAsset] on that id throws the not-active error and changes
    nothing, whoever calls it and whatever purchases, cancellations and
    changes of the world have happened in between. *)
Theorem sold_or_cancelled_is_final (st : Market) k :
  (forall buyer sellerAccount txId st',
      buyAsset buyer k sellerAccount st = (Return txId, st') ->
      forall cs buyer' sellerAccount',
        buyAsset buyer' k sellerAccount' (runCalls cs st')
        = (Throw (JsError ("Listing " ++ k ++ " is not active")),
           runCalls cs st'))
  /\ (forall seller_ st',
        cancelListing seller_ k st = (Return tt, st') ->
        forall cs buyer' sellerAccount',
          buyAsset buyer' k sellerAccount' (runCalls cs st')
          = (Throw (JsError ("Listing " ++ k ++ " is not active")),
             runCalls cs st')).
Proof.
  split.
  - intros buyer sellerAccount txId st' Hbuy cs buyer' sellerAccount'.
    destruct (buyAsset_returns_sold _ _ _ _ _ _ Hbuy) as (l & _ & _ & Hl).
    apply buyAsset_not_active with (l := setStatus l sold).
    + apply runCalls_keeps_terminal; [|discriminate].
      rewrite Hl. apply Map_get_set_same.
    + discriminate.
  - intros seller_ st'. rewrite cancelListing_eq.
    destruct (Map_get k (listings st)) as [l|]; [|discriminate].
    destruct (negb (String.eqb (seller l) (addr seller_))); [discriminate|].
    destruct (negb (Status_eqb (status l) active)); [discriminate|].
    intros [= <-] cs buyer' sellerAccount'.
    apply buyAsset_not_active with (l := setStatus l cancelled).
    + apply runCalls_keeps_terminal; [|discriminate].
      apply Map_get_set_same.
    + discriminate.
Qed.

End Trading.

Section Invariants.
Context `{LedgerClient}.

Lemma royalty_bounds (l : Listing) :
  0 < price l ->
  (forall pct, royaltyPercentage l = Some pct -> 0 <= pct <= 100) ->
  0 <= royaltyAmountOf l <= price l.
Proof.
  intros Hprice Hpct. unfold royaltyAmountOf.
  destruct (truthyString (royaltyRecipient l)
            && truthyNumber (royaltyPercentage l)); [|lia].
  destruct (royaltyPercentage l) as [pct|]; [|lia].
  specialize (Hpct pct eq_refl). split.
  - apply Z.div_pos; nia.
  - apply Z.div_le_upper_bound; nia.
Qed.

(** X14. In every state a marketplace can reach, a listing is stored under
    its own id, the id is "listing_", the listing's asset id, "_" and a
    number, and its royalty recipient, unless absent or empty, is an
    address [isValidAddress] accepts. *)
Theorem reachable_listings_are_well_formed (st : Market) k l :
  reachable st ->
  Map_get k (listings st) = Some l ->
  id l = k
  /\ (exists t, id l = listingIdOf (assetId l) t)
  /\ (forall r,
        royaltyRecipient l = Some r -> r <> "" -> isValidAddress r = true).
Proof.
  intros Hreach Hget.
  destruct (reachable_wellFormed st Hreach) as (_ & Hw).
  destruct (Hw k l Hget) as (Hid & (t & Hk) & _ & _ & Hrec).
  split; [exact Hid|]. split; [exists t; congruence|exact Hrec].
Qed.

(** X15. For a listing of a reachable state whose price, an integer, is
    below 2^53 / 100, and whose asset id is a safe integer: the royalty the
    code computes in doubles is the integer royalty, every number of the
    settlement [buyAsset] starts lies in the range the builders accept, and
    the settlement never stops at its own recipient check, [listAsset]
    having validated the recipient already.  So the group of two or three
    signed transactions is always built, and [marketplacePurchase] throws
    only when the client does: at the transaction parameters, at the
    submission of that group, or at the wait for its confirmation. *)
Theorem reachable_settlement_always_builds_group
    (st : Market) k l buyer sellerAccount :
  reachable st ->
  Map_get k (listings st) = Some l ->
  price l * 100 < 2 ^ 53 ->
  safeInteger (assetId l) ->
  Doubles.royaltyAmountOf (Doubles.ofListing l)
  = Number_ofZ (royaltyAmountOf l)
  /\ purchaseInRange (purchaseOf buyer sellerAccount l)
  /\ (forall sp,
        exists signedTxns,
          purchaseGroup (purchaseOf buyer sellerAccount l) sp
          = Return signedTxns
          /\ (length signedTxns = 2%nat \/ length signedTxns = 3%nat)
          /\ Forall builderAccepts (map txn signedTxns))
  /\ (forall w e w',
        AtomicTransactionManager.marketplacePurchase
          (purchaseOf buyer sellerAccount l) w
        = (Throw e, w') ->
        (exists e0, getTransactionParams w = (Throw e0, w'))
        \/ (exists sp w1 signedTxns e0,
              getTransactionParams w = (Return sp, w1)
              /\ purchaseGroup (purchaseOf buyer sellerAccount l) sp
                 = Return signedTxns
              /\ (sendRawTransaction signedTxns w1 = (Throw e0, w')
                  \/ exists txId w2,
                       sendRawTransaction signedTxns w1 = (Return txId, w2)
                       /\ waitForConfirmation txId 4 w2 = (Throw e0, w')))).
Proof.
  intros Hreach Hget Hsafe Hasset.
  destruct (reachable_wellFormed st Hreach) as (_ & Hw).
  destruct (Hw k l Hget) as (_ & _ & Hprice & Hpct & Hrec).
  pose proof (royalty_bounds l Hprice Hpct) as Hroy.
  assert (Hmax : price l <= MAX_SAFE_INTEGER).
  { unfold MAX_SAFE_INTEGER. lia. }
  assert (Hbuilt : forall sp0,
    exists g,
      purchaseGroup (purchaseOf buyer sellerAccount l) sp0 = Return g
      /\ (length g = 2%nat \/ length g = 3%nat)
      /\ Forall builderAccepts (map txn g)).
  { intros sp0.
    assert (Hpay : forall from to amount note group,
      0 <= amount <= MAX_SAFE_INTEGER ->
      builderAccepts
        {| body := Payment from to amount note;
           params := sp0; group := group |}) by (intros; assumption).
    assert (Hxfer : forall from to group,
      builderAccepts
        {| body := AssetTransfer from to (assetId l) 1;
           params := sp0; group := group |})
      by (intros; unfold builderAccepts; cbn [body]; split;
          [exact Hasset|split; [lia|vm_compute; discriminate]]).
    unfold purchaseGroup, AtomicTransactionManager.purchaseTransactions,
      AtomicTransactionManager.royaltyLegRequested, purchaseOf.
    cbn [AtomicTransactionManager.buyer AtomicTransactionManager.seller
         AtomicTransactionManager.assetId AtomicTransactionManager.price
         AtomicTransactionManager.royaltyRecipient
         AtomicTransactionManager.royaltyAmount].
    destruct (royaltyRecipient l) as [r|]; cbn [truthyString].
    2:{ cbn. eexists. split; [reflexivity|]. split; [auto|].
        repeat (apply Forall_cons; [first [apply Hpay; lia|apply Hxfer]|]).
        apply Forall_nil. }
    destruct (String.eqb_spec r "") as [|Hne]; cbn [negb andb].
    { cbn. eexists. split; [reflexivity|]. split; [auto|].
      repeat (apply Forall_cons; [first [apply Hpay; lia|apply Hxfer]|]).
      apply Forall_nil. }
    rewrite (Hrec r eq_refl Hne).
    destruct (truthyNumber (Some (royaltyAmountOf l))
              && Z.gtb (royaltyAmountOf l) 0); cbn;
      (eexists; split; [reflexivity|]; split; [auto|];
       repeat (apply Forall_cons; [first [apply Hpay; lia|apply Hxfer]|]);
       apply Forall_nil). }
  split.
  { apply royaltyAmountOf_in_doubles; [exact Hprice|].
    intros pct Hp. specialize (Hpct pct Hp). split; [lia|nia]. }
  split.
  { unfold purchaseInRange, purchaseOf, safeInteger.
    cbn [AtomicTransactionManager.price AtomicTransactionManager.assetId
         AtomicTransactionManager.royaltyAmount].
    split; [lia|]. split; [exact Hasset|]. intros a [= <-]. lia. }
  split; [exact Hbuilt|].
  intros w e w'. rewrite marketplacePurchase_eq. cbv zeta.
  destruct (getTransactionParams w) as [[sp|e0] w1].
  - destruct (Hbuilt sp) as (g & Hg & _). rewrite Hg.
    destruct (sendRawTransaction g w1) as [[txId|e1] w2] eqn:Hsend.
    + destruct (waitForConfirmation txId 4 w2) as [[u|e2] w3] eqn:Hwait;
        [discriminate|].
      intros [= _ <-]. right. exists sp, w1, g, e2. split; [reflexivity|].
      split; [exact Hg|]. right. exists txId, w2. auto.
    + intros [= _ <-]. right. exists sp, w1, g, e1. auto.
  - intros [= _ <-]. left. eauto.
Qed.

Lemma Map_set_keeps {V} k k' (v : V) (m : JsMap V) :
  Map_get k' m <> None -> Map_get k' (Map_set k v m) <> None.
Proof.
  intros Hsome. destruct (string_dec k' k) as [->|Hne].
  - rewrite Map_get_set_same. discriminate.
  - now rewrite Map_get_set_other.
Qed.

Lemma Map_set_size_le {V} k (v : V) (m : JsMap V) :
  Map_size m <= Map_size (Map_set k v m).
Proof. rewrite Map_set_size. destruct (Map_get k m); lia. Qed.

(** X16. Nothing is ever removed from the registry: whatever [listAsset],
    [buyAsset] or [cancelListing] returns or throws, every id that was
    stored before the call is stored after it, and the number of entries
    has not gone down. *)
Theorem listings_are_never_deleted (st : Market) :
  (forall seller0 assetId0 price0 rr rp,
      let st' := snd (listAsset seller0 assetId0 price0 rr rp st) in
      (forall k, Map_get k (listings st) <> None ->
                 Map_get k (listings st') <> None)
      /\ Map_size (listings st) <= Map_size (listings st'))
  /\ (forall buyer k0 sellerAccount,
        let st' := snd (buyAsset buyer k0 sellerAccount st) in
        (forall k, Map_get k (listings st) <> None ->
                   Map_get k (listings st') <> None)
        /\ Map_size (listings st) = Map_size (listings st'))
  /\ (forall seller_ k0,
        let st' := snd (cancelListing seller_ k0 st) in
        (forall k, Map_get k (listings st) <> None ->
                   Map_get k (listings st') <> None)
        /\ Map_size (listings st) = Map_size (listings st')).
Proof.
  split; [|split].
  - intros seller0 assetId0 price0 rr rp. cbv zeta.
    pose proof (listAsset_run seller0 assetId0 price0 rr rp st) as Hrun.
    destruct (listAsset seller0 assetId0 price0 rr rp st) as [[k0|e] st'];
      cbn [snd].
    + destruct Hrun as (t1 & t2 & w1 & w2 & _ & _ & _ & ->). split.
      * intros k. apply Map_set_keeps.
      * apply Map_set_size_le.
    + rewrite Hrun. split; [auto|lia].
  - intros buyer k0 sellerAccount. cbv zeta.
    destruct (buyAsset_listings buyer k0 sellerAccount st)
      as [->|(l & Hget & _ & ->)]; [split; [auto|lia]|].
    split; [intros k; apply Map_set_keeps|].
    now rewrite Map_set_size, Hget.
  - intros seller_ k0. cbv zeta. rewrite cancelListing_eq.
    destruct (Map_get k0 (listings st)) as [l|] eqn:Hget;
      [|split; [auto|reflexivity]].
    destruct (negb (String.eqb (seller l) (addr seller_)));
      [split; [auto|reflexivity]|].
    destruct (negb (Status_eqb (status l) active));
      [split; [auto|reflexivity]|].
    cbn [snd listings]. split; [intros k; apply Map_set_keeps|].
    now rewrite Map_set_size, Hget.
Qed.

Lemma active_after_set k l s (m : JsMap Listing) :
  Map_get k m = Some l ->
  status l = active ->
  s <> active ->
  length (filter (fun x => Status_eqb (status x) active) (Map_values m))
  = S (length (filter (fun x => Status_eqb (status x) active)
                      (Map_values (Map_set k (setStatus l s) m)))).
Proof.
  intros Hget Hact Hs. unfold Map_values. revert Hget.
  induction m as [|[k0 l0] m IH]; simpl; [discriminate|].
  destruct (String.eqb_spec k0 k) as [->|Hne]; simpl.
  - intros [= ->]. rewrite Hact. simpl.
    destruct s; simpl; [contradiction|reflexivity|reflexivity].
  - intros Hget.
    destruct (Status_eqb (status l0) active); simpl; now rewrite IH.
Qed.

(** X17. A [cancelListing] by the listing's seller on an active listing
    returns without calling the client, and the stored listing becomes
    [cancelled] with every other field kept.  After it, as after a
    [buyAsset] that returned, [getActiveListings] returns exactly one
    listing fewer than before. *)
Theorem cancel_or_sale_removes_one_active_listing (st : Market) k :
  (forall seller_ l,
      Map_get k (listings st) = Some l ->
      status l = active ->
      seller l = addr seller_ ->
      exists st',
        cancelListing seller_ k st = (Return tt, st')
        /\ world st' = world st
        /\ getListing k st' = (Return (Some (setStatus l cancelled)), st')
        /\ forall ls ls',
             getActiveListings st = (Return ls, st) ->
             getActiveListings st' = (Return ls', st') ->
             length ls = S (length ls'))
  /\ (forall buyer sellerAccount txId st',
        buyAsset buyer k sellerAccount st = (Return txId, st') ->
        forall ls ls',
          getActiveListings st = (Return ls, st) ->
          getActiveListings st' = (Return ls', st') ->
          length ls = S (length ls')).
Proof.
  split.
  - intros seller_ l Hget Hact Hseller. rewrite cancelListing_eq, Hget.
    apply String.eqb_eq in Hseller. rewrite Hseller, Hact.
    cbn [negb Status_eqb]. eexists. split; [reflexivity|].
    split; [reflexivity|]. split.
    + unfold getListing, Eff.gets. cbn [listings].
      now rewrite Map_get_set_same.
    + unfold getActiveListings, Eff.gets. cbn [listings].
      intros ls ls' [= <-] [= <-].
      now apply active_after_set.
  - intros buyer sellerAccount txId st' Hbuy ls ls'.
    destruct (buyAsset_returns_sold _ _ _ _ _ _ Hbuy)
      as (l & Hget & Hact & Hl).
    unfold getActiveListings, Eff.gets. rewrite Hl.
    intros [= <-] [= <-]. now apply active_after_set.
Qed.

Lemma In_values {V} (v : V) (m : JsMap V) :
  In v (Map_values m) <-> exists k, In (k, v) m.
Proof.
  unfold Map_values. rewrite in_map_iff. split.
  - intros ([k v'] & Hv & Hin). cbn in Hv. subst. eauto.
  - intros (k & Hin). exists (k, v). auto.
Qed.

(** X18. In every state a marketplace can reach, the three list queries
    agree with [getListing]: a listing is returned by [getActiveListings],
    [getListingsBySeller] or [getListingsByAsset] exactly when [getListing]
    on its own id returns it and it is active, has that seller, or has that
    asset. *)
Theorem reachable_queries_agree_with_getListing (st : Market) :
  reachable st ->
  forall l,
    let stored := fst (getListing (id l) st) = Return (Some l) in
    (forall ls, getActiveListings st = (Return ls, st) ->
                (In l ls <-> stored /\ status l = active))
    /\ (forall a ls, getListingsBySeller a st = (Return ls, st) ->
                     (In l ls <-> stored /\ seller l = a))
    /\ (forall a ls, getListingsByAsset a st = (Return ls, st) ->
                     (In l ls <-> stored /\ assetId l = a)).
Proof.
  intros Hreach l. cbv zeta.
  destruct (reachable_wellFormed st Hreach) as (Hu & Hw).
  assert (Hstored :
    In l (Map_values (listings st))
    <-> fst (getListing (id l) st) = Return (Some l)).
  { unfold getListing, Eff.gets. cbn [fst]. rewrite In_values. split.
    - intros (k & Hin). pose proof (In_Map_get k l _ Hu Hin) as Hget.
      destruct (Hw k l Hget) as (Hid & _). rewrite Hid. now rewrite Hget.
    - intros [= Hget]. exists (id l). now apply Map_get_In. }
  unfold getActiveListings, getListingsBySeller, getListingsByAsset,
    Eff.gets.
  split; [|split].
  - intros ls [= <-]. rewrite filter_In, Hstored, Status_eqb_eq. tauto.
  - intros a ls [= <-]. rewrite filter_In, Hstored, String.eqb_eq. tauto.
  - intros a ls [= <-]. rewrite filter_In, Hstored, Z.eqb_eq. tauto.
Qed.

End Invariants.

(** ** The registry on integers and on doubles *)

Section IntegersAndDoubles.
Context `{LedgerClient}.

Lemma Map_set_ofListing k l (m : JsMap Listing) :
  map (fun kv => (fst kv, Doubles.ofListing (snd kv))) (Map_set k l m)
  = Map_set k (Doubles.ofListing l)
      (map (fun kv => (fst kv, Doubles.ofListing (snd kv))) m).
Proof.
  induction m as [|[k' l'] m IH]; [reflexivity|].
  cbn [Map_set map fst snd].
  destruct (String.eqb k' k); cbn [map fst snd]; [reflexivity|].
  now rewrite IH.
Qed.

(** X24. On integers below 2^53 in absolute value, the comparisons
    [listAsset] makes on its price and its percentage as doubles are the
    comparisons of the integers: listing at an integer price, with an
    integer percentage if any, does on the marketplace of doubles what
    [listAsset] on integers does, throws the same error or returns the same
    id, and leaves the corresponding marketplace behind. *)
Theorem listAsset_on_integers_is_listAsset_on_doubles
    seller assetId price rr rp (st : Market) :
  Z.abs price < 2 ^ 53 ->
  (forall pct, rp = Some pct -> Z.abs pct < 2 ^ 53) ->
  Doubles.listAsset seller assetId (Number_ofZ price) rr
    (option_map Number_ofZ rp) (Doubles.ofMarket st)
  = (fst (listAsset seller assetId price rr rp st),
     Doubles.ofMarket (snd (listAsset seller assetId price rr rp st))).
Proof.
  intros Hprice Hpct.
  assert (Hguard :
    truthyDouble (option_map Number_ofZ rp)
    && match option_map Number_ofZ rp with
       | Some pct =>
           PrimFloat.ltb pct PrimFloat.zero || PrimFloat.ltb 100%float pct
       | None => false
       end
    = truthyNumber rp
      && match rp with
         | Some pct => Z.ltb pct 0 || Z.gtb pct 100
         | None => false
         end).
  { destruct rp as [pct|]; [|reflexivity]. cbn [option_map].
    specialize (Hpct pct eq_refl).
    now rewrite truthyDouble_ofZ, ltb_ofZ_zero, ltb_100_ofZ, Z.gtb_ltb. }
  unfold Doubles.listAsset, listAsset, Doubles.liftW, Doubles.now,
    Doubles.ofMarket.
  eff_unfold. rewrite Hguard, leb_ofZ_zero by exact Hprice.
  destruct (Z.leb price 0); [reflexivity|].
  destruct (truthyNumber rp && _); [reflexivity|].
  destruct (truthyString rr && _); [reflexivity|].
  cbv beta iota. cbn [Doubles.listings Doubles.world listings world fst snd].
  destruct (AssetManager.getAssetHolding (addr seller) (Some assetId)
              (world st)) as [[holding|e] w1]; [|reflexivity].
  cbv beta iota. cbn [Doubles.listings Doubles.world listings world fst snd].
  destruct (notHeld holding); [reflexivity|].
  cbv beta iota. cbn [Doubles.listings Doubles.world listings world fst snd].
  destruct (Date_now w1) as [t1 w2].
  cbv beta iota. cbn [Doubles.listings Doubles.world listings world fst snd].
  destruct (Date_now w2) as [t2 w3].
  cbv beta iota. cbn [Doubles.listings Doubles.world listings world fst snd].
  rewrite Map_set_ofListing. reflexivity.
Qed.

End IntegersAndDoubles.

(** ** Payments and assets (src/core/payments, src/core/assets) *)

Section PaymentsAndAssets.
Context `{AlgoKitClient}.

(** X19. [sendPayment] checks the recipient and then the amount before it
    sends anything: an invalid recipient address, or else an amount that is
    not positive, or else an amount above 2^53 - 1, which
    [microalgosToAlgos] refuses, makes it throw under "Payment failed: "
    with the world untouched; otherwise it sends exactly one payment, of
    the amount divided by 1e6, from the sender's address and signed by the
    sender, and returns its transaction id or re-throws the sender's
    failure under the same prefix. *)
Theorem sendPayment_validates_before_sending
    (from : Account) (to : string) (amount : Z) (note : option string)
    (w : World) :
  (isValidAddress to = false ->
   PaymentManager.sendPayment from to amount note w
   = (Throw (JsError ("Payment failed: "
                      ++ ("Invalid recipient address: " ++ to))), w))
  /\ (isValidAddress to = true ->
      amount <= 0 ->
      PaymentManager.sendPayment from to amount note w
      = (Throw (JsError ("Payment failed: "
                         ++ ("Amount must be positive, got: "
                             ++ numberToString amount))), w))
  /\ (isValidAddress to = true ->
      MAX_SAFE_INTEGER < amount ->
      PaymentManager.sendPayment from to amount note w
      = (Throw (JsError ("Payment failed: " ++ errorMessage microalgosError)),
         w))
  /\ (isValidAddress to = true ->
      0 < amount <= MAX_SAFE_INTEGER ->
      exists request,
        pay_sender request = addr from
        /\ pay_receiver request = to
        /\ pay_amount request
           = PrimFloat.div (Number_ofZ amount) 1000000%float
        /\ pay_signer request = from
        /\ PaymentManager.sendPayment from to amount note w
           = match send_payment request w with
             | (Return txID, w1) => (Return txID, w1)
             | (Throw e, w1) =>
                 (Throw (JsError ("Payment failed: " ++ errorMessage e)), w1)
             end).
Proof.
  split; [|split; [|split]].
  - intros Hbad. unfold PaymentManager.sendPayment. eff_unfold.
    rewrite Hbad. reflexivity.
  - intros Hok Hamount. unfold PaymentManager.sendPayment. eff_unfold.
    rewrite Hok. cbn [negb]. destruct (Z.leb_spec amount 0); [|lia].
    reflexivity.
  - intros Hok Hamount.
    unfold PaymentManager.sendPayment, microalgosToAlgos. eff_unfold.
    rewrite Hok. cbn [negb].
    assert (0 < MAX_SAFE_INTEGER) by reflexivity.
    destruct (Z.leb_spec amount 0); [lia|].
    destruct (Z.ltb_spec amount 0); [lia|].
    destruct (Z.ltb_spec MAX_SAFE_INTEGER amount); [|lia].
    reflexivity.
  - intros Hok Hamount.
    exists {| pay_sender := addr from;
              pay_receiver := to;
              pay_amount := PrimFloat.div (Number_ofZ amount) 1000000%float;
              pay_note := encodeNote note;
              pay_signer := from |}.
    do 4 (split; [reflexivity|]).
    unfold PaymentManager.sendPayment, microalgosToAlgos. eff_unfold.
    rewrite Hok. cbn [negb]. destruct (Z.leb_spec amount 0); [lia|].
    destruct (Z.ltb_spec amount 0); [lia|].
    destruct (Z.ltb_spec MAX_SAFE_INTEGER amount); [lia|].
    cbv beta iota. cbn [orb].
    destruct (send_payment _ w) as [[txID|e] w1]; reflexivity.
Qed.


(** X21. [createEscrowPayment] moves no funds: what it does and returns
    depends neither on the buyer nor on the amount (which is not checked);
    with an invalid seller address, and for the [time_lock] condition
    always, it throws with the world untouched; for [asset_received] and a
    valid seller address it only reads the clock and returns
    "escrow_pending_" followed by the reading. *)
Theorem createEscrowPayment_moves_no_funds
    (buyer : Account) (seller : string) (amount : Z) (w : World) :
  (forall condition buyer' amount',
      PaymentManager.createEscrowPayment buyer seller amount condition w
      = PaymentManager.createEscrowPayment buyer' seller amount' condition w)
  /\ (exists e,
        PaymentManager.createEscrowPayment
          buyer seller amount PaymentManager.time_lock w
        = (Throw e, w))
  /\ (isValidAddress seller = false ->
      forall condition,
        PaymentManager.createEscrowPayment buyer seller amount condition w
        = (Throw (JsError ("Escrow creation failed: "
                           ++ ("Invalid seller address: " ++ seller))), w))
  /\ (isValidAddress seller = true ->
      forall t w',
        Date_now w = (t, w') ->
        PaymentManager.createEscrowPayment
          buyer seller amount PaymentManager.asset_received w
        = (Return ("escrow_pending_" ++ numberToString t), w')).
Proof.
  split; [|split; [|split]].
  - reflexivity.
  - unfold PaymentManager.createEscrowPayment. eff_unfold.
    destruct (isValidAddress seller); cbn [negb]; eexists; reflexivity.
  - intros Hbad condition. unfold PaymentManager.createEscrowPayment.
    eff_unfold. rewrite Hbad. reflexivity.
  - intros Hok t w' Hnow. unfold PaymentManager.createEscrowPayment.
    eff_unfold. rewrite Hok. cbn [negb]. cbv beta iota. rewrite Hnow.
    reflexivity.
Qed.

(** X22. [transferAsset] sends a transfer only to a valid address, for a
    positive amount, and after having read that the recipient's account
    lists the asset.  An invalid address or an amount that is not positive
    makes it throw with the world untouched, and a recipient that has not
    opted in makes it throw "Recipient ... has not opted into asset N"
    after the account query and before any transfer. *)
Theorem transferAsset_sends_only_to_opted_in
    (from : Account) (to : string) (assetId amount : Z)
    (note : option string) (w : World) :
  (forall txID w',
      AssetManager.transferAsset from to assetId amount note w
      = (Return txID, w') ->
      isValidAddress to = true
      /\ 0 < amount
      /\ exists info w1 request,
           accountInformation to w = (Return info, w1)
           /\ In assetId
                (map asset_id
                     match info_assets info with
                     | Some hs => hs
                     | None => []
                     end)
           /\ xfer_sender request = addr from
           /\ xfer_receiver request = to
           /\ xfer_assetId request = assetId
           /\ xfer_amount request = amount
           /\ send_assetTransfer request w1 = (Return txID, w'))
  /\ (isValidAddress to = false \/ amount <= 0 ->
      exists e,
        AssetManager.transferAsset from to assetId amount note w
        = (Throw e, w))
  /\ (forall info w1,
        isValidAddress to = true ->
        0 < amount ->
        accountInformation to w = (Return info, w1) ->
        ~ In assetId
            (map asset_id
                 match info_assets info with Some hs => hs | None => [] end) ->
        AssetManager.transferAsset from to assetId amount note w
        = (Throw (JsError ("Asset transfer failed: "
                           ++ ("Recipient " ++ to
                               ++ " has not opted into asset "
                               ++ numberToString assetId))), w1)).
Proof.
  assert (Hopt : forall info,
    match info_assets info with
    | Some assets => existsb (fun a => Z.eqb (asset_id a) assetId) assets
    | None => false
    end = true
    <-> In assetId
           (map asset_id
                match info_assets info with Some hs => hs | None => [] end)).
  { intros info.
    destruct (info_assets info) as [hs|]; [|split; [discriminate|intros []]].
    rewrite existsb_exists, in_map_iff. split.
    - intros (h & Hin & Hid). apply Z.eqb_eq in Hid. eauto.
    - intros (h & Hid & Hin). exists h. split; [exact Hin|].
      now apply Z.eqb_eq. }
  split; [|split].
  - intros txID w'. unfold AssetManager.transferAsset. eff_unfold.
    destruct (isValidAddress to); cbn [negb]; [|discriminate].
    destruct (Z.leb_spec amount 0); [discriminate|]. cbv beta iota.
    destruct (accountInformation to w) as [[info|e] w1] eqn:Hinfo;
      [|discriminate].
    cbv beta iota.
    destruct (match info_assets info with
              | Some assets =>
                  existsb (fun a => Z.eqb (asset_id a) assetId) assets
              | None => false
              end) eqn:Hin; cbn [negb]; [|discriminate].
    cbv beta iota.
    destruct (send_assetTransfer _ w1) as [[tx|e] w2] eqn:Hsend;
      [|discriminate].
    intros [= <- <-]. split; [reflexivity|]. split; [assumption|].
    exists info, w1,
      {| xfer_sender := addr from;
         xfer_receiver := to;
         xfer_assetId := assetId;
         xfer_amount := amount;
         xfer_note := encodeNote note;
         xfer_signer := from |}.
    split; [reflexivity|]. split; [now apply Hopt|].
    do 4 (split; [reflexivity|]). exact Hsend.
  - intros Hbad. unfold AssetManager.transferAsset. eff_unfold.
    destruct (isValidAddress to) eqn:Hvalid; cbn [negb];
      [|eexists; reflexivity].
    destruct (Z.leb_spec amount 0); [eexists; reflexivity|].
    destruct Hbad; [discriminate|lia].
  - intros info w1 Hvalid Hamount Hinfo Hnot.
    unfold AssetManager.transferAsset. eff_unfold.
    rewrite Hvalid. cbn [negb]. destruct (Z.leb_spec amount 0); [lia|].
    cbv beta iota. rewrite Hinfo. cbv beta iota.
    destruct (match info_assets info with
              | Some assets =>
                  existsb (fun a => Z.eqb (asset_id a) assetId) assets
              | None => false
              end) eqn:Hin; [apply Hopt in Hin; contradiction|].
    reflexivity.
Qed.

(** X23. [createToken] checks the decimals and then the supply before it
    creates anything: decimals outside 0..19, or else a supply that is not
    positive, make it throw under "Token creation failed: " with the world
    untouched.  Otherwise it creates one asset, for which each of manager,
    reserve, freeze and clawback is the address given, or the creator's
    address when none or an empty one is given, and returns the index of
    the created asset. *)
Theorem createToken_validates_and_defaults
    (creator : Account) (name unitName : string) (total decimals : Z)
    (url manager reserve freeze clawback : option string) (w : World) :
  (decimals < 0 \/ 19 < decimals ->
   AssetManager.createToken creator name unitName total decimals
     url manager reserve freeze clawback w
   = (Throw (JsError ("Token creation failed: " ++ "Decimals must be 0-19")),
      w))
  /\ (0 <= decimals <= 19 ->
      total <= 0 ->
      AssetManager.createToken creator name unitName total decimals
        url manager reserve freeze clawback w
      = (Throw (JsError ("Token creation failed: "
                         ++ "Total supply must be positive")), w))
  /\ (0 <= decimals <= 19 ->
      0 < total ->
      exists request,
        let role (given : option string) (used : string) :=
          match given with
          | Some a => if String.eqb a "" then used = addr creator
                      else used = a
          | None => used = addr creator
          end in
        create_sender request = addr creator
        /\ create_total request = total
        /\ create_decimals request = decimals
        /\ role manager (create_manager request)
        /\ role reserve (create_reserve request)
        /\ role freeze (create_freeze request)
        /\ role clawback (create_clawback request)
        /\ AssetManager.createToken creator name unitName total decimals
             url manager reserve freeze clawback w
           = match send_assetCreate request w with
             | (Return assetIndex, w1) => (Return assetIndex, w1)
             | (Throw e, w1) =>
                 (Throw (JsError ("Token creation failed: "
                                  ++ errorMessage e)), w1)
             end).
Proof.
  assert (Hrole : forall given,
    match given with
    | Some a => if String.eqb a "" then orElse given (addr creator)
                                         = addr creator
                else orElse given (addr creator) = a
    | None => orElse given (addr creator) = addr creator
    end).
  { intros [a|]; cbn; [|reflexivity]. destruct (String.eqb a ""); reflexivity. }
  split; [|split].
  - intros Hbad. unfold AssetManager.createToken. eff_unfold.
    assert (Hg : Z.ltb decimals 0 || Z.gtb decimals 19 = true).
    { apply orb_true_iff. rewrite Z.gtb_ltb.
      destruct Hbad; [left|right]; apply Z.ltb_lt; lia. }
    rewrite Hg. reflexivity.
  - intros Hdec Htotal. unfold AssetManager.createToken. eff_unfold.
    assert (Hg : Z.ltb decimals 0 || Z.gtb decimals 19 = false).
    { apply orb_false_iff. rewrite Z.gtb_ltb.
      split; apply Z.ltb_ge; lia. }
    rewrite Hg. destruct (Z.leb_spec total 0); [reflexivity|lia].
  - intros Hdec Htotal.
    exists {| create_sender := addr creator;
              create_total := total;
              create_decimals := decimals;
              create_assetName := name;
              create_unitName := unitName;
              create_url := url;
              create_manager := orElse manager (addr creator);
              create_reserve := orElse reserve (addr creator);
              create_freeze := orElse freeze (addr creator);
              create_clawback := orElse clawback (addr creator);
              create_signer := creator |}.
    cbv zeta. cbn [create_sender create_total create_decimals create_manager
                   create_reserve create_freeze create_clawback].
    split; [|split; [|split; [|split; [|split; [|split; [|split]]]]]].
    8: { unfold AssetManager.createToken. eff_unfold.
         assert (Hg : Z.ltb decimals 0 || Z.gtb decimals 19 = false).
         { apply orb_false_iff. rewrite Z.gtb_ltb.
           split; apply Z.ltb_ge; lia. }
         rewrite Hg. destruct (Z.leb_spec total 0); [lia|].
         cbv beta iota.
         destruct (send_assetCreate _ w) as [[assetIndex|e] w1];
           reflexivity. }
    all: try reflexivity.
    + apply (Hrole manager).
    + apply (Hrole reserve).
    + apply (Hrole freeze).
    + apply (Hrole clawback).
Qed.

End PaymentsAndAssets.

(** ** The further properties, run on the small ledger *)

Lemma executeAtomicGroup_rejects_count_mismatch_witness :
  @AtomicTransactionManager.executeAtomicGroup Sim.client
    [Sim.payment0; Sim.transfer0] [Sim.bob] (Sim.ledger0 1 true true)
  = (Throw
       (JsError
          "Atomic group execution failed: Number of transactions must match number of signers"),
     Sim.ledger0 1 true true).
Proof.
  apply (@executeAtomicGroup_rejects_count_mismatch Sim.client
           [Sim.payment0; Sim.transfer0] [Sim.bob] (Sim.ledger0 1 true true)).
  - discriminate.
  - simpl. discriminate.
Defined.

Lemma executeAtomicGroup_signs_by_position_witness :
  @AtomicTransactionManager.executeAtomicGroup Sim.client
    (repeat Sim.payment0 17) (repeat Sim.bob 17) (Sim.ledger0 1 true true)
  = (Throw
       (JsError
          "Atomic group execution failed: 17 transactions grouped together but max group size is 16"),
     Sim.ledger0 1 true true).
Proof.
  apply (proj1 (proj2
           (@executeAtomicGroup_signs_by_position Sim.client
              (repeat Sim.payment0 17) (repeat Sim.bob 17)
              (Sim.ledger0 1 true true)
              ltac:(simpl; discriminate) eq_refl))).
  simpl. unfold ALGORAND_MAX_TX_GROUP_SIZE. lia.
Defined.

Lemma atomicSwap_rejects_nonpositive_amounts_witness :
  @AtomicTransactionManager.atomicSwap Sim.client Sim.bob Sim.alice 42 1 0
    (Sim.ledger0 1 true true)
  = (Throw (JsError "Atomic swap failed: Payment amount must be positive"),
     Sim.ledger0 1 true true).
Proof.
  apply (@atomicSwap_rejects_nonpositive_amounts Sim.client
           Sim.bob Sim.alice 42 1 0 (Sim.ledger0 1 true true)).
  left. lia.
Defined.

Lemma atomicSwap_submits_payment_then_transfer_witness :
  let swap :=
    @AtomicTransactionManager.atomicSwap Sim.client Sim.bob Sim.alice
      42 1 5000000 (Sim.ledger0 1 true true) in
  fst swap
  = Throw
      (JsError "Atomic swap failed: Do not know how to serialize a BigInt")
  /\ map (map (fun s => (body (txn s), signedWith s)))
         (Sim.submitted (snd swap))
     = [ [ (Payment "ADDR-BOB" "ADDR-ALICE" 5000000 None, "sk-bob");
           (AssetTransfer "ADDR-ALICE" "ADDR-BOB" 42 1, "sk-alice") ] ].
Proof.
  cbv zeta.
  rewrite (proj1
             (@atomicSwap_submits_payment_then_transfer Sim.client
                Sim.bob Sim.alice 42 1 5000000 (Sim.ledger0 1 true true)
                ltac:(lia) ltac:(lia)
                ltac:(split; [split; vm_compute; discriminate|];
                      split; vm_compute; discriminate))).
  split; vm_compute; reflexivity.
Defined.

Lemma marketplacePurchase_without_royalty_is_swap_witness :
  snd (@AtomicTransactionManager.atomicSwap Sim.client Sim.bob Sim.alice
         42 1 5000000 (Sim.ledger0 1 true true))
  = snd (@AtomicTransactionManager.marketplacePurchase Sim.client
           (purchaseOf Sim.bob Sim.alice Sim.plainListing)
           (Sim.ledger0 1 true true)).
Proof.
  apply (proj1
           (@marketplacePurchase_without_royalty_is_swap Sim.client
              (purchaseOf Sim.bob Sim.alice Sim.plainListing)
              (Sim.ledger0 1 true true) eq_refl ltac:(simpl; lia)
              ltac:(split; [split; vm_compute; discriminate|];
                    split; [split; vm_compute; discriminate|];
                    intros a Ha; injection Ha as <-;
                    vm_compute; discriminate))).
Defined.

Lemma settlement_errors_carry_prefix_witness :
  exists cause,
    JsError "Marketplace purchase failed: network unreachable"
    = JsError ("Marketplace purchase failed: " ++ errorMessage cause)
    /\ @getTransactionParams Sim.client (Sim.ledger0 1 false true)
       = (Throw cause, Sim.ledger0 1 false true).
Proof.
  destruct (proj1 (@settlement_errors_carry_prefix Sim.client)
              (purchaseOf Sim.bob Sim.alice Sim.plainListing)
              (Sim.ledger0 1 false true) _ (Sim.ledger0 1 false true)
              ltac:(split; [split; vm_compute; discriminate|];
                    split; [split; vm_compute; discriminate|];
                    intros a Ha; injection Ha as <-;
                    vm_compute; discriminate)
              ltac:(vm_compute; reflexivity))
    as (cause & Hmessage & [Hparams|(sp & w1 & Hparams & _)]).
  - exists cause. split; [exact Hmessage|exact Hparams].
  - vm_compute in Hparams. discriminate Hparams.
Defined.

Lemma listAsset_rejects_bad_royalty_fields_witness :
  @listAsset Sim.client Sim.alice 42 5000000 (Some "ADDR-CAROL") (Some 110)
    (Sim.market0 1 true true)
  = (Throw (JsError "Royalty percentage must be 0-100"),
     Sim.market0 1 true true).
Proof.
  apply (proj1
           (@listAsset_rejects_bad_royalty_fields Sim.client Sim.alice 42
              5000000 (Some "ADDR-CAROL") (Some 110)
              (Sim.market0 1 true true) ltac:(lia))
           110 eq_refl).
  right. lia.
Defined.

Lemma listAsset_requires_holding_witness :
  @listAsset Sim.client Sim.bob 42 5000000 None None
    (Sim.market0 1 true true)
  = (Throw (JsError "Seller does not own asset 42"),
     Sim.market0 1 true true).
Proof.
  apply (proj1 (proj2
           (@listAsset_requires_holding Sim.client Sim.bob 42 5000000
              None None (Sim.market0 1 true true)))
           {| info_amount := 10000000; info_assets := None |}
           (Sim.ledger0 1 true true)).
  - split; [lia|]. split; intros ? Heq; discriminate Heq.
  - vm_compute. reflexivity.
  - intros h [].
Defined.

Lemma listAsset_then_queries_witness :
  exists l,
    @getListing Sim.client Sim.listing42 (Sim.listedPlain 1 true true)
    = (Return (Some l), Sim.listedPlain 1 true true)
    /\ price l = 5000000
    /\ status l = active.
Proof.
  destruct (@listAsset_then_queries Sim.client Sim.alice 42 5000000
              None None (Sim.market0 1 true true)
              Sim.listing42 (Sim.listedPlain 1 true true))
    as (l & Hget & _ & _ & _ & Hprice & Hstatus & _).
  - vm_compute. reflexivity.
  - exists l. auto.
Defined.

Lemma listAsset_id_and_other_listings_witness :
  Map_size (listings (Sim.listedPlain 1 true true)) = 1.
Proof.
  apply (proj2 (proj2
           (@listAsset_id_and_other_listings Sim.client Sim.alice 42
              5000000 None None (Sim.market0 1 true true)
              Sim.listing42 (Sim.listedPlain 1 true true)
              ltac:(vm_compute; reflexivity)))).
Defined.

Lemma buyAsset_fails_before_any_client_call_witness :
  @buyAsset Sim.client Sim.bob Sim.listing42 Sim.carol
    (Sim.listedPlain 1 true true)
  = (Throw (JsError "Seller account does not match listing"),
     Sim.listedPlain 1 true true).
Proof.
  apply (proj2
           (@buyAsset_fails_before_any_client_call Sim.client Sim.bob
              Sim.listing42 Sim.carol (Sim.listedPlain 1 true true))
           Sim.plainListing).
  - vm_compute. reflexivity.
  - reflexivity.
  - simpl. discriminate.
Defined.

Lemma buyAsset_opts_in_when_needed_witness :
  @buyAsset_preconditions Sim.client Sim.bob Sim.listing42 Sim.alice
    (Sim.listedPlain 1 true true)
  = (Return Sim.plainListing,
     {| listings := listings (Sim.listedPlain 1 true true);
        world :=
          snd (@assetOptIn Sim.client Sim.bob 42
                 (world (Sim.listedPlain 1 true true))) |}).
Proof.
  apply (proj1 (proj2
           (@buyAsset_opts_in_when_needed Sim.client Sim.bob Sim.listing42
              Sim.alice (Sim.listedPlain 1 true true) Sim.plainListing
              ltac:(vm_compute; reflexivity) eq_refl eq_refl))
           {| info_amount := 10000000; info_assets := None |}
           (world (Sim.listedPlain 1 true true))
           "optin-txid").
  - vm_compute. reflexivity.
  - intros [].
  - vm_compute. reflexivity.
Defined.

Lemma sold_or_cancelled_is_final_witness :
  @buyAsset Sim.client Sim.carol Sim.listing42 Sim.alice
    (runCalls [CallCancel Sim.alice Sim.listing42] Sim.soldPlain)
  = (Throw (JsError "Listing listing_42_1700000000000 is not active"),
     runCalls [CallCancel Sim.alice Sim.listing42] Sim.soldPlain).
Proof.
  apply (proj1
           (@sold_or_cancelled_is_final Sim.client
              (Sim.listedPlain 1 true true) Sim.listing42)
           Sim.bob Sim.alice "txid-0" Sim.soldPlain).
  vm_compute. reflexivity.
Defined.

Lemma reachable_listings_are_well_formed_witness :
  id Sim.royaltyListing = Sim.listing42.
Proof.
  apply (@reachable_listings_are_well_formed Sim.client
           (Sim.listedRoyalty 1 true true) Sim.listing42 Sim.royaltyListing).
  - apply reach_listAsset. apply reach_new.
  - vm_compute. reflexivity.
Defined.

Lemma reachable_settlement_always_builds_group_witness :
  exists signedTxns,
    @purchaseGroup Sim.client
      (purchaseOf Sim.bob Sim.alice Sim.royaltyListing) Sim.params0
    = Return signedTxns
    /\ (length signedTxns = 2%nat \/ length signedTxns = 3%nat)
    /\ Forall builderAccepts (map txn signedTxns).
Proof.
  apply (proj1 (proj2 (proj2
           (@reachable_settlement_always_builds_group Sim.client
              (Sim.listedRoyalty 1 true true) Sim.listing42
              Sim.royaltyListing Sim.bob Sim.alice
              ltac:(apply reach_listAsset; apply reach_new)
              ltac:(vm_compute; reflexivity)
              ltac:(vm_compute; reflexivity)
              ltac:(split; vm_compute; discriminate))))).
Defined.

Lemma listings_are_never_deleted_witness :
  Map_get Sim.listing42 (listings Sim.listedTwiceSameMs) <> None.
Proof.
  apply (proj1
           (proj1 (@listings_are_never_deleted Sim.client
                     (Sim.listedPlain 0 true true))
              Sim.carol 42 7000000 None None)).
  vm_compute. discriminate.
Defined.

Lemma cancel_or_sale_removes_one_active_listing_witness :
  exists st',
    @cancelListing Sim.client Sim.alice Sim.listing42
      (Sim.listedPlain 1 true true)
    = (Return tt, st')
    /\ world st' = world (Sim.listedPlain 1 true true).
Proof.
  destruct (proj1
              (@cancel_or_sale_removes_one_active_listing Sim.client
                 (Sim.listedPlain 1 true true) Sim.listing42)
              Sim.alice Sim.plainListing)
    as (st' & Hrun & Hworld & _).
  - vm_compute. reflexivity.
  - reflexivity.
  - reflexivity.
  - exists st'. auto.
Defined.

Lemma reachable_queries_agree_with_getListing_witness :
  In Sim.plainListing [Sim.plainListing]
  <-> fst (@getListing Sim.client (id Sim.plainListing)
             (Sim.listedPlain 1 true true))
      = Return (Some Sim.plainListing)
      /\ status Sim.plainListing = active.
Proof.
  apply (proj1
           (@reachable_queries_agree_with_getListing Sim.client
              (Sim.listedPlain 1 true true)
              ltac:(apply reach_listAsset; apply reach_new)
              Sim.plainListing)).
  vm_compute. reflexivity.
Defined.

Lemma sendPayment_validates_before_sending_witness :
  @PaymentManager.sendPayment Sim.client Sim.kit Sim.bob "ADDR-ALICE"
    9007199254740992 None (Sim.ledger0 1 true true)
  = (Throw
       (JsError
          "Payment failed: Microalgos should be positive and less than 2^53 - 1."),
     Sim.ledger0 1 true true).
Proof.
  apply (proj1 (proj2 (proj2
           (@sendPayment_validates_before_sending Sim.client Sim.kit
              Sim.bob "ADDR-ALICE" 9007199254740992 None
              (Sim.ledger0 1 true true))))).
  - reflexivity.
  - vm_compute. reflexivity.
Defined.


Lemma createEscrowPayment_moves_no_funds_witness :
  @PaymentManager.createEscrowPayment Sim.client Sim.bob
    "ADDR-ALICE" 0 PaymentManager.asset_received (Sim.ledger0 1 true true)
  = (Return "escrow_pending_1700000000000",
     Sim.setClock (Sim.ledger0 1 true true) 1700000000001).
Proof.
  apply (proj2 (proj2 (proj2
           (@createEscrowPayment_moves_no_funds Sim.client Sim.bob
              "ADDR-ALICE" 0 (Sim.ledger0 1 true true))))
           eq_refl 1700000000000).
  vm_compute. reflexivity.
Defined.

Lemma transferAsset_sends_only_to_opted_in_witness :
  @AssetManager.transferAsset Sim.client Sim.kit Sim.alice "ADDR-BOB" 42 1
    None (Sim.ledger0 1 true true)
  = (Throw
       (JsError
          "Asset transfer failed: Recipient ADDR-BOB has not opted into asset 42"),
     Sim.ledger0 1 true true).
Proof.
  apply (proj2 (proj2
           (@transferAsset_sends_only_to_opted_in Sim.client Sim.kit
              Sim.alice "ADDR-BOB" 42 1 None (Sim.ledger0 1 true true)))
           {| info_amount := 10000000; info_assets := None |}
           (Sim.ledger0 1 true true)).
  - reflexivity.
  - lia.
  - vm_compute. reflexivity.
  - intros [].
Defined.

Lemma createToken_validates_and_defaults_witness :
  @AssetManager.createToken Sim.client Sim.kit Sim.alice "Gold" "GLD"
    1000000 20 None None None None None (Sim.ledger0 1 true true)
  = (Throw (JsError "Token creation failed: Decimals must be 0-19"),
     Sim.ledger0 1 true true).
Proof.
  apply (proj1
           (@createToken_validates_and_defaults Sim.client Sim.kit Sim.alice
              "Gold" "GLD" 1000000 20 None None None None None
              (Sim.ledger0 1 true true))).
  right. lia.
Defined.

(** X24, on the small ledger: Alice's listing with royalty, on doubles. *)
Lemma listAsset_on_integers_is_listAsset_on_doubles_witness :
  @Doubles.listAsset Sim.client Sim.alice 42 (Number_ofZ 5000000)
    (Some "ADDR-CAROL") (Some (Number_ofZ 5))
    (Doubles.ofMarket (Sim.market0 1 true true))
  = (Return Sim.listing42, Doubles.ofMarket (Sim.listedRoyalty 1 true true)).
Proof.
  assert (Hprice : Z.abs 5000000 < 2 ^ 53) by reflexivity.
  assert (Hpct : forall pct, Some 5 = Some pct -> Z.abs pct < 2 ^ 53)
    by (intros pct Heq; injection Heq as <-; reflexivity).
  exact (@listAsset_on_integers_is_listAsset_on_doubles Sim.client
           Sim.alice 42 5000000 (Some "ADDR-CAROL") (Some 5)
           (Sim.market0 1 true true) Hprice Hpct).
Defined.
